(** * typedoc-plugin-lib-utils: search rebuild, navigation merge, codec and
      manifest lookup, embedded from [src/index.ts]. *)

From Stdlib Require Import ZArith QArith Bool List Ascii String DecimalString Lia Sorted.
From stdpp Require Import base option list strings functions gmap fin_maps.

Local Open Scope string_scope.
Local Open Scope list_scope.

(** ** JavaScript values used by the library *)

(** A JS [number]: a double is either [NaN] or a value; the finite values
    that matter here (boosts, weights) are taken as rationals. *)
Inductive number : Type :=
  | NaN
  | Num (q : Q).

(** [x <= 0] on JS numbers: any comparison with [NaN] is false. *)
Definition num_le0 (x : number) : bool :=
  match x with
  | NaN => false
  | Num q => Qle_bool q 0
  end.

(** [x > 0] on JS numbers. *)
Definition num_gt0 (x : number) : bool :=
  match x with
  | NaN => false
  | Num q => negb (Qle_bool q 0)
  end.

Definition num_one : number := Num 1.

(** JS truthiness of a string: the empty string is falsy. *)
Definition truthy (s : string) : bool :=
  match s with
  | EmptyString => false
  | String _ _ => true
  end.

(** JS truthiness of a possibly [undefined] string. *)
Definition truthy_opt (s : option string) : bool :=
  match s with
  | Some s => truthy s
  | None => false
  end.

(** [a ?? b] *)
Definition nullish {A} (a : option A) (b : A) : A :=
  match a with
  | Some x => x
  | None => b
  end.

(** [parts.join(sep)] *)
Fixpoint join (sep : string) (parts : list string) : string :=
  match parts with
  | [] => ""
  | [p] => p
  | p :: rest => p +:+ sep +:+ join sep rest
  end.

Definition LF : string := String (ascii_of_nat 10) EmptyString.

(** ** The host's documentation model (typedoc), as far as the code reads it *)

Record CommentDisplayPart := { part_text : string }.

Record CommentTag := { tag_content : list CommentDisplayPart }.

Record Comment := {
  summary : list CommentDisplayPart;
  blockTags : list CommentTag
}.

Record SignatureReflection := { sig_comment : option Comment }.

(** What [instanceof], [isDeclaration()] and [isDocument()] distinguish,
    with the members that exist only on that class. *)
Inductive ReflectionClass : Type :=
  | DeclarationReflection
      (signatures : option (list SignatureReflection))
      (getSignature setSignature : option SignatureReflection)
  | DocumentReflection (content : list CommentDisplayPart)
  | OtherReflection.

(** [reflection.parent]: either the project root or a container, of which
    only [getFullName()] is read. *)
Inductive ParentReflection : Type :=
  | ProjectReflection
  | ContainerReflection (fullName : string).

Record Reflection := {
  r_class : ReflectionClass;
  r_url : option string;
  r_name : string;
  r_kind : Z;
  r_isExternal : bool;
  r_parent : option ParentReflection;
  r_comment : option Comment;
  r_relevanceBoost : option number;
  r_isDeprecated : bool
}.

Definition isDeclaration (r : Reflection) : bool :=
  match r_class r with DeclarationReflection _ _ _ => true | _ => false end.

Definition isDocument (r : Reflection) : bool :=
  match r_class r with DocumentReflection _ => true | _ => false end.

(** [reflection.url === key], the test given to [findIndex]. *)
Definition urlIs (key : option string) (r : Reflection) : Prop := r_url r = key.

#[global] Instance urlIs_dec key r : Decision (urlIs key r).
Proof. unfold urlIs. apply _. Defined.

(** [reflections.findIndex(...)] together with [reflections[reflectionIndex]]:
    the first entity whose url equals the key, with its index. *)
Definition findReflection (reflections : list Reflection) (key : option string)
  : option (nat * Reflection) :=
  list_find (urlIs key) reflections.

(** The text gathered from a list of comments:
    [comments.flatMap(c => [...c.summary, ...c.blockTags.flatMap(t => t.content)])
             .map(part => part.text).join('\n')]. *)
Definition commentParts (c : Comment) : list CommentDisplayPart :=
  summary c ++ flat_map tag_content (blockTags c).

Definition commentsText (comments : list Comment) : string :=
  join LF (map part_text (flat_map commentParts comments)).

Definition signatureComments (sigs : list SignatureReflection) : list Comment :=
  omap sig_comment sigs.

Definition accessorComment (sig : option SignatureReflection) : list Comment :=
  match sig with
  | Some s => match sig_comment s with Some c => [c] | None => [] end
  | None => []
  end.

(** The [comments] array built in the fill phase: the entity's own comment,
    then for a declaration its signatures' comments, then the getter's and
    the setter's. *)
Definition gatherComments (r : Reflection) : list Comment :=
  match r_comment r with Some c => [c] | None => [] end ++
  match r_class r with
  | DeclarationReflection sigs getSig setSig =>
      signatureComments (nullish sigs []) ++
      accessorComment getSig ++ accessorComment setSig
  | _ => []
  end.

Definition documentText (r : Reflection) : option string :=
  match r_class r with
  | DocumentReflection content => Some (join LF (map part_text content))
  | _ => None
  end.

(** ** Search rows and the inverted-index builder *)

Module Search.

(** [SearchItem]: every optional member is [None] when [undefined].

    Rows are values here. The row list decoded from the artifact holds one
    object per row, and a callback is taken to change the rows, or the
    row, it is handed and nothing else; so the in-place updates of the
    loops become a new row per position. A row list that holds one object
    at two positions is the subject of [SharedRows], where the rows are
    objects in a store. *)
Record SearchItem := {
  url : string;
  kind : option Z;
  name : option string;
  classes : option string;
  parent : option string;
  comment : option string;
  document : option string;
  boost : option number
}.

Definition set_kind (v : option Z) (i : SearchItem) : SearchItem :=
  {| url := url i; kind := v; name := name i; classes := classes i;
     parent := parent i; comment := comment i; document := document i;
     boost := boost i |}.

Definition set_name (v : option string) (i : SearchItem) : SearchItem :=
  {| url := url i; kind := kind i; name := v; classes := classes i;
     parent := parent i; comment := comment i; document := document i;
     boost := boost i |}.

Definition set_classes (v : option string) (i : SearchItem) : SearchItem :=
  {| url := url i; kind := kind i; name := name i; classes := v;
     parent := parent i; comment := comment i; document := document i;
     boost := boost i |}.

Definition set_parent (v : option string) (i : SearchItem) : SearchItem :=
  {| url := url i; kind := kind i; name := name i; classes := classes i;
     parent := v; comment := comment i; document := document i;
     boost := boost i |}.

Definition set_comment (v : option string) (i : SearchItem) : SearchItem :=
  {| url := url i; kind := kind i; name := name i; classes := classes i;
     parent := parent i; comment := v; document := document i;
     boost := boost i |}.

Definition set_document (v : option string) (i : SearchItem) : SearchItem :=
  {| url := url i; kind := kind i; name := name i; classes := classes i;
     parent := parent i; comment := comment i; document := v;
     boost := boost i |}.

Definition set_boost (v : option number) (i : SearchItem) : SearchItem :=
  {| url := url i; kind := kind i; name := name i; classes := classes i;
     parent := parent i; comment := comment i; document := document i;
     boost := v |}.

(** A value of a document handed to [builder.add]. *)
Inductive FieldValue : Type :=
  | FUndefined
  | FString (s : string)
  | FNumber (n : nat).

Definition optField (s : option string) : FieldValue :=
  match s with
  | Some s => FString s
  | None => FUndefined
  end.

(** The lunr [Builder], as far as the code drives it: the pipeline
    functions added, the reference field, the declared fields with their
    boosts, and the documents added, oldest first, each with the [boost]
    attribute it was added with. *)
Record Builder := {
  pipeline : list string;
  ref : option string;
  fields : list (string * number);
  documents : list (gmap string FieldValue * option number)
}.

Definition newBuilder : Builder :=
  {| pipeline := []; ref := None; fields := []; documents := [] |}.

Definition pipeline_add (fn : string) (b : Builder) : Builder :=
  {| pipeline := pipeline b ++ [fn]; ref := ref b; fields := fields b;
     documents := documents b |}.

Definition set_ref (r : string) (b : Builder) : Builder :=
  {| pipeline := pipeline b; ref := Some r; fields := fields b;
     documents := documents b |}.

Definition field (key : string) (w : number) (b : Builder) : Builder :=
  {| pipeline := pipeline b; ref := ref b; fields := fields b ++ [(key, w)];
     documents := documents b |}.

Definition add (doc : gmap string FieldValue) (attr_boost : option number)
  (b : Builder) : Builder :=
  {| pipeline := pipeline b; ref := ref b; fields := fields b;
     documents := documents b ++ [(doc, attr_boost)] |}.

(** The object literal
    [{ name, comment, document, ...extra, id }]: later members win. *)
Definition indexDocument (item : SearchItem) (extra : gmap string string)
  (id : nat) : gmap string FieldValue :=
  <["id" := FNumber id]>
    ((FString <$> extra) ∪
     <["document" := optField (document item)]>
       (<["comment" := optField (comment item)]>
          (<["name" := optField (name item)]> ∅))).

(** [delete row.comment; delete row.document; delete row.boost] *)
Definition strip (i : SearchItem) : SearchItem :=
  set_boost None (set_document None (set_comment None i)).

Section Rebuild.

(** The host: the two search settings, the theme's class derivation, the
    project's entities, and what the [PREPARE_INDEX] listeners left in the
    index event. *)
Variable searchInComments searchInDocuments : bool.
Variable getReflectionClasses : Reflection -> string.
Variable projectReflections : list Reflection.
Variable searchFields : list (gmap string string).
Variable searchFieldWeights : list (string * number).

(** The filter both rebuild paths apply to [event.project.reflections]. *)
Definition searchable (r : Reflection) : bool :=
  (isDeclaration r || isDocument r) && truthy_opt (r_url r) &&
  truthy (r_name r) && negb (r_isExternal r).

Definition reflections : list Reflection := filter (fun r => searchable r = true) projectReflections.

(** [new Builder()] up to the loop over the rows. *)
Definition preparedBuilder : Builder :=
  fold_left (fun b kw => field (fst kw) (snd kw) b) searchFieldWeights
    (set_ref "id" (pipeline_add "trimmer" newBuilder)).

(** [reflection ? indexEvent.searchFields[reflectionIndex] : {}] *)
Definition extraFields (found : option (nat * Reflection)) : gmap string string :=
  match found with
  | Some (idx, _) => default ∅ (searchFields !! idx)
  | None => ∅
  end.

(** The fill steps shared by both paths, in source order. *)
Definition fillKind (r : Reflection) (i : SearchItem) : SearchItem :=
  match kind i with
  | None => set_kind (Some (r_kind r)) i
  | Some _ => i
  end.

Definition fillName (r : Reflection) (i : SearchItem) : SearchItem :=
  match name i with
  | None => set_name (Some (r_name r)) i
  | Some _ => i
  end.

Definition fillClasses (r : Reflection) (i : SearchItem) : SearchItem :=
  match classes i with
  | None => set_classes (Some (getReflectionClasses r)) i
  | Some _ => i
  end.

Definition fillParent (r : Reflection) (i : SearchItem) : SearchItem :=
  match parent i with
  | None =>
      match r_parent r with
      | Some (ContainerReflection fullName) => set_parent (Some fullName) i
      | Some ProjectReflection | None => i
      end
  | Some _ => i
  end.

Definition fillComment (r : Reflection) (i : SearchItem) : SearchItem :=
  match comment i with
  | None =>
      if searchInComments then
        match gatherComments r with
        | [] => i
        | comments => set_comment (Some (commentsText comments)) i
        end
      else i
  | Some _ => i
  end.

Definition fillDocument (r : Reflection) (i : SearchItem) : SearchItem :=
  match document i with
  | None =>
      if searchInDocuments then
        match documentText r with
        | Some text => set_document (Some text) i
        | None => i
        end
      else i
  | Some _ => i
  end.

(** Legacy [rebuildSearch]: [relevanceBoost ?? 1], then reset to 1 when [<= 0]. *)
Definition fillBoostLegacy (r : Reflection) (i : SearchItem) : SearchItem :=
  match boost i with
  | None =>
      let b := nullish (r_relevanceBoost r) num_one in
      if num_le0 b then set_boost (Some num_one) i else set_boost (Some b) i
  | Some _ => i
  end.

(** Post-render job: [relevanceBoost ?? 1] and nothing more. *)
Definition fillBoost (r : Reflection) (i : SearchItem) : SearchItem :=
  match boost i with
  | None => set_boost (Some (nullish (r_relevanceBoost r) num_one)) i
  | Some _ => i
  end.

Definition fillCommon (r : Reflection) (i : SearchItem) : SearchItem :=
  fillDocument r (fillComment r (fillParent r (fillClasses r (fillName r (fillKind r i))))).

(** The body of [if (reflection) { ... }] in [rebuildSearch]. *)
Definition fillLegacy (r : Reflection) (i : SearchItem) : SearchItem :=
  fillBoostLegacy r (fillCommon r i).

(** The body of [if (reflection) { ... }] in the post-render job. *)
Definition fill (r : Reflection) (i : SearchItem) : SearchItem :=
  fillBoost r (fillCommon r i).

(** The per-row fill phase with its entity lookup. *)
Definition fillPhaseLegacy (i : SearchItem) : SearchItem :=
  match findReflection reflections (Some (url i)) with
  | Some (_, r) => fillLegacy r i
  | None => i
  end.

Definition fillPhase (i : SearchItem) : SearchItem :=
  match findReflection reflections (Some (url i)) with
  | Some (_, r) => fill r i
  | None => i
  end.

(** [for (const [id, row] of rows.entries()) body]: the body sees the
    position, the row and the builder, and leaves the row as mutated. *)
Fixpoint forEntries (body : nat -> SearchItem -> Builder -> SearchItem * Builder)
  (id : nat) (rows : list SearchItem) (b : Builder) : list SearchItem * Builder :=
  match rows with
  | [] => ([], b)
  | row :: rest =>
      let '(row', b') := body id row b in
      let '(rest', b'') := forEntries body (S id) rest b' in
      (row' :: rest', b'')
  end.

(** The search artifact: [index] stands for [builder.build().toJSON()], a
    function of the builder's final state. *)
Record SearchData := {
  rows : list SearchItem;
  index : Builder
}.

(** *** Legacy path: [rebuildSearch] *)

Record RebuildOptions := {
  formatName : option (option string -> option Reflection -> option string);
  formatComment : option (option string -> option Reflection -> option string);
  formatDocument : option (option string -> option Reflection -> option string)
}.

Definition applyFormat (f : option (option string -> option Reflection -> option string))
  (v : option string) (reflection : option Reflection) : option string :=
  match f with
  | Some g => g v reflection
  | None => v
  end.

(** The fill and format part of one iteration of the legacy loop, for a
    row that passed the [url] guard. *)
Definition legacyFormatted (options : RebuildOptions) (row : SearchItem) : SearchItem :=
  let reflection := snd <$> findReflection reflections (Some (url row)) in
  let row := fillPhaseLegacy row in
  let row := set_name (applyFormat (formatName options) (name row) reflection) row in
  let row := set_comment (applyFormat (formatComment options) (comment row) reflection) row in
  set_document (applyFormat (formatDocument options) (document row) reflection) row.

(** One iteration of the loop of [rebuildSearch]. *)
Definition rebuildSearchRow (options : RebuildOptions) (id : nat)
  (row : SearchItem) (b : Builder) : SearchItem * Builder :=
  if negb (truthy (url row)) then (row, b)
  else
    let found := findReflection reflections (Some (url row)) in
    let row' := legacyFormatted options row in
    (strip row', add (indexDocument row' (extraFields found) id) (boost row') b).

Definition rebuildSearch (search : SearchData) (options : RebuildOptions) : SearchData :=
  let '(rows', b) := forEntries (rebuildSearchRow options) 0 (rows search) preparedBuilder in
  {| rows := rows'; index := b |}.

(** *** Current path: the post-render job of [getSearchTasks] *)

Definition AlterSearchCallback := list SearchItem -> list SearchItem.

Definition FormatSearchCallback := SearchItem -> option Reflection -> SearchItem.

Record SearchTasks := {
  alter : list AlterSearchCallback;
  format : list FormatSearchCallback
}.

(** [for (const alter of searchTasks.alter) await alter(search.rows, ...)] *)
Definition alterPhase (tasks : SearchTasks) (rs : list SearchItem) : list SearchItem :=
  fold_left (fun rs f => f rs) (alter tasks) rs.

(** [for (const format of searchTasks.format) await format(item, ...)] *)
Definition formatPhase (tasks : SearchTasks) (reflection : option Reflection)
  (item : SearchItem) : SearchItem :=
  fold_left (fun it f => f it reflection) (format tasks) item.

(** A row after the fill phase and the format phase of the job. *)
Definition formatted (tasks : SearchTasks) (item : SearchItem) : SearchItem :=
  formatPhase tasks (snd <$> findReflection reflections (Some (url item)))
    (fillPhase item).

(** [item.url && (item.boost === undefined || item.boost > 0)] *)
Definition indexable (item : SearchItem) : bool :=
  truthy (url item) &&
  match boost item with
  | None => true
  | Some x => num_gt0 x
  end.

(** [item.name = item.name ?? ''] and the three deletes. *)
Definition persisted (item : SearchItem) : SearchItem :=
  strip (set_name (Some (nullish (name item) "")) item).

(** One iteration of the loop of the job. *)
Definition searchJobRow (tasks : SearchTasks) (id : nat) (item : SearchItem)
  (b : Builder) : SearchItem * Builder :=
  let found := findReflection reflections (Some (url item)) in
  let item' := formatted tasks item in
  let b' :=
    if indexable item'
    then add (indexDocument item' (extraFields found) id)
             (Some (nullish (boost item') num_one)) b
    else b in
  (persisted item', b').

(** The job from the decoded artifact to the value handed to [writeGzipJson]. *)
Definition searchJob (tasks : SearchTasks) (search : SearchData) : SearchData :=
  let rs := alterPhase tasks (rows search) in
  let '(rows', b) := forEntries (searchJobRow tasks) 0 rs preparedBuilder in
  {| rows := rows'; index := b |}.

(** The document one iteration of the job hands to [builder.add] for the
    row at position [id], if it adds one. *)
Definition jobDocument (tasks : SearchTasks) (id : nat) (item : SearchItem)
  : option (gmap string FieldValue * option number) :=
  let item' := formatted tasks item in
  if indexable item'
  then Some (indexDocument item'
               (extraFields (findReflection reflections (Some (url item)))) id,
             Some (nullish (boost item') num_one))
  else None.

(** The same for one iteration of the legacy loop. *)
Definition legacyDocument (options : RebuildOptions) (id : nat) (row : SearchItem)
  : option (gmap string FieldValue * option number) :=
  if truthy (url row)
  then Some (indexDocument (legacyFormatted options row)
               (extraFields (findReflection reflections (Some (url row)))) id,
             boost (legacyFormatted options row))
  else None.

End Rebuild.

(** The [id] a document was added under. *)
Definition docId (d : gmap string FieldValue * option number) : option FieldValue :=
  fst d !! "id".

(** [if (b <= 0) b = 1] *)
Definition coerceBoost (b : number) : number :=
  if num_le0 b then num_one else b.

(** A member that was set keeps its value. *)
Definition kept {A} (before after : option A) : Prop :=
  forall v, before = Some v -> after = Some v.

(** No member of the row that was set has been overwritten. *)
Definition keepsSet (before after : SearchItem) : Prop :=
  url after = url before /\
  kept (kind before) (kind after) /\
  kept (name before) (name after) /\
  kept (classes before) (classes after) /\
  kept (parent before) (parent after) /\
  kept (comment before) (comment after) /\
  kept (document before) (document after) /\
  kept (boost before) (boost after).

(** A row without [comment], [document] and [boost]. *)
Definition stripped (i : SearchItem) : Prop :=
  comment i = None /\ document i = None /\ boost i = None.

End Search.

(** ** The navigation tree *)

Module Navigation.

(** [NavigationItem]; a member that is [undefined] is [None]. *)
#[warnings="-register-all"]
Inductive NavigationItem : Type := mkNavigationItem {
  path : option string;
  text : option string;
  kind : option Z;
  class : option string;
  children : option (list NavigationItem)
}.

(** The object [dummyItem] handed to the format callbacks. *)
Module Dummy.
Record t := mk {
  path : option string;
  text : option string;
  kind : option Z;
  class : option string
}.
End Dummy.

Definition AlterNavigationCallback := list NavigationItem -> list NavigationItem.

Definition FormatNavigationCallback := Dummy.t -> option Reflection -> Dummy.t.

Record NavigationTasks := {
  alter : list AlterNavigationCallback;
  format : list FormatNavigationCallback
}.

Section Job.

Variable getReflectionClasses : Reflection -> string.
Variable projectReflections : list Reflection.
Variable tasks : NavigationTasks.

(** The filter of the navigation job: any entity with a url and a name
    that is not external. *)
Definition linkable (r : Reflection) : bool :=
  truthy_opt (r_url r) && truthy (r_name r) && negb (r_isExternal r).

Definition reflections : list Reflection :=
  filter (fun r => linkable r = true) projectReflections.

(** The class the theme derives for the entity: only for a declaration
    or a document, the empty string otherwise. *)
Definition derivedClass (r : Reflection) : string :=
  if isDeclaration r || isDocument r then getReflectionClasses r else "".

(** [if (reflection.isDeprecated()) { if (c) c = ' ' + c; c = 'deprecated' + c }] *)
Definition markDeprecated (r : Reflection) (c : string) : string :=
  if r_isDeprecated r
  then "deprecated" +:+ (if truthy c then " " +:+ c else c)
  else c.

(** The body of [if (reflection) { ... }]: text, kind and class are set
    when [undefined]. *)
Definition fill (r : Reflection) (item : NavigationItem) : NavigationItem :=
  {| path := path item;
     text := match text item with None => Some (r_name r) | t => t end;
     kind := match kind item with None => Some (r_kind r) | k => k end;
     class := match class item with
              | None => Some (markDeprecated r (derivedClass r))
              | c => c
              end;
     children := children item |}.

Definition fillPhase (item : NavigationItem) : NavigationItem :=
  match findReflection reflections (path item) with
  | Some (_, r) => fill r item
  | None => item
  end.

Definition dummyItem (item : NavigationItem) : Dummy.t :=
  {| Dummy.path := path item; Dummy.text := text item;
     Dummy.kind := kind item; Dummy.class := class item |}.

(** [for (const format of navigationTasks.format) await format(dummyItem, ...)] *)
Definition formatPhase (reflection : option Reflection) (d : Dummy.t) : Dummy.t :=
  fold_left (fun d f => f d reflection) (format tasks) d.

(** [item.text = dummyItem.text; item.kind = ...; item.class = ...] *)
Definition copyBack (d : Dummy.t) (item : NavigationItem) : NavigationItem :=
  {| path := path item;
     text := Dummy.text d;
     kind := Dummy.kind d;
     class := Dummy.class d;
     children := children item |}.

(** One node's own processing, before the walk descends into its children. *)
Definition formatNode (item : NavigationItem) : NavigationItem :=
  let reflection := snd <$> findReflection reflections (path item) in
  let item' := fillPhase item in
  copyBack (formatPhase reflection (dummyItem item')) item'.

(** [formatNavigationItems]: each node is processed, then its children in
    order when the list is present and not empty. *)
Fixpoint formatNavigationItem (item : NavigationItem) : NavigationItem :=
  match item with
  | mkNavigationItem p t k c ch =>
      let node := formatNode (mkNavigationItem p t k c ch) in
      mkNavigationItem (path node) (text node) (kind node) (class node)
        match ch with
        | Some (child :: rest) =>
            Some (formatNavigationItem child :: map formatNavigationItem rest)
        | other => other
        end
  end.

Definition formatNavigationItems (items : list NavigationItem) : list NavigationItem :=
  map formatNavigationItem items.

(** The job from the decoded tree to the value handed to [writeGzipJson]. *)
Definition navigationJob (items : list NavigationItem) : list NavigationItem :=
  formatNavigationItems (fold_left (fun items f => f items) (alter tasks) items).

End Job.

(** What the format phase must leave alone: the tree of paths. *)
#[warnings="-register-all"]
Inductive Shape : Type :=
  | ShapeNode (p : option string) (sub : option (list Shape)).

Fixpoint shape (item : NavigationItem) : Shape :=
  match item with
  | mkNavigationItem p _ _ _ ch =>
      ShapeNode p match ch with
                  | Some l => Some (map shape l)
                  | None => None
                  end
  end.


End Navigation.

(** ** Regular expressions, as far as the code writes them *)

Module RegExp.

(** The characters the class [[.*+?^${}()|[\]\\]] lists: the syntax
    characters of a pattern. *)
Definition syntaxCharacters : list ascii :=
  list_ascii_of_string ".*+?^${}()|[]\".

Definition isSyntaxCharacter (c : ascii) : bool :=
  existsb (Ascii.eqb c) syntaxCharacters.

(** [s.replace(/[.*+?^${}()|[\]\\]/g, '\\$&')]: a backslash goes before
    every syntax character. *)
Fixpoint escapeRegExp (s : string) : string :=
  match s with
  | EmptyString => EmptyString
  | String c rest =>
      if isSyntaxCharacter c
      then String "\" (String c (escapeRegExp rest))
      else String c (escapeRegExp rest)
  end.

(** The patterns of this library use single characters, the class [[^c]],
    the quantifiers [*] and [?], one capture group, and the two anchors. *)
Inductive Atom : Type :=
  | Lit (c : ascii)
  | NotLit (c : ascii)
  | AnyChar.

Inductive Quantifier : Type := One | Star | Opt.

Inductive Item : Type :=
  | Match (a : Atom) (q : Quantifier)
  | GroupOpen
  | GroupClose.

Record Pattern := {
  items : list Item;
  anchoredEnd : bool
}.

(** The lexical elements of a pattern source. *)
Inductive Token : Type :=
  | TAtom (a : Atom)
  | TStar
  | TOpt
  | TOpen
  | TClose
  | TDollar.

Definition consToken (t : Token) (rest : option (list Token)) : option (list Token) :=
  match rest with
  | Some ts => Some (t :: ts)
  | None => None
  end.

(** Reading the source of a pattern, after the leading [^]: a backslash
    makes a syntax character (or a slash) literal, [[^c]] is the class of
    everything but [c], any other character that is not a syntax
    character stands for itself. A source outside this fragment gives
    [None]. *)
Fixpoint scan (src : string) : option (list Token) :=
  match src with
  | EmptyString => Some []
  | String "\" (String c rest) =>
      if isSyntaxCharacter c || Ascii.eqb c "/"
      then consToken (TAtom (Lit c)) (scan rest)
      else None
  | String "[" (String "^" (String c (String "]" rest))) =>
      if isSyntaxCharacter c then None else consToken (TAtom (NotLit c)) (scan rest)
  | String "(" rest => consToken TOpen (scan rest)
  | String ")" rest => consToken TClose (scan rest)
  | String "." rest => consToken (TAtom AnyChar) (scan rest)
  | String "*" rest => consToken TStar (scan rest)
  | String "?" rest => consToken TOpt (scan rest)
  | String "$" rest => consToken TDollar (scan rest)
  | String c rest =>
      if isSyntaxCharacter c then None else consToken (TAtom (Lit c)) (scan rest)
  end.

Definition consItem (i : Item) (rest : option Pattern) : option Pattern :=
  match rest with
  | Some p => Some {| items := i :: items p; anchoredEnd := anchoredEnd p |}
  | None => None
  end.

(** A quantifier belongs to the atom before it; [$] is read only as the
    last token. *)
Fixpoint build (ts : list Token) : option Pattern :=
  match ts with
  | [] => Some {| items := []; anchoredEnd := false |}
  | [TDollar] => Some {| items := []; anchoredEnd := true |}
  | TAtom a :: TStar :: rest => consItem (Match a Star) (build rest)
  | TAtom a :: TOpt :: rest => consItem (Match a Opt) (build rest)
  | TAtom a :: rest => consItem (Match a One) (build rest)
  | TOpen :: rest => consItem GroupOpen (build rest)
  | TClose :: rest => consItem GroupClose (build rest)
  | _ => None
  end.

(** [new RegExp(source)] for a source that starts with [^]. *)
Definition compile (source : string) : option Pattern :=
  match source with
  | String "^" rest =>
      match scan rest with
      | Some ts => build ts
      | None => None
      end
  | _ => None
  end.

Definition atomMatches (a : Atom) (c : ascii) : bool :=
  match a with
  | Lit x => Ascii.eqb x c
  | NotLit x => negb (Ascii.eqb x c)
  | AnyChar => negb (Ascii.eqb c "010" || Ascii.eqb c "013")
  end.

(** The text between the group's two ends, given the input left at each. *)
Definition captured (atOpen atClose : string) : string :=
  substring 0 (String.length atOpen - String.length atClose) atOpen.

(** [a*] followed by the rest of the pattern, [next]: greedy, so one more
    character is tried first, and the rest only when that fails. *)
Fixpoint star (a : Atom) (next : string -> option (string * string)) (s : string)
  : option (string * string) :=
  match s with
  | String c s' =>
      if atomMatches a c
      then match star a next s' with
           | Some r => Some r
           | None => next s
           end
      else next s
  | EmptyString => next s
  end.

(** Backtracking match from the start of [s]: greedy quantifiers, first
    success wins. The result is the capture of group 1 and the input left
    after the match. *)
Fixpoint matchItems (its : list Item) (atEnd : bool) (s : string)
  (atOpen : string) (group : string) : option (string * string) :=
  match its with
  | [] =>
      if atEnd
      then match s with EmptyString => Some (group, s) | _ => None end
      else Some (group, s)
  | GroupOpen :: rest => matchItems rest atEnd s s group
  | GroupClose :: rest => matchItems rest atEnd s atOpen (captured atOpen s)
  | Match a One :: rest =>
      match s with
      | String c s' =>
          if atomMatches a c then matchItems rest atEnd s' atOpen group else None
      | EmptyString => None
      end
  | Match a Opt :: rest =>
      match s with
      | String c s' =>
          if atomMatches a c
          then match matchItems rest atEnd s' atOpen group with
               | Some r => Some r
               | None => matchItems rest atEnd s atOpen group
               end
          else matchItems rest atEnd s atOpen group
      | EmptyString => matchItems rest atEnd s atOpen group
      end
  | Match a Star :: rest =>
      star a (fun s => matchItems rest atEnd s atOpen group) s
  end.

Definition exec (p : Pattern) (s : string) : option (string * string) :=
  matchItems (items p) (anchoredEnd p) s s "".

(** [regexp.test(s)] *)
Definition test (p : Pattern) (s : string) : bool :=
  match exec p s with
  | Some _ => true
  | None => false
  end.

(** The replacement strings the code passes to [replace]. *)
Inductive Replacement : Type :=
  | Group1
  | Empty.

(** [s.replace(regexp, replacement)] for a pattern anchored at the start:
    the match, if any, begins at position 0, and the text after it stays. *)
Definition replace (p : Pattern) (r : Replacement) (s : string) : string :=
  match exec p s with
  | Some (group, rest) =>
      match r with
      | Group1 => group +:+ rest
      | Empty => rest
      end
  | None => s
  end.

(** The items of a pattern that matches exactly the text [s]. *)
Definition literal (s : string) : list Item :=
  map (fun c => Match (Lit c) One) (list_ascii_of_string s).

(** Tokens that do not start with a quantifier. *)
Definition unquantified (ts : list Token) : bool :=
  match ts with
  | TStar :: _ | TOpt :: _ => false
  | _ => true
  end.

End RegExp.

(** ** JSON values *)

(** [JSONValue]; an object keeps its members in insertion order. Numbers
    are the integers, which is what the artifacts and manifests read here
    hold where a claim looks at them. *)
#[warnings="-register-all"]
Inductive JSONValue : Type :=
  | JNull
  | JBool (b : bool)
  | JNumber (n : Z)
  | JString (s : string)
  | JArray (elements : list JSONValue)
  | JObject (members : list (string * JSONValue)).

(** Own-property lookup in the member list of an object. *)
Fixpoint member (key : string) (members : list (string * JSONValue)) : option JSONValue :=
  match members with
  | [] => None
  | (k, v) :: rest => if String.eqb k key then Some v else member key rest
  end.

(** ** Filesystem discovery *)

Module Discovery.

(** An absolute directory or file, as its segments below the root. *)
Definition Path := list string.

Definition dirname (p : Path) : Path := removelast p.

(** [join(dir, name)] and [resolve(dir, name)] for a plain file name. *)
Definition joinPath (dir : Path) (name : string) : Path := dir ++ [name].

(** The text of an absolute path. *)
Definition pathString (p : Path) : string :=
  match p with
  | [] => "/"
  | _ => fold_right (fun seg acc => "/" +:+ seg +:+ acc) "" p
  end.

(** [s.replace(/\\/g, '/')] *)
Fixpoint slashes (s : string) : string :=
  match s with
  | EmptyString => EmptyString
  | String c rest => String (if Ascii.eqb c "\" then "/"%char else c) (slashes rest)
  end.

(** The outcome of evaluating an expression that may throw. *)
Inductive Completion (A : Type) : Type :=
  | Normal (a : A)
  | Throw.

Arguments Normal {A} a.
Arguments Throw {A}.

(** [typeof v === 'object'] *)
Definition typeofObject (v : JSONValue) : bool :=
  match v with
  | JNull | JArray _ | JObject _ => true
  | _ => false
  end.

(** [typeof v === 'string'], for a member that may be [undefined]. *)
Definition typeofString (v : option JSONValue) : bool :=
  match v with
  | Some (JString _) => true
  | _ => false
  end.

(** [v.key] for one of the keys [name] and [version]: reading a member of
    [null] throws; an array or a primitive has no such member. *)
Definition getMember (v : JSONValue) (key : string) : Completion (option JSONValue) :=
  match v with
  | JNull => Throw
  | JObject members => Normal (member key members)
  | _ => Normal None
  end.

(** The condition of the [if] that throws ['abort'], with its short
    circuits; [Normal true] is the abort. *)
Definition rejects (packageJSON : JSONValue) : Completion bool :=
  if negb (typeofObject packageJSON) then Normal true
  else
    match getMember packageJSON "name" with
    | Throw => Throw
    | Normal nm =>
        if negb (typeofString nm) then Normal true
        else
          match getMember packageJSON "version" with
          | Throw => Throw
          | Normal ver =>
              Normal (match ver with
                      | None => false
                      | Some _ => negb (typeofString ver)
                      end)
          end
    end.

(** [/^package\.json$/] *)
Definition packageJsonPattern : option RegExp.Pattern :=
  RegExp.compile "^package\.json$".

Definition isPackageJson (name : string) : bool :=
  match packageJsonPattern with
  | Some p => RegExp.test p name
  | None => false
  end.

(** The validation as the specification words it: an object with a string
    [name] and, if present, a string [version]. *)
Definition validManifest (v : JSONValue) : bool :=
  match v with
  | JObject members =>
      match member "name" members with
      | Some (JString _) =>
          match member "version" members with
          | None | Some (JString _) => true
          | Some _ => false
          end
      | _ => false
      end
  | _ => false
  end.

Section FileSystem.

(** The file system as the walk meets it: [statSync(p).isDirectory()],
    which is [None] when [statSync] throws because nothing exists at [p];
    [readdirSync(dir)], which is [None] when it throws; and
    [JSON.parse(readFileSync(p, ...))], which is [None] when the read or
    the parse throws. *)
Variable statSync : Path -> option bool.
Variable readdirSync : Path -> option (list string).
Variable readJson : Path -> option JSONValue.

(** The loop of the [escalade] package: from the start directory upward,
    each directory is listed and handed to the callback; the first
    directory where the callback answers a non-empty name gives that file;
    the walk ends after the root, and a directory that cannot be listed
    makes it throw. The directory is kept innermost segment first, so that
    its parent is the tail. *)
Fixpoint climb (callback : Path -> list string -> option string)
  (reversed : list string) : Completion (option Path) :=
  let dir := rev reversed in
  match readdirSync dir with
  | None => Throw
  | Some names =>
      match callback dir names with
      | Some (String c tmp) => Normal (Some (joinPath dir (String c tmp)))
      | _ =>
          match reversed with
          | [] => Normal None
          | _ :: up => climb callback up
          end
      end
  end.

(** [escalade(start, callback)]: [statSync(start)] comes first and throws
    for a start that does not exist; a start that is not a directory is
    replaced by its parent. *)
Definition escalade (start : Path) (callback : Path -> list string -> option string)
  : Completion (option Path) :=
  match statSync start with
  | None => Throw
  | Some isDirectory =>
      let dir := if isDirectory then start else dirname start in
      climb callback (rev dir)
  end.

(** The callback of [getPackageFile]: the [try] swallows a failed read, a
    failed parse, the [TypeError] and the ['abort']. *)
Definition packageCallback (dir : Path) (names : list string) : option string :=
  match List.find isPackageJson names with
  | None => None
  | Some packageFile =>
      match readJson (joinPath dir packageFile) with
      | None => None
      | Some packageJSON =>
          match rejects packageJSON with
          | Normal false => Some packageFile
          | Normal true | Throw => None
          end
      end
  end.

(** [getPackageFile], from the directory [getCommonDir(app)] gives: what
    [escalade] throws is not caught. *)
Definition getPackageFile (commonDir : Path) : Completion (option string) :=
  match escalade commonDir packageCallback with
  | Throw => Throw
  | Normal (Some p) => Normal (Some (slashes (pathString p)))
  | Normal None => Normal None
  end.

(** The directories the walk visits: the start, then each parent up to
    the root. *)
Fixpoint upward (reversed : list string) : list Path :=
  rev reversed ::
  match reversed with
  | [] => []
  | _ :: up => upward up
  end.

(** A directory that cannot be listed. *)
Definition unlistable (dir : Path) : bool :=
  match readdirSync dir with
  | None => true
  | Some _ => false
  end.

(** The lookup as the specification words it: a directory qualifies when
    it lists a file named [package.json] whose content parses to a valid
    manifest; the match is that file in the first qualifying directory on
    the way up, if there is one. The lookup fails when the common root
    does not exist, or when a directory is reached that cannot be listed. *)
Definition hasValidManifest (dir : Path) : bool :=
  match readdirSync dir with
  | Some names =>
      existsb (String.eqb "package.json") names &&
      match readJson (joinPath dir "package.json") with
      | Some v => validManifest v
      | None => false
      end
  | None => false
  end.

Definition manifestLookup (commonDir : Path) : Completion (option Path) :=
  match statSync commonDir with
  | None => Throw
  | Some isDirectory =>
      let start := if isDirectory then commonDir else dirname commonDir in
      match List.find (fun dir => unlistable dir || hasValidManifest dir)
              (upward (rev start)) with
      | Some dir =>
          if unlistable dir then Throw else Normal (Some (joinPath dir "package.json"))
      | None => Normal None
      end
  end.

End FileSystem.

End Discovery.

(** ** The gzip and base64 codec of the artifacts *)

Module Codec.

Definition quote : ascii := "034".

Definition dataUriPrefix : string := "data:application/octet-stream;base64,".

(** The source handed to [new RegExp]: the start anchor, the escaped
    variable, [ = ], a double quote, the group of a starred class of
    anything but a double quote, a double quote, an optional semicolon
    and the end anchor. *)
Definition assignmentTail : string :=
  " = " +:+ String quote "([^" +:+ String quote "]*)" +:+ String quote ";?$".

Definition assignmentSource (jsVariable : string) : string :=
  "^" +:+ RegExp.escapeRegExp jsVariable +:+ assignmentTail.

(** [/^data:application\/octet-stream;base64,/] *)
Definition dataUriSource : string := "^data:application\/octet-stream;base64,".

Inductive Error : Type :=
  | FileError
  | RegExpSyntaxError
  | ZlibError
  | JSONSyntaxError.

Inductive Result (A : Type) : Type :=
  | Ok (a : A)
  | Err (e : Error).

Arguments Ok {A} a.
Arguments Err {A} e.

(** The files, by name. *)
Abbreviation Files := (gmap string string).

Section Primitives.

(** The runtime's primitives. A [Buffer] and a string are both sequences
    of bytes here, so [Buffer.from(text)] and [buffer.toString()] are the
    identity. [gunzip] and [JSON.parse] may throw; decoding base64 never
    does. *)
Context {Value : Type}.
Variable JSON_stringify : Value -> string.
Variable JSON_parse : string -> option Value.
Variable gzip : string -> string.
Variable gunzip : string -> option string.
Variable toBase64 : string -> string.
Variable fromBase64 : string -> string.

(** [content.replace(new RegExp(...), '$1')] *)
Definition stripAssignment (jsVariable content : string) : Result string :=
  match RegExp.compile (assignmentSource jsVariable) with
  | Some p => Ok (RegExp.replace p RegExp.Group1 content)
  | None => Err RegExpSyntaxError
  end.

(** [content.replace(/^data:application\/octet-stream;base64,/, '')] *)
Definition stripDataUri (content : string) : Result string :=
  match RegExp.compile dataUriSource with
  | Some p => Ok (RegExp.replace p RegExp.Empty content)
  | None => Err RegExpSyntaxError
  end.

(** From the base64 text to the value. *)
Definition decodePayload (content : string) : Result Value :=
  match gunzip (fromBase64 content) with
  | None => Err ZlibError
  | Some buffer =>
      match JSON_parse buffer with
      | None => Err JSONSyntaxError
      | Some v => Ok v
      end
  end.

Definition readGzipJson (fs : Files) (file : string) (jsVariable : option string)
  : Result Value :=
  match fs !! file with
  | None => Err FileError
  | Some content =>
      let stripped :=
        match jsVariable with
        | Some name => if truthy name then stripAssignment name content else Ok content
        | None => Ok content
        end in
      match stripped with
      | Err e => Err e
      | Ok content =>
          match stripDataUri content with
          | Err e => Err e
          | Ok content => decodePayload content
          end
      end
  end.

(** The text [writeGzipJson] builds before writing it. *)
Definition encode (value : Value) (jsVariable : option string) : string :=
  let content := dataUriPrefix +:+ toBase64 (gzip (JSON_stringify value)) in
  match jsVariable with
  | Some name =>
      if truthy name
      then name +:+ " = " +:+ String quote content +:+ String quote ";"
      else content
  | None => content
  end.

Definition writeGzipJson (fs : Files) (file : string) (value : Value)
  (jsVariable : option string) : Files :=
  <[file := encode value jsVariable]> fs.

End Primitives.

(** What follows the variable and [ = ] and the opening quote in the
    compiled assignment pattern. *)
Definition assignmentGroup : list RegExp.Item :=
  [RegExp.GroupOpen; RegExp.Match (RegExp.NotLit quote) RegExp.Star;
   RegExp.GroupClose; RegExp.Match (RegExp.Lit quote) RegExp.One;
   RegExp.Match (RegExp.Lit ";") RegExp.Opt].

(** The text before the payload of an assignment. *)
Definition assignmentPrefix (jsVariable : string) : string :=
  jsVariable +:+ " = " +:+ String quote "".

(** The assignment form as the specification words it: the identifier,
    [ = ], the payload between double quotes, an optional [;]; the payload
    holds no double quote. *)
Definition quoteFree (s : string) : Prop :=
  Forall (fun c => c <> quote) (list_ascii_of_string s).

Definition isAssignment (jsVariable content payload : string) : Prop :=
  quoteFree payload /\
  (content = jsVariable +:+ " = " +:+ String quote payload +:+ String quote "" \/
   content = jsVariable +:+ " = " +:+ String quote payload +:+ String quote ";").

End Codec.

(** ** A runtime to run the codec on *)

(** Stand-ins for the primitives of the runtime, enough to evaluate the
    codec: base64 as in RFC 4648 with the lenient decoder of [Buffer], a
    gzip that frames its input behind the two magic bytes instead of
    compressing it, and the JSON text [JSON.stringify] writes. *)
Module Runtime.

Definition alphabet : list ascii :=
  list_ascii_of_string "ABCDEFGHIJKLMNOPQRSTUVWXYZabcdefghijklmnopqrstuvwxyz0123456789+/".

(** Six bits, the most significant first. *)
Definition Sextet : Type := (bool * bool * bool * bool * bool * bool)%type.

Definition bit (b : bool) (weight : nat) : nat := if b then weight else 0%nat.

Definition sextetIndex (x : Sextet) : nat :=
  let '(b5, b4, b3, b2, b1, b0) := x in
  (bit b5 32 + bit b4 16 + bit b3 8 + bit b2 4 + bit b1 2 + bit b0 1)%nat.

Definition indexSextet (n : nat) : Sextet :=
  (Nat.testbit n 5, Nat.testbit n 4, Nat.testbit n 3,
   Nat.testbit n 2, Nat.testbit n 1, Nat.testbit n 0).

Definition encodeChar (x : Sextet) : ascii := nth (sextetIndex x) alphabet "="%char.

Fixpoint indexOf (c : ascii) (l : list ascii) : option nat :=
  match l with
  | [] => None
  | x :: rest =>
      if Ascii.eqb x c then Some 0%nat
      else match indexOf c rest with
           | Some n => Some (S n)
           | None => None
           end
  end.

Definition decodeChar (c : ascii) : option Sextet :=
  match indexOf c alphabet with
  | Some n => Some (indexSextet n)
  | None => None
  end.

(** The bits of three bytes as four sextets, and back. An [ascii] lists
    its bits from the least significant. *)
Definition split3 (a b c : ascii) : Sextet * Sextet * Sextet * Sextet :=
  let '(Ascii a0 a1 a2 a3 a4 a5 a6 a7) := a in
  let '(Ascii b0 b1 b2 b3 b4 b5 b6 b7) := b in
  let '(Ascii c0 c1 c2 c3 c4 c5 c6 c7) := c in
  ((a7, a6, a5, a4, a3, a2), (a1, a0, b7, b6, b5, b4),
   (b3, b2, b1, b0, c7, c6), (c5, c4, c3, c2, c1, c0)).

Definition firstByte (s0 s1 : Sextet) : ascii :=
  let '(a7, a6, a5, a4, a3, a2) := s0 in
  let '(a1, a0, _, _, _, _) := s1 in
  Ascii a0 a1 a2 a3 a4 a5 a6 a7.

Definition secondByte (s1 s2 : Sextet) : ascii :=
  let '(_, _, b7, b6, b5, b4) := s1 in
  let '(b3, b2, b1, b0, _, _) := s2 in
  Ascii b0 b1 b2 b3 b4 b5 b6 b7.

Definition thirdByte (s2 s3 : Sextet) : ascii :=
  let '(_, _, _, _, c7, c6) := s2 in
  let '(c5, c4, c3, c2, c1, c0) := s3 in
  Ascii c0 c1 c2 c3 c4 c5 c6 c7.

Definition zero : ascii := Ascii false false false false false false false false.

(** [buffer.toString('base64')] *)
Fixpoint toBase64 (buffer : string) : string :=
  match buffer with
  | String a (String b (String c rest)) =>
      let '(s0, s1, s2, s3) := split3 a b c in
      String (encodeChar s0) (String (encodeChar s1)
        (String (encodeChar s2) (String (encodeChar s3) (toBase64 rest))))
  | String a (String b EmptyString) =>
      let '(s0, s1, s2, _) := split3 a b zero in
      String (encodeChar s0) (String (encodeChar s1) (String (encodeChar s2) "="))
  | String a EmptyString =>
      let '(s0, s1, _, _) := split3 a zero zero in
      String (encodeChar s0) (String (encodeChar s1) "==")
  | EmptyString => EmptyString
  end.

(** The sextets of the legal characters of a text, up to the first [=];
    any other character is passed over. *)
Fixpoint legalSextets (text : string) : list Sextet :=
  match text with
  | EmptyString => []
  | String c rest =>
      if Ascii.eqb c "=" then []
      else match decodeChar c with
           | Some x => x :: legalSextets rest
           | None => legalSextets rest
           end
  end.

Fixpoint bytesOf (l : list Sextet) : string :=
  match l with
  | s0 :: s1 :: s2 :: s3 :: rest =>
      String (firstByte s0 s1) (String (secondByte s1 s2)
        (String (thirdByte s2 s3) (bytesOf rest)))
  | [s0; s1; s2] => String (firstByte s0 s1) (String (secondByte s1 s2) "")
  | [s0; s1] => String (firstByte s0 s1) ""
  | _ => ""
  end.

(** [Buffer.from(text, 'base64')] *)
Definition fromBase64 (text : string) : string := bytesOf (legalSextets text).

(** The two magic bytes of a gzip member, 0x1f and 0x8b. *)
Definition gzip (buffer : string) : string := String "031" (String "139" buffer).

Definition gunzip (buffer : string) : option string :=
  match buffer with
  | String "031" (String "139" rest) => Some rest
  | _ => None
  end.

(** JSON text. A string escapes its double quotes and backslashes. *)
Fixpoint escapeString (s : string) : string :=
  match s with
  | EmptyString => EmptyString
  | String c rest =>
      if Ascii.eqb c Codec.quote || Ascii.eqb c "\"
      then String "\" (String c (escapeString rest))
      else String c (escapeString rest)
  end.

Definition quoted (s : string) : string :=
  String Codec.quote (escapeString s +:+ String Codec.quote "").

Definition decimal (n : Z) : string := NilZero.string_of_int (Z.to_int n).

Fixpoint JSON_stringify (v : JSONValue) : string :=
  match v with
  | JNull => "null"
  | JBool true => "true"
  | JBool false => "false"
  | JNumber n => decimal n
  | JString s => quoted s
  | JArray elements => "[" +:+ join "," (map JSON_stringify elements) +:+ "]"
  | JObject members =>
      "{" +:+ join "," (map (fun '(k, v) => quoted k +:+ ":" +:+ JSON_stringify v) members)
      +:+ "}"
  end.

Fixpoint stripPrefix (prefix s : string) : option string :=
  match prefix, s with
  | EmptyString, _ => Some s
  | String p prefix', String c s' =>
      if Ascii.eqb p c then stripPrefix prefix' s' else None
  | String _ _, EmptyString => None
  end.

(** The text of a string up to its closing quote, and what follows. *)
Fixpoint parseString (s : string) : option (string * string) :=
  match s with
  | EmptyString => None
  | String "\" (String c rest) =>
      match parseString rest with
      | Some (str, rest') => Some (String c str, rest')
      | None => None
      end
  | String c rest =>
      if Ascii.eqb c Codec.quote then Some ("", rest)
      else match parseString rest with
           | Some (str, rest') => Some (String c str, rest')
           | None => None
           end
  end.

Definition isNumberChar (c : ascii) : bool :=
  Ascii.eqb c "-" || (Nat.leb 48 (nat_of_ascii c) && Nat.leb (nat_of_ascii c) 57).

Fixpoint spanNumber (s : string) : string * string :=
  match s with
  | String c rest =>
      if isNumberChar c
      then let '(digits, rest') := spanNumber rest in (String c digits, rest')
      else ("", s)
  | EmptyString => ("", "")
  end.

Definition parseNumber (s : string) : option (JSONValue * string) :=
  let '(digits, rest) := spanNumber s in
  match NilZero.int_of_string digits with
  | Some n => Some (JNumber (Z.of_int n), rest)
  | None => None
  end.

(** A value at the start of the text, and what follows it. The fuel
    bounds the nesting and the number of elements. *)
Fixpoint parseValue (fuel : nat) (s : string) : option (JSONValue * string) :=
  match fuel with
  | O => None
  | S fuel =>
      match s with
      | String "n" rest =>
          match stripPrefix "ull" rest with Some r => Some (JNull, r) | None => None end
      | String "t" rest =>
          match stripPrefix "rue" rest with Some r => Some (JBool true, r) | None => None end
      | String "f" rest =>
          match stripPrefix "alse" rest with Some r => Some (JBool false, r) | None => None end
      | String "[" (String "]" rest) => Some (JArray [], rest)
      | String "[" rest =>
          match parseElements fuel rest with
          | Some (l, r) => Some (JArray l, r)
          | None => None
          end
      | String "{" (String "}" rest) => Some (JObject [], rest)
      | String "{" rest =>
          match parseMembers fuel rest with
          | Some (l, r) => Some (JObject l, r)
          | None => None
          end
      | String c rest =>
          if Ascii.eqb c Codec.quote
          then match parseString rest with
               | Some (str, r) => Some (JString str, r)
               | None => None
               end
          else parseNumber s
      | EmptyString => None
      end
  end
with parseElements (fuel : nat) (s : string) : option (list JSONValue * string) :=
  match fuel with
  | O => None
  | S fuel =>
      match parseValue fuel s with
      | Some (v, String "," rest) =>
          match parseElements fuel rest with
          | Some (l, r) => Some (v :: l, r)
          | None => None
          end
      | Some (v, String "]" rest) => Some ([v], rest)
      | _ => None
      end
  end
with parseMembers (fuel : nat) (s : string) : option (list (string * JSONValue) * string) :=
  match fuel with
  | O => None
  | S fuel =>
      match s with
      | String c rest =>
          if Ascii.eqb c Codec.quote
          then match parseString rest with
               | Some (key, String ":" rest') =>
                   match parseValue fuel rest' with
                   | Some (v, String "," r) =>
                       match parseMembers fuel r with
                       | Some (l, r') => Some ((key, v) :: l, r')
                       | None => None
                       end
                   | Some (v, String "}" r) => Some ([(key, v)], r)
                   | _ => None
                   end
               | _ => None
               end
          else None
      | EmptyString => None
      end
  end.

(** [JSON.parse(text)]: the whole text must be one value. *)
Definition JSON_parse (text : string) : option JSONValue :=
  match parseValue (S (String.length text)) text with
  | Some (v, EmptyString) => Some v
  | _ => None
  end.

Definition readGzipJson := Codec.readGzipJson JSON_parse gunzip fromBase64.
Definition encode := Codec.encode JSON_stringify gzip toBase64.
Definition writeGzipJson := Codec.writeGzipJson JSON_stringify gzip toBase64.

End Runtime.

(** ** Sample data *)

Module Examples.

(** A row with an empty [url] that still carries its index-only members. *)
Definition draft : Search.SearchItem :=
  {| Search.url := ""; Search.kind := None; Search.name := Some "Draft";
     Search.classes := None; Search.parent := None;
     Search.comment := Some "notes"; Search.document := Some "body";
     Search.boost := Some (Num 2) |}.

(** Rows that only name their page. *)
Definition bare (u : string) : Search.SearchItem :=
  {| Search.url := u; Search.kind := None; Search.name := None;
     Search.classes := None; Search.parent := None;
     Search.comment := None; Search.document := None;
     Search.boost := None |}.

(** A class [Foo] at [a.html], a deprecated class [Bar] at [b.html], and a
    class [Low] at [c.html] whose relevance boost is 0. *)
Definition entity (u n : string) (rb : option number) (deprecated : bool) : Reflection :=
  {| r_class := DeclarationReflection None None None;
     r_url := Some u; r_name := n; r_kind := 64%Z; r_isExternal := false;
     r_parent := Some ProjectReflection; r_comment := None;
     r_relevanceBoost := rb; r_isDeprecated := deprecated |}.

Definition foo : Reflection := entity "a.html" "Foo" None false.
Definition bar : Reflection := entity "b.html" "Bar" None true.
Definition low : Reflection := entity "c.html" "Low" (Some (Num 0)) false.

Definition project : list Reflection := [foo; bar; low].

Definition theme (r : Reflection) : string := "tsd-kind-class".

(** A format callback that sets the boost of [b.html] to 0. *)
Definition mute : Search.FormatSearchCallback :=
  fun item _ =>
    if String.eqb (Search.url item) "b.html"
    then Search.set_boost (Some (Num 0)) item
    else item.

Definition tasks : Search.SearchTasks :=
  {| Search.alter := []; Search.format := [mute] |}.

Definition search : Search.SearchData :=
  {| Search.rows := [bare "a.html"; bare "b.html"]; Search.index := Search.newBuilder |}.

(** The host of the samples: comments and documents are not searched, no
    extra fields, no field weights. *)
Definition fill := Search.fill false false theme.
Definition fillLegacy := Search.fillLegacy false false theme.
Definition formatted := Search.formatted false false theme project.
Definition jobDocument := Search.jobDocument false false theme project [].
Definition searchJob := Search.searchJob false false theme project [] [].
Definition rebuildSearch := Search.rebuildSearch false false theme project [] [].

(** Scenario 1's value, [{ rows: [], index: {} }]. *)
Definition emptySearch : JSONValue :=
  JObject [("rows", JArray []); ("index", JObject [])].

(** Scenario 4's tree: [/repo/pkg/package.json] has no [name],
    [/repo/package.json] is valid. Nothing else exists. *)
Definition statSync (p : Discovery.Path) : option bool :=
  if bool_decide (p = []) || bool_decide (p = ["repo"]) ||
     bool_decide (p = ["repo"; "pkg"])
  then Some true
  else if bool_decide (p = ["repo"; "README.md"]) ||
          bool_decide (p = ["repo"; "package.json"]) ||
          bool_decide (p = ["repo"; "pkg"; "index.ts"]) ||
          bool_decide (p = ["repo"; "pkg"; "package.json"])
  then Some false
  else None.

Definition readdirSync (p : Discovery.Path) : option (list string) :=
  if bool_decide (p = []) then Some ["repo"]
  else if bool_decide (p = ["repo"]) then Some ["README.md"; "package.json"; "pkg"]
  else if bool_decide (p = ["repo"; "pkg"]) then Some ["index.ts"; "package.json"]
  else None.

Definition readJson (p : Discovery.Path) : option JSONValue :=
  if bool_decide (p = ["repo"; "package.json"])
  then Some (JObject [("name", JString "root"); ("version", JString "1.0.0")])
  else if bool_decide (p = ["repo"; "pkg"; "package.json"])
  then Some (JObject [("version", JString "1.0.0")])
  else None.

(** A tree whose only directory below the root has a backslash in its
    name, as a POSIX file system allows, and holds a valid manifest. *)
Definition backslashDir : Discovery.Path := ["a\b"].

Definition backslashStat (p : Discovery.Path) : option bool :=
  if bool_decide (p = []) || bool_decide (p = backslashDir) then Some true
  else if bool_decide (p = backslashDir ++ ["package.json"]) then Some false
  else None.

Definition backslashReaddir (p : Discovery.Path) : option (list string) :=
  if bool_decide (p = []) then Some ["a\b"]
  else if bool_decide (p = backslashDir) then Some ["package.json"]
  else None.

Definition backslashReadJson (p : Discovery.Path) : option JSONValue :=
  if bool_decide (p = backslashDir ++ ["package.json"])
  then Some (JObject [("name", JString "root")])
  else None.

Definition noOptions : Search.RebuildOptions :=
  {| Search.formatName := None; Search.formatComment := None;
     Search.formatDocument := None |}.

(** A navigation tree: [Foo] with the child [Bar], nothing filled in. *)
Definition leaf (p : string) : Navigation.NavigationItem :=
  {| Navigation.path := Some p; Navigation.text := None; Navigation.kind := None;
     Navigation.class := None; Navigation.children := None |}.

Definition tree : Navigation.NavigationItem :=
  {| Navigation.path := Some "a.html"; Navigation.text := None;
     Navigation.kind := None; Navigation.class := None;
     Navigation.children := Some [leaf "b.html"] |}.

(** A format callback that renames the node and also writes to the
    projection's path. *)
Definition rename : Navigation.FormatNavigationCallback :=
  fun d _ =>
    {| Navigation.Dummy.path := Some "elsewhere.html";
       Navigation.Dummy.text := Some "Renamed";
       Navigation.Dummy.kind := Navigation.Dummy.kind d;
       Navigation.Dummy.class := Navigation.Dummy.class d |}.

Definition navigationTasks : Navigation.NavigationTasks :=
  {| Navigation.alter := []; Navigation.format := [rename] |}.

Definition noNavigationTasks : Navigation.NavigationTasks :=
  {| Navigation.alter := []; Navigation.format := [] |}.

End Examples.

(** ** The type guards *)

Module Guards.

(** A value of type [unknown]: the JSON shapes, and what is none of them.
    An array holds its elements, an object its own enumerable members,
    which is all [every] and [Object.values] look at. *)
#[warnings="-register-all"]
Inductive JSValue : Type :=
  | VUndefined
  | VNull
  | VBoolean (b : bool)
  | VNumber (n : number)
  | VString (s : string)
  | VBigInt (z : Z)
  | VSymbol
  | VFunction
  | VArray (elements : list JSValue)
  | VObject (members : list (string * JSValue)).

Fixpoint isJSONValue (value : JSValue) : bool :=
  match value with
  | VNull | VBoolean _ | VNumber _ | VString _ => true
  | VArray elements => forallb isJSONValue elements
  | VObject members => forallb (fun '(_, v) => isJSONValue v) members
  | VUndefined | VBigInt _ | VSymbol | VFunction => false
  end.

Definition isJSONObject (value : JSValue) : bool :=
  match value with
  | VObject members => forallb (fun '(_, v) => isJSONValue v) members
  | _ => false
  end.

Definition isJSONArray (value : JSValue) : bool :=
  match value with
  | VArray elements => forallb isJSONValue elements
  | _ => false
  end.

(** [typeof v] is one of [boolean], [number], [string], or [v] is [null]. *)
Definition isPrimitive (value : JSValue) : bool :=
  match value with
  | VNull | VBoolean _ | VNumber _ | VString _ => true
  | _ => false
  end.

(** The values directly inside a value. *)
Definition parts (value : JSValue) : list JSValue :=
  match value with
  | VArray elements => elements
  | VObject members => map snd members
  | _ => []
  end.

(** [inner] is [outer] or lies somewhere inside it. *)
Inductive Within (inner : JSValue) : JSValue -> Prop :=
  | within_here : Within inner inner
  | within_part outer part :
      In part (parts outer) -> Within inner part -> Within inner outer.

(** A decoded JSON value, as a value of the language. *)
Fixpoint ofJSON (v : JSONValue) : JSValue :=
  match v with
  | JNull => VNull
  | JBool b => VBoolean b
  | JNumber n => VNumber (Num (inject_Z n))
  | JString s => VString s
  | JArray elements => VArray (map ofJSON elements)
  | JObject members => VObject (map (fun '(k, v) => (k, ofJSON v)) members)
  end.

End Guards.

(** ** The callback registries *)

Module Registry.

(** An [Application], by identity. *)
Definition Application := positive.

(** What the library pushes on [app.renderer.postRenderAsyncJobs]; the
    host may have jobs of its own there. *)
Inductive Job : Type :=
  | SearchJob
  | NavigationJob
  | HostJob.

#[global] Instance Job_eq_dec : EqDecision Job.
Proof. solve_decision. Defined.

(** The two [WeakMap]s of the module and each application's job queue.
    A stored tasks object is only ever pushed to, never replaced, so the
    job that closed over it sees what the store holds when it runs. *)
Record Host := {
  searchTasksStore : gmap Application Search.SearchTasks;
  navigationTasksStore : gmap Application Navigation.NavigationTasks;
  postRenderAsyncJobs : gmap Application (list Job)
}.

(** A process in which nothing was registered yet. *)
Definition freshHost (jobs : gmap Application (list Job)) : Host :=
  {| searchTasksStore := ∅; navigationTasksStore := ∅; postRenderAsyncJobs := jobs |}.

Definition pushJob (app : Application) (job : Job)
  (jobs : gmap Application (list Job)) : gmap Application (list Job) :=
  <[app := default [] (jobs !! app) ++ [job]]> jobs.

Definition getSearchTasks (app : Application) (h : Host) : Search.SearchTasks * Host :=
  match searchTasksStore h !! app with
  | Some searchTasks => (searchTasks, h)
  | None =>
      let searchTasks := {| Search.alter := []; Search.format := [] |} in
      (searchTasks,
       {| searchTasksStore := <[app := searchTasks]> (searchTasksStore h);
          navigationTasksStore := navigationTasksStore h;
          postRenderAsyncJobs := pushJob app SearchJob (postRenderAsyncJobs h) |})
  end.

Definition setSearchTasks (app : Application) (t : Search.SearchTasks) (h : Host) : Host :=
  {| searchTasksStore := <[app := t]> (searchTasksStore h);
     navigationTasksStore := navigationTasksStore h;
     postRenderAsyncJobs := postRenderAsyncJobs h |}.

(** [getSearchTasks(app).alter.push(callback)] *)
Definition alterSearch (app : Application) (callback : Search.AlterSearchCallback)
  (h : Host) : Host :=
  let '(t, h') := getSearchTasks app h in
  setSearchTasks app
    {| Search.alter := Search.alter t ++ [callback]; Search.format := Search.format t |} h'.

(** [getSearchTasks(app).format.push(callback)] *)
Definition formatSearch (app : Application) (callback : Search.FormatSearchCallback)
  (h : Host) : Host :=
  let '(t, h') := getSearchTasks app h in
  setSearchTasks app
    {| Search.alter := Search.alter t; Search.format := Search.format t ++ [callback] |} h'.

Definition getNavigationTasks (app : Application) (h : Host)
  : Navigation.NavigationTasks * Host :=
  match navigationTasksStore h !! app with
  | Some navigationTasks => (navigationTasks, h)
  | None =>
      let navigationTasks := {| Navigation.alter := []; Navigation.format := [] |} in
      (navigationTasks,
       {| searchTasksStore := searchTasksStore h;
          navigationTasksStore := <[app := navigationTasks]> (navigationTasksStore h);
          postRenderAsyncJobs := pushJob app NavigationJob (postRenderAsyncJobs h) |})
  end.

Definition setNavigationTasks (app : Application) (t : Navigation.NavigationTasks)
  (h : Host) : Host :=
  {| searchTasksStore := searchTasksStore h;
     navigationTasksStore := <[app := t]> (navigationTasksStore h);
     postRenderAsyncJobs := postRenderAsyncJobs h |}.

Definition alterNavigation (app : Application)
  (callback : Navigation.AlterNavigationCallback) (h : Host) : Host :=
  let '(t, h') := getNavigationTasks app h in
  setNavigationTasks app
    {| Navigation.alter := Navigation.alter t ++ [callback];
       Navigation.format := Navigation.format t |} h'.

Definition formatNavigation (app : Application)
  (callback : Navigation.FormatNavigationCallback) (h : Host) : Host :=
  let '(t, h') := getNavigationTasks app h in
  setNavigationTasks app
    {| Navigation.alter := Navigation.alter t;
       Navigation.format := Navigation.format t ++ [callback] |} h'.

(** The calls a set of plugins makes while loading. *)
Inductive Call : Type :=
  | AlterSearch (app : Application) (callback : Search.AlterSearchCallback)
  | FormatSearch (app : Application) (callback : Search.FormatSearchCallback)
  | AlterNavigation (app : Application) (callback : Navigation.AlterNavigationCallback)
  | FormatNavigation (app : Application) (callback : Navigation.FormatNavigationCallback).

Definition perform (h : Host) (c : Call) : Host :=
  match c with
  | AlterSearch app cb => alterSearch app cb h
  | FormatSearch app cb => formatSearch app cb h
  | AlterNavigation app cb => alterNavigation app cb h
  | FormatNavigation app cb => formatNavigation app cb h
  end.

Definition performAll (calls : list Call) (h : Host) : Host :=
  fold_left perform calls h.

(** The callbacks of one kind that the calls hand over for [app], in call
    order. *)
Definition searchAlters (app : Application) (calls : list Call)
  : list Search.AlterSearchCallback :=
  omap (fun c => match c with
                 | AlterSearch a cb => if decide (a = app) then Some cb else None
                 | _ => None
                 end) calls.

Definition searchFormats (app : Application) (calls : list Call)
  : list Search.FormatSearchCallback :=
  omap (fun c => match c with
                 | FormatSearch a cb => if decide (a = app) then Some cb else None
                 | _ => None
                 end) calls.

Definition navigationAlters (app : Application) (calls : list Call)
  : list Navigation.AlterNavigationCallback :=
  omap (fun c => match c with
                 | AlterNavigation a cb => if decide (a = app) then Some cb else None
                 | _ => None
                 end) calls.

Definition navigationFormats (app : Application) (calls : list Call)
  : list Navigation.FormatNavigationCallback :=
  omap (fun c => match c with
                 | FormatNavigation a cb => if decide (a = app) then Some cb else None
                 | _ => None
                 end) calls.

(** Whether some call registers a search, or a navigation, callback for [app]. *)
Definition registersSearch (app : Application) (calls : list Call) : bool :=
  existsb (fun c => match c with
                    | AlterSearch a _ | FormatSearch a _ => bool_decide (a = app)
                    | _ => false
                    end) calls.

Definition registersNavigation (app : Application) (calls : list Call) : bool :=
  existsb (fun c => match c with
                    | AlterNavigation a _ | FormatNavigation a _ => bool_decide (a = app)
                    | _ => false
                    end) calls.

(** How many times a job was queued for [app]. *)
Definition queued (job : Job) (app : Application) (h : Host) : nat :=
  length (filter (fun j => j = job) (default [] (postRenderAsyncJobs h !! app))).

End Registry.

(** ** Complete navigation trees *)

Module NavigationTrees.

(** A node with its text, kind and class set, and so all below it. *)
Fixpoint complete (item : Navigation.NavigationItem) : bool :=
  match item with
  | Navigation.mkNavigationItem _ t k c ch =>
      bool_decide (is_Some t) && bool_decide (is_Some k) && bool_decide (is_Some c) &&
      match ch with
      | Some l => forallb complete l
      | None => true
      end
  end.

End NavigationTrees.

(** ** The README lookup and the manifest content *)

Module Readme.

(** The [i] flag compares characters after mapping each to its upper
    case; outside a to z a byte is its own upper case. *)
Definition canonicalize (c : ascii) : ascii :=
  let n := nat_of_ascii c in
  if Nat.leb 97 n && Nat.leb n 122 then ascii_of_nat (n - 32) else c.

Fixpoint canonicalizeString (s : string) : string :=
  match s with
  | EmptyString => EmptyString
  | String c rest => String (canonicalize c) (canonicalizeString rest)
  end.

Definition canonicalizeAtom (a : RegExp.Atom) : RegExp.Atom :=
  match a with
  | RegExp.Lit c => RegExp.Lit (canonicalize c)
  | RegExp.NotLit c => RegExp.NotLit (canonicalize c)
  | RegExp.AnyChar => RegExp.AnyChar
  end.

Definition canonicalizeItem (i : RegExp.Item) : RegExp.Item :=
  match i with
  | RegExp.Match a q => RegExp.Match (canonicalizeAtom a) q
  | other => other
  end.

(** [regexp.test(s)] for a pattern with the [i] flag. *)
Definition testIgnoreCase (p : RegExp.Pattern) (s : string) : bool :=
  RegExp.test {| RegExp.items := map canonicalizeItem (RegExp.items p);
                 RegExp.anchoredEnd := RegExp.anchoredEnd p |}
              (canonicalizeString s).

(** [/^readme\.md$/i] *)
Definition readmePattern : option RegExp.Pattern := RegExp.compile "^readme\.md$".

Definition isReadme (name : string) : bool :=
  match readmePattern with
  | Some p => testIgnoreCase p name
  | None => false
  end.

(** Equal up to the case of the letters a to z. *)
Definition sameIgnoringCase (a b : string) : bool :=
  String.eqb (canonicalizeString a) (canonicalizeString b).

Section FileSystem.

(** The file system of the walk, and [path.resolve] on the configured
    readme path. *)
Variable statSync : Discovery.Path -> option bool.
Variable readdirSync : Discovery.Path -> option (list string).
Variable resolve : string -> string.

(** The callback of [getReadmeFile]. *)
Definition readmeCallback (dir : Discovery.Path) (names : list string) : option string :=
  List.find isReadme names.

(** [getReadmeFile], given the [readme] option and the directory
    [getCommonDir(app)] gives; only the third branch walks, and what
    [escalade] throws there is not caught. *)
Definition getReadmeFile (readme : string) (commonDir : Discovery.Path)
  : Discovery.Completion (option string) :=
  if String.eqb readme "none" then Discovery.Normal None
  else if truthy readme then Discovery.Normal (Some (Discovery.slashes (resolve readme)))
  else
    match Discovery.escalade statSync readdirSync commonDir readmeCallback with
    | Discovery.Throw => Discovery.Throw
    | Discovery.Normal (Some p) =>
        Discovery.Normal (Some (Discovery.slashes (Discovery.pathString p)))
    | Discovery.Normal None => Discovery.Normal None
    end.

(** The walk in words: the first directory on the way up that lists a
    name equal to [readme.md] up to case, and in it the first such name;
    the walk fails when the common root does not exist, or when it reaches
    a directory that cannot be listed. *)
Definition listsReadme (dir : Discovery.Path) : bool :=
  match readdirSync dir with
  | Some names => existsb (sameIgnoringCase "readme.md") names
  | None => false
  end.

Definition readmeLookup (commonDir : Discovery.Path)
  : Discovery.Completion (option Discovery.Path) :=
  match statSync commonDir with
  | None => Discovery.Throw
  | Some isDirectory =>
      let start := if isDirectory then commonDir else Discovery.dirname commonDir in
      match List.find (fun dir => Discovery.unlistable readdirSync dir || listsReadme dir)
              (Discovery.upward (rev start)) with
      | Some dir =>
          match readdirSync dir with
          | None => Discovery.Throw
          | Some names =>
              match List.find (sameIgnoringCase "readme.md") names with
              | Some name => Discovery.Normal (Some (Discovery.joinPath dir name))
              | None => Discovery.Normal None
              end
          end
      | None => Discovery.Normal None
      end
  end.

End FileSystem.

End Readme.

Module Manifest.

Definition backslashFree (s : string) : Prop :=
  Forall (fun c => c <> "\"%char) (list_ascii_of_string s).

Section FileSystem.

(** The file system of the walk, and
    [JSON.parse(readFileSync(file, ...))] by the text of the path, [None]
    when the read or the parse throws. *)
Variable statSync : Discovery.Path -> option bool.
Variable readdirSync : Discovery.Path -> option (list string).
Variable readJsonFile : string -> option JSONValue.

Definition readJson (p : Discovery.Path) : option JSONValue :=
  readJsonFile (Discovery.pathString p).

Definition getPackageFile (commonDir : Discovery.Path)
  : Discovery.Completion (option string) :=
  Discovery.getPackageFile statSync readdirSync readJson commonDir.

(** [getPackageJson]: what [getPackageFile] throws is not caught; [null]
    without a manifest; else the content read again from the path
    [getPackageFile] answered, outside any [try]. *)
Definition getPackageJson (commonDir : Discovery.Path)
  : Discovery.Completion (option JSONValue) :=
  match getPackageFile commonDir with
  | Discovery.Throw => Discovery.Throw
  | Discovery.Normal None => Discovery.Normal None
  | Discovery.Normal (Some packageFile) =>
      if negb (truthy packageFile) then Discovery.Normal None
      else
        match readJsonFile packageFile with
        | Some packageJson => Discovery.Normal (Some packageJson)
        | None => Discovery.Throw
        end
  end.

End FileSystem.

End Manifest.

(** ** The artifacts of a documentation build *)

Module Artifacts.

(** A text in one of the forms the decoder takes: with or without the
    data-URI marker, and, under a variable, with or without the closing
    semicolon. *)
Definition framed (jsVariable : option string) (withMarker withSemicolon : bool)
  (text : string) : string :=
  let payload := (if withMarker then Codec.dataUriPrefix else "") +:+ text in
  match jsVariable with
  | Some name =>
      if truthy name
      then name +:+ " = " +:+ String Codec.quote payload +:+
           String Codec.quote (if withSemicolon then ";" else "")
      else payload
  | None => payload
  end.

Section Host.

Context {Value : Type}.
Variable JSON_stringify : Value -> string.
Variable JSON_parse : string -> option Value.
Variable gzip : string -> string.
Variable gunzip : string -> option string.
Variable toBase64 : string -> string.
Variable fromBase64 : string -> string.

(** [resolve(app.options.getValue('out'), 'assets', name)] *)
Variable resolve : string -> string -> string -> string.

Definition readSearch (fs : Codec.Files) (out : string) : Codec.Result Value :=
  Codec.readGzipJson JSON_parse gunzip fromBase64 fs
    (resolve out "assets" "search.js") (Some "window.searchData").

Definition writeSearch (fs : Codec.Files) (out : string) (search : Value) : Codec.Files :=
  Codec.writeGzipJson JSON_stringify gzip toBase64 fs
    (resolve out "assets" "search.js") search (Some "window.searchData").

Definition readNavigation (fs : Codec.Files) (out : string) : Codec.Result Value :=
  Codec.readGzipJson JSON_parse gunzip fromBase64 fs
    (resolve out "assets" "navigation.js") (Some "window.navigationData").

Definition writeNavigation (fs : Codec.Files) (out : string) (navigation : Value)
  : Codec.Files :=
  Codec.writeGzipJson JSON_stringify gzip toBase64 fs
    (resolve out "assets" "navigation.js") navigation (Some "window.navigationData").

End Host.

End Artifacts.

(** ** The rows of the search job as shared objects *)

Module SharedRows.

(** The job changes the row objects in place and persists the row list it
    was left with, so an object that the list holds at two positions is
    worked on twice and persisted twice in its final state. Here the row
    list holds references and the store holds the state of each object. *)
Definition Ref := nat.

Record Rows := {
  refs : list Ref;
  store : Ref -> Search.SearchItem
}.

(** An alter callback is handed the row list and may change the list and
    the objects; a format callback changes the object it is handed. *)
Definition AlterSearchCallback := Rows -> Rows.

Record SearchTasks := {
  alter : list AlterSearchCallback;
  format : list Search.FormatSearchCallback
}.

(** [for (const alter of searchTasks.alter) await alter(search.rows, ...)] *)
Definition alterPhase (tasks : SearchTasks) (rs : Rows) : Rows :=
  fold_left (fun rs f => f rs) (alter tasks) rs.

(** The format callbacks, as the loop body of [Search] takes them. *)
Definition formatTasks (tasks : SearchTasks) : Search.SearchTasks :=
  {| Search.alter := []; Search.format := format tasks |}.

Section Job.

Variable searchInComments searchInDocuments : bool.
Variable getReflectionClasses : Reflection -> string.
Variable projectReflections : list Reflection.
Variable searchFields : list (gmap string string).
Variable searchFieldWeights : list (string * number).

(** [for (const [id, item] of search.rows.entries()) body]: an iteration
    runs the body of the job on the object its position refers to and
    leaves that object as mutated. *)
Fixpoint forEntries (tasks : SearchTasks) (id : nat) (rs : list Ref)
  (st : Ref -> Search.SearchItem) (b : Search.Builder)
  : (Ref -> Search.SearchItem) * Search.Builder :=
  match rs with
  | [] => (st, b)
  | r :: rest =>
      let '(item, b') :=
        Search.searchJobRow searchInComments searchInDocuments getReflectionClasses
          projectReflections searchFields (formatTasks tasks) id (st r) b in
      forEntries tasks (S id) rest (<[r := item]> st) b'
  end.

(** The job, from the decoded artifact to the value handed to
    [writeGzipJson]: the rows written are the objects of the list as the
    loop left them. *)
Definition searchJob (tasks : SearchTasks) (search : Rows) : Search.SearchData :=
  let rs := alterPhase tasks search in
  let '(st, b) :=
    forEntries tasks 0 (refs rs) (store rs) (Search.preparedBuilder searchFieldWeights) in
  {| Search.rows := map st (refs rs); Search.index := b |}.

(** What one iteration makes of the object it works on: fill, format
    callbacks, name default and the three deletes. *)
Definition pass (tasks : SearchTasks) (item : Search.SearchItem) : Search.SearchItem :=
  Search.persisted
    (Search.formatted searchInComments searchInDocuments getReflectionClasses
       projectReflections (formatTasks tasks) item).

(** The number of positions of the row list that hold an object. *)
Definition positions (rs : list Ref) (r : Ref) : nat := count_occ Nat.eq_dec rs r.

End Job.

End SharedRows.

(** ** More sample data *)

Module Samples.

(** [{ a: 1, b: [x] }] with [x] a string, and with [x] a function. *)
Definition plain : Guards.JSValue :=
  Guards.VObject [("a", Guards.VNumber (Num 1));
                  ("b", Guards.VArray [Guards.VString "deep"])].

Definition nested : Guards.JSValue :=
  Guards.VObject [("a", Guards.VNumber (Num 1));
                  ("b", Guards.VArray [Guards.VFunction])].

(** An external class at [x.html], next to the sample project. *)
Definition external : Reflection :=
  {| r_class := DeclarationReflection None None None;
     r_url := Some "x.html"; r_name := "Ext"; r_kind := 128%Z; r_isExternal := true;
     r_parent := Some ProjectReflection; r_comment := None;
     r_relevanceBoost := None; r_isDeprecated := false |}.

Definition projectWithExternal : list Reflection := external :: Examples.project.

(** A navigation node with everything set. *)
Definition labelled : Navigation.NavigationItem :=
  {| Navigation.path := Some "a.html"; Navigation.text := Some "Guide";
     Navigation.kind := Some 1%Z; Navigation.class := Some "";
     Navigation.children := Some [] |}.

(** The scenario's tree, with files read by the text of their path. *)
Definition readJsonFile (file : string) : option JSONValue :=
  if String.eqb file "/repo/package.json"
  then Some (JObject [("name", JString "root"); ("version", JString "1.0.0")])
  else if String.eqb file "/repo/pkg/package.json"
  then Some (JObject [("version", JString "1.0.0")])
  else None.

(** [resolve] for an absolute, normalised output directory. *)
Definition resolve (out dir name : string) : string :=
  out +:+ "/" +:+ dir +:+ "/" +:+ name.

(** Two plugins register against application 1, a third against 2. *)
Definition prepend : Search.AlterSearchCallback :=
  fun rs => Examples.bare "first.html" :: rs.

Definition calls : list Registry.Call :=
  [Registry.FormatSearch 1%positive Examples.mute;
   Registry.AlterNavigation 2%positive (fun items => items);
   Registry.AlterSearch 1%positive prepend;
   Registry.AlterSearch 1%positive (fun rs => rev rs)].

(** One row object that an alter callback lists a second time, and a
    format callback that appends a mark to the name. *)
Definition oneRow : SharedRows.Rows :=
  {| SharedRows.refs := [0%nat]; SharedRows.store := fun _ => Examples.bare "a.html" |}.

Definition listTwice : SharedRows.AlterSearchCallback :=
  fun rs => {| SharedRows.refs := SharedRows.refs rs ++ SharedRows.refs rs;
               SharedRows.store := SharedRows.store rs |}.

Definition exclaim : Search.FormatSearchCallback :=
  fun item _ =>
    match Search.name item with
    | Some n => Search.set_name (Some (n +:+ "!")) item
    | None => item
    end.

Definition sharedTasks : SharedRows.SearchTasks :=
  {| SharedRows.alter := [listTwice]; SharedRows.format := [exclaim] |}.

End Samples.

(** * Properties *)

(** ** Search rebuild *)

Section SearchFacts.

Import Search.

Context (searchInComments searchInDocuments : bool).
Context (getReflectionClasses : Reflection -> string).
Context (projectReflections : list Reflection).
Context (searchFields : list (gmap string string)).
Context (searchFieldWeights : list (string * number)).

Local Abbreviation fillCommon := (Search.fillCommon searchInComments searchInDocuments getReflectionClasses).
Local Abbreviation fill := (Search.fill searchInComments searchInDocuments getReflectionClasses).
Local Abbreviation fillLegacy := (Search.fillLegacy searchInComments searchInDocuments getReflectionClasses).
Local Abbreviation fillPhase :=
  (Search.fillPhase searchInComments searchInDocuments getReflectionClasses projectReflections).
Local Abbreviation fillPhaseLegacy :=
  (Search.fillPhaseLegacy searchInComments searchInDocuments getReflectionClasses projectReflections).
Local Abbreviation formatted :=
  (Search.formatted searchInComments searchInDocuments getReflectionClasses projectReflections).
Local Abbreviation legacyFormatted :=
  (Search.legacyFormatted searchInComments searchInDocuments getReflectionClasses projectReflections).
Local Abbreviation searchJobRow :=
  (Search.searchJobRow searchInComments searchInDocuments getReflectionClasses
     projectReflections searchFields).
Local Abbreviation rebuildSearchRow :=
  (Search.rebuildSearchRow searchInComments searchInDocuments getReflectionClasses
     projectReflections searchFields).
Local Abbreviation searchJob :=
  (Search.searchJob searchInComments searchInDocuments getReflectionClasses
     projectReflections searchFields searchFieldWeights).
Local Abbreviation rebuildSearch :=
  (Search.rebuildSearch searchInComments searchInDocuments getReflectionClasses
     projectReflections searchFields searchFieldWeights).
Local Abbreviation jobDocument :=
  (Search.jobDocument searchInComments searchInDocuments getReflectionClasses
     projectReflections searchFields).
Local Abbreviation legacyDocument :=
  (Search.legacyDocument searchInComments searchInDocuments getReflectionClasses
     projectReflections searchFields).
Local Abbreviation found := (fun item : SearchItem =>
  findReflection (Search.reflections projectReflections) (Some (url item))).

(** The closed form of the shared fill steps: every member is decided by
    its own previous value and the entity. *)
Lemma fillCommon_fields r i :
  fillCommon r i =
  {| url := url i;
     kind := match kind i with None => Some (r_kind r) | k => k end;
     name := match name i with None => Some (r_name r) | n => n end;
     classes := match classes i with None => Some (getReflectionClasses r) | c => c end;
     parent := match parent i with
               | None => match r_parent r with
                         | Some (ContainerReflection fullName) => Some fullName
                         | _ => None
                         end
               | p => p
               end;
     comment := match comment i with
                | None => if searchInComments
                          then match gatherComments r with
                               | [] => None
                               | comments => Some (commentsText comments)
                               end
                          else None
                | c => c
                end;
     document := match document i with
                 | None => if searchInDocuments then documentText r else None
                 | d => d
                 end;
     boost := boost i |}.
Proof.
  destruct i as [u k n c p cm d b].
  unfold Search.fillCommon, fillDocument, fillComment, fillParent, fillClasses,
    fillName, fillKind.
  destruct k, n, c, p, cm, d; cbn;
    repeat match goal with
      | |- context [r_parent r] => destruct (r_parent r) as [[|?]|]; cbn
      | |- context [if searchInComments then _ else _] => destruct searchInComments; cbn
      | |- context [gatherComments r] => destruct (gatherComments r); cbn
      | |- context [if searchInDocuments then _ else _] => destruct searchInDocuments; cbn
      | |- context [documentText r] => destruct (documentText r); cbn
      end; reflexivity.
Qed.

Lemma fill_fields r i :
  fill r i =
  set_boost (match boost i with
             | None => Some (nullish (r_relevanceBoost r) num_one)
             | b => b
             end) (fillCommon r i).
Proof.
  unfold Search.fill, fillBoost. rewrite fillCommon_fields.
  destruct i as [u k n c p cm d [b|]]; reflexivity.
Qed.

Lemma fillLegacy_fields r i :
  fillLegacy r i =
  set_boost (match boost i with
             | None => Some (coerceBoost (nullish (r_relevanceBoost r) num_one))
             | b => b
             end) (fillCommon r i).
Proof.
  unfold Search.fillLegacy, fillBoostLegacy, coerceBoost. rewrite fillCommon_fields.
  destruct i as [u k n c p cm d [b|]]; cbn; [reflexivity|].
  destruct (num_le0 _); reflexivity.
Qed.

Lemma fillCommon_idempotent r i : fillCommon r (fillCommon r i) = fillCommon r i.
Proof.
  rewrite !fillCommon_fields. destruct i as [u k n c p cm d b]; cbn.
  f_equal.
  - destruct k; reflexivity.
  - destruct n; reflexivity.
  - destruct c; reflexivity.
  - destruct p as [?|]; [reflexivity|]. destruct (r_parent r) as [[|?]|]; reflexivity.
  - destruct cm as [?|]; [reflexivity|]. destruct searchInComments; [|reflexivity].
    destruct (gatherComments r); reflexivity.
  - destruct d as [?|]; [reflexivity|]. destruct searchInDocuments; [|reflexivity].
    destruct (documentText r); reflexivity.
Qed.

Lemma fillCommon_url r i : url (fillCommon r i) = url i.
Proof. rewrite fillCommon_fields. reflexivity. Qed.

Lemma fillCommon_boost r i : boost (fillCommon r i) = boost i.
Proof. rewrite fillCommon_fields. reflexivity. Qed.

Lemma fillCommon_set_boost r b i :
  fillCommon r (set_boost b i) = set_boost b (fillCommon r i).
Proof. rewrite !fillCommon_fields. reflexivity. Qed.

Lemma fill_once r i : fill r (fill r i) = fill r i.
Proof.
  rewrite (fill_fields r (fill r i)), (fill_fields r i).
  rewrite fillCommon_set_boost, fillCommon_idempotent.
  cbn. destruct (boost i); reflexivity.
Qed.

Lemma fillLegacy_once r i : fillLegacy r (fillLegacy r i) = fillLegacy r i.
Proof.
  rewrite (fillLegacy_fields r (fillLegacy r i)), (fillLegacy_fields r i).
  rewrite fillCommon_set_boost, fillCommon_idempotent.
  cbn. destruct (boost i); reflexivity.
Qed.

Lemma fill_url r i : url (fill r i) = url i.
Proof. rewrite fill_fields. cbn. apply fillCommon_url. Qed.

Lemma fillLegacy_url r i : url (fillLegacy r i) = url i.
Proof. rewrite fillLegacy_fields. cbn. apply fillCommon_url. Qed.

Lemma fillPhase_once i : fillPhase (fillPhase i) = fillPhase i.
Proof.
  unfold Search.fillPhase.
  destruct (found i) as [[idx r]|] eqn:E; cbn in E.
  - rewrite fill_url, E. apply fill_once.
  - rewrite E. reflexivity.
Qed.

Lemma fillPhaseLegacy_once i : fillPhaseLegacy (fillPhaseLegacy i) = fillPhaseLegacy i.
Proof.
  unfold Search.fillPhaseLegacy.
  destruct (found i) as [[idx r]|] eqn:E; cbn in E.
  - rewrite fillLegacy_url, E. apply fillLegacy_once.
  - rewrite E. reflexivity.
Qed.

Lemma fill_keeps r i : keepsSet i (fill r i).
Proof.
  rewrite fill_fields, fillCommon_fields. destruct i as [u k n c p cm d b].
  unfold keepsSet, kept; cbn. repeat split; intros v ->; reflexivity.
Qed.

Lemma fillLegacy_keeps r i : keepsSet i (fillLegacy r i).
Proof.
  rewrite fillLegacy_fields, fillCommon_fields. destruct i as [u k n c p cm d b].
  unfold keepsSet, kept; cbn. repeat split; intros v ->; reflexivity.
Qed.

(** C7. Filling a row from its matched entity twice gives the same row as
    filling it once, in the post-render job and in the legacy
    [rebuildSearch], for the fill body alone and for the fill phase with
    its lookup; and every member that was set before the fill has the same
    value after it. *)
Theorem fill_idempotent (r : Reflection) (i : SearchItem) :
  fill r (fill r i) = fill r i /\
  fillLegacy r (fillLegacy r i) = fillLegacy r i /\
  fillPhase (fillPhase i) = fillPhase i /\
  fillPhaseLegacy (fillPhaseLegacy i) = fillPhaseLegacy i /\
  keepsSet i (fill r i) /\
  keepsSet i (fillLegacy r i).
Proof.
  split; [apply fill_once|].
  split; [apply fillLegacy_once|].
  split; [apply fillPhase_once|].
  split; [apply fillPhaseLegacy_once|].
  split; [apply fill_keeps | apply fillLegacy_keeps].
Qed.

(** C4, as amended. For a row whose [boost] is unset and a matched
    entity: the legacy [rebuildSearch] sets the boost to the entity's
    relevance boost, 1 when that is missing, and resets it to 1 when it is
    not above 0; the post-render job sets it to the entity's relevance
    boost, 1 when that is missing, and keeps a value that is 0 or below. *)
Theorem fill_boost (r : Reflection) (i : SearchItem) :
  boost i = None ->
  boost (fillLegacy r i) = Some (coerceBoost (nullish (r_relevanceBoost r) num_one)) /\
  boost (fill r i) = Some (nullish (r_relevanceBoost r) num_one).
Proof.
  intros Hb. rewrite fillLegacy_fields, fill_fields, Hb. split; reflexivity.
Qed.

Section Loop.

(** A loop body that leaves the row as [after row], whatever the builder
    and the position, and adds at most one document, [doc id row]. *)
Variable body : nat -> SearchItem -> Builder -> SearchItem * Builder.
Variable after : SearchItem -> SearchItem.
Variable doc : nat -> SearchItem -> option (gmap string FieldValue * option number).
Hypothesis body_spec : forall id row b,
  body id row b =
  (after row, match doc id row with
              | Some d => add (fst d) (snd d) b
              | None => b
              end).

Lemma forEntries_rows rs : forall id b,
  fst (forEntries body id rs b) = map after rs.
Proof.
  induction rs as [|row rest IH]; intros id b; cbn; [reflexivity|].
  rewrite body_spec.
  specialize (IH (S id) (match doc id row with
                         | Some d => add (fst d) (snd d) b
                         | None => b
                         end)).
  destruct (forEntries body (S id) rest _) as [rest' b'']. cbn in *.
  by rewrite IH.
Qed.

Lemma forEntries_documents rs : forall id b d,
  d ∈ documents (snd (forEntries body id rs b)) <->
  d ∈ documents b \/
  exists pos row, rs !! pos = Some row /\ doc (id + pos) row = Some d.
Proof.
  induction rs as [|row rest IH]; intros id b d; cbn.
  - split; [by left|]. intros [H|(pos & row & H & _)]; [done|]. by destruct pos.
  - rewrite body_spec.
    specialize (IH (S id) (match doc id row with
                           | Some d => add (fst d) (snd d) b
                           | None => b
                           end) d).
    destruct (forEntries body (S id) rest _) as [rest' b'']. cbn in *.
    rewrite IH. clear IH. split.
    + intros [H|(pos & row' & Hl & Hd)].
      * destruct (doc id row) as [d0|] eqn:E; cbn in H.
        -- apply elem_of_app in H as [H|H]; [by left|].
           apply list_elem_of_singleton in H. subst d. right. exists 0, row.
           split; [done|]. rewrite Nat.add_0_r, E. by destruct d0.
        -- by left.
      * right. exists (S pos), row'. split; [done|].
        rewrite ?Nat.add_succ_r, ?Nat.add_succ_l in *. exact Hd.
    + intros [H|(pos & row' & Hl & Hd)].
      * left. destruct (doc id row) as [d0|]; cbn; [|done].
        apply elem_of_app. by left.
      * destruct pos as [|pos]; cbn in Hl.
        -- injection Hl as <-. rewrite Nat.add_0_r in Hd. rewrite Hd. cbn.
           left. apply elem_of_app. right. destruct d. cbn. apply list_elem_of_singleton.
           reflexivity.
        -- right. exists pos, row'. split; [done|].
           rewrite ?Nat.add_succ_r, ?Nat.add_succ_l in *. exact Hd.
Qed.

End Loop.

Lemma searchJobRow_spec tasks id item b :
  searchJobRow tasks id item b =
  (persisted (formatted tasks item),
   match jobDocument tasks id item with
   | Some d => add (fst d) (snd d) b
   | None => b
   end).
Proof.
  unfold Search.searchJobRow, Search.jobDocument.
  destruct (indexable _); reflexivity.
Qed.

Lemma rebuildSearchRow_spec options id row b :
  rebuildSearchRow options id row b =
  ((if truthy (url row) then strip (legacyFormatted options row) else row),
   match legacyDocument options id row with
   | Some d => add (fst d) (snd d) b
   | None => b
   end).
Proof.
  unfold Search.rebuildSearchRow, Search.legacyDocument.
  destruct (truthy (url row)); reflexivity.
Qed.

Lemma preparedBuilder_documents :
  documents (preparedBuilder searchFieldWeights) = [].
Proof.
  unfold preparedBuilder.
  assert (H : forall ws b, documents (fold_left (fun b kw => field (fst kw) (snd kw) b) ws b)
                           = documents b).
  { induction ws as [|w ws IH]; intros b; cbn; [reflexivity|]. by rewrite IH. }
  by rewrite H.
Qed.

Lemma searchJob_rows tasks search :
  rows (searchJob tasks search) =
  map (fun item => persisted (formatted tasks item)) (alterPhase tasks (rows search)).
Proof.
  unfold Search.searchJob.
  pose proof (forEntries_rows _ _ _ (searchJobRow_spec tasks)
                (alterPhase tasks (rows search)) 0
                (preparedBuilder searchFieldWeights)) as H.
  destruct (forEntries _ _ _ _) as [rows' b]. exact H.
Qed.

Lemma searchJob_documents tasks search d :
  d ∈ documents (index (searchJob tasks search)) <->
  exists pos item, alterPhase tasks (rows search) !! pos = Some item /\
                   jobDocument tasks pos item = Some d.
Proof.
  unfold Search.searchJob.
  pose proof (forEntries_documents _ _ _ (searchJobRow_spec tasks)
                (alterPhase tasks (rows search)) 0
                (preparedBuilder searchFieldWeights) d) as H.
  destruct (forEntries _ _ _ _) as [rows' b]. cbn in *.
  rewrite H, preparedBuilder_documents. split.
  - intros [H0|H0]; [by apply elem_of_nil in H0 | exact H0].
  - intros H0. by right.
Qed.

Lemma rebuildSearch_rows search options :
  rows (rebuildSearch search options) =
  map (fun row => if truthy (url row) then strip (legacyFormatted options row) else row)
      (rows search).
Proof.
  unfold Search.rebuildSearch.
  pose proof (forEntries_rows _ _ _ (rebuildSearchRow_spec options)
                (rows search) 0 (preparedBuilder searchFieldWeights)) as H.
  destruct (forEntries _ _ _ _) as [rows' b]. exact H.
Qed.

Lemma rebuildSearch_documents search options d :
  d ∈ documents (index (rebuildSearch search options)) <->
  exists pos row, rows search !! pos = Some row /\
                  legacyDocument options pos row = Some d.
Proof.
  unfold Search.rebuildSearch.
  pose proof (forEntries_documents _ _ _ (rebuildSearchRow_spec options)
                (rows search) 0 (preparedBuilder searchFieldWeights) d) as H.
  destruct (forEntries _ _ _ _) as [rows' b]. cbn in *.
  rewrite H, preparedBuilder_documents. split.
  - intros [H0|H0]; [by apply elem_of_nil in H0 | exact H0].
  - intros H0. by right.
Qed.

Lemma indexDocument_id item extra id :
  indexDocument item extra id !! "id" = Some (FNumber id).
Proof. unfold indexDocument. apply lookup_insert_eq. Qed.

Lemma jobDocument_id tasks pos item d :
  jobDocument tasks pos item = Some d -> docId d = Some (FNumber pos).
Proof.
  unfold Search.jobDocument. destruct (indexable _); [|done].
  intros [= <-]. apply indexDocument_id.
Qed.

Lemma legacyDocument_id options pos row d :
  legacyDocument options pos row = Some d -> docId d = Some (FNumber pos).
Proof.
  unfold Search.legacyDocument. destruct (truthy _); [|done].
  intros [= <-]. apply indexDocument_id.
Qed.


Lemma persisted_stripped item : stripped (persisted item).
Proof. by repeat split. Qed.

(** After the post-render job no row keeps [comment], [document] or
    [boost], whatever the rows and the callbacks. *)
Lemma searchJob_strips tasks search row :
  row ∈ rows (searchJob tasks search) -> stripped row.
Proof.
  rewrite searchJob_rows. intros H.
  apply list_elem_of_fmap in H as (item & -> & _). apply persisted_stripped.
Qed.

(** After the legacy [rebuildSearch] a row with a non-empty [url] keeps
    none of the three. *)
Lemma rebuildSearch_strips search options row :
  row ∈ rows (rebuildSearch search options) -> truthy (url row) = true -> stripped row.
Proof.
  rewrite rebuildSearch_rows. intros H Hurl.
  apply list_elem_of_fmap in H as (row0 & -> & _).
  destruct (truthy (url row0)) eqn:E; [by repeat split|].
  by rewrite E in Hurl.
Qed.

(** C3, at the failing input. The legacy [rebuildSearch] leaves a row
    with an empty [url] as it was: its [comment], [document] and [boost]
    are still there in the row list that is persisted. *)
Theorem rebuildSearch_keeps_fields_without_url (options : RebuildOptions) :
  rows (rebuildSearch {| rows := [Examples.draft]; index := newBuilder |} options)
  = [Examples.draft] /\
  comment Examples.draft = Some "notes" /\
  document Examples.draft = Some "body" /\
  boost Examples.draft = Some (Num 2).
Proof. rewrite rebuildSearch_rows. by repeat split. Qed.



(** The same for the legacy [rebuildSearch]: a document carries the
    position of its row in [search.rows]. *)
Lemma legacy_index_ids_are_positions search options d :
  d ∈ documents (index (rebuildSearch search options)) ->
  exists pos row,
    rows search !! pos = Some row /\
    truthy (url row) = true /\
    docId d = Some (FNumber pos).
Proof.
  intros Hd. apply rebuildSearch_documents in Hd as (pos & row & Hpos & Hdoc).
  exists pos, row. split; [done|]. split; [|by eapply legacyDocument_id].
  unfold Search.legacyDocument in Hdoc. by destruct (truthy (url row)).
Qed.

(** The converse: a row of the final list that passes the gate has its
    document in the index, under its position. *)
Lemma indexable_row_indexed tasks search pos item :
  alterPhase tasks (rows search) !! pos = Some item ->
  indexable (formatted tasks item) = true ->
  exists d, d ∈ documents (index (searchJob tasks search)) /\
            docId d = Some (FNumber pos).
Proof.
  intros Hpos Hidx.
  destruct (jobDocument tasks pos item) as [d|] eqn:E.
  - exists d. split; [|by eapply jobDocument_id].
    apply searchJob_documents. by exists pos, item.
  - unfold Search.jobDocument in E. cbn in E. by rewrite Hidx in E.
Qed.

End SearchFacts.

(** C4: the claim as written fails for the post-render job. An entity
    whose relevance boost is 0 leaves the row with boost 0, not 1. *)
Lemma job_fill_does_not_coerce :
  ~ (forall sc sd theme (r : Reflection) (i : Search.SearchItem),
       Search.boost i = None ->
       Search.boost (Search.fill sc sd theme r i)
       = Some (Search.coerceBoost (nullish (r_relevanceBoost r) num_one))).
Proof.
  intros H.
  specialize (H false false Examples.theme Examples.low (Examples.bare "c.html") eq_refl).
  vm_compute in H. discriminate H.
Qed.

Lemma fill_boost_witness :
  Search.boost (Examples.bare "c.html") = None /\
  Search.boost (Examples.fillLegacy Examples.low (Examples.bare "c.html")) = Some (Num 1) /\
  Search.boost (Examples.fill Examples.low (Examples.bare "c.html")) = Some (Num 0).
Proof.
  split; [reflexivity|].
  apply (fill_boost false false Examples.theme Examples.low (Examples.bare "c.html")).
  reflexivity.
Defined.

(** Scenario 2: a row that only has its url, an entity [Foo] of kind 64,
    comments not searched. *)
Example fill_from_entity :
  Examples.fill Examples.foo (Examples.bare "a.html") =
  {| Search.url := "a.html"; Search.kind := Some 64%Z; Search.name := Some "Foo";
     Search.classes := Some "tsd-kind-class"; Search.parent := None;
     Search.comment := None; Search.document := None;
     Search.boost := Some (Num 1) |}.
Proof. reflexivity. Qed.


(** Scenario 3: the second row's format callback sets its boost to 0; both
    rows are persisted, one document is indexed, under id 0. *)
Example exclusion_by_boost :
  Search.rows (Examples.searchJob Examples.tasks Examples.search) =
  [ {| Search.url := "a.html"; Search.kind := Some 64%Z; Search.name := Some "Foo";
       Search.classes := Some "tsd-kind-class"; Search.parent := None;
       Search.comment := None; Search.document := None; Search.boost := None |};
    {| Search.url := "b.html"; Search.kind := Some 64%Z; Search.name := Some "Bar";
       Search.classes := Some "tsd-kind-class"; Search.parent := None;
       Search.comment := None; Search.document := None; Search.boost := None |} ] /\
  map Search.docId (Search.documents (Search.index (Examples.searchJob Examples.tasks Examples.search)))
  = [Some (Search.FNumber 0)].
Proof. split; vm_compute; reflexivity. Qed.


(** ** Navigation merge *)

Section NavigationFacts.

Import Navigation.

Context (getReflectionClasses : Reflection -> string).
Context (projectReflections : list Reflection).
Context (tasks : NavigationTasks).

Local Abbreviation derivedClass := (Navigation.derivedClass getReflectionClasses).
Local Abbreviation fill := (Navigation.fill getReflectionClasses).
Local Abbreviation fillPhase := (Navigation.fillPhase getReflectionClasses projectReflections).
Local Abbreviation formatPhase := (Navigation.formatPhase tasks).
Local Abbreviation formatNode :=
  (Navigation.formatNode getReflectionClasses projectReflections tasks).
Local Abbreviation formatNavigationItem :=
  (Navigation.formatNavigationItem getReflectionClasses projectReflections tasks).
Local Abbreviation formatNavigationItems :=
  (Navigation.formatNavigationItems getReflectionClasses projectReflections tasks).
Local Abbreviation matched := (fun item : NavigationItem =>
  findReflection (Navigation.reflections projectReflections) (path item)).



(** Induction on a navigation tree, with the children of a node covered. *)
Lemma NavigationItem_tree_ind (P : NavigationItem -> Prop) :
  (forall p t k c ch,
      match ch with Some l => Forall P l | None => True end ->
      P (mkNavigationItem p t k c ch)) ->
  forall item, P item.
Proof.
  intros H. fix IH 1. intros [p t k c ch]. apply H.
  destruct ch as [l|]; [|exact I].
  induction l as [|x l IHl]; constructor; [apply IH | exact IHl].
Qed.

Lemma formatNode_path item : path (formatNode item) = path item.
Proof.
  unfold Navigation.formatNode, copyBack, Navigation.fillPhase. cbn.
  destruct (findReflection _ _) as [[idx r]|]; reflexivity.
Qed.

Lemma formatNode_children item : children (formatNode item) = children item.
Proof.
  unfold Navigation.formatNode, copyBack, Navigation.fillPhase. cbn.
  destruct (findReflection _ _) as [[idx r]|]; reflexivity.
Qed.

Lemma formatNavigationItem_shape item : shape (formatNavigationItem item) = shape item.
Proof.
  induction item as [p t k c ch IH] using NavigationItem_tree_ind.
  cbn [Navigation.formatNavigationItem shape]. rewrite formatNode_path. cbn [path].
  f_equal. destruct ch as [[|child rest]|]; [reflexivity| |reflexivity].
  f_equal. apply Forall_cons in IH as [Hchild Hrest]. cbn [map]. f_equal; [exact Hchild|].
  induction Hrest as [|x l Hx Hl IHl]; [reflexivity|]. cbn [map]. by rewrite Hx, IHl.
Qed.

(** C10. The format callbacks of a node run on a projection made of its
    path, text, kind and class; the node then takes its text, kind and
    class from the projection, and keeps its own path and children. Down
    the whole tree, the walk leaves every path and every list of children
    in place, whatever the callbacks return. *)
Theorem format_frame (item : NavigationItem) (items : list NavigationItem) :
  let projection :=
    formatPhase (snd <$> matched item) (dummyItem (fillPhase item)) in
  formatNode item =
    {| path := path item;
       text := Dummy.text projection;
       kind := Dummy.kind projection;
       class := Dummy.class projection;
       children := children item |} /\
  shape (formatNavigationItem item) = shape item /\
  map shape (formatNavigationItems items) = map shape items.
Proof.
  cbn zeta. split; [|split].
  - unfold Navigation.formatNode, copyBack. f_equal.
    + apply (formatNode_path item).
    + apply (formatNode_children item).
  - apply formatNavigationItem_shape.
  - unfold Navigation.formatNavigationItems. rewrite map_map.
    apply map_ext. intros x. apply formatNavigationItem_shape.
Qed.

End NavigationFacts.


(** A callback that writes to the projection's path changes the text of
    every node and the path of none. *)
Example format_keeps_paths :
  Navigation.navigationJob Examples.theme Examples.project Examples.navigationTasks
    [Examples.tree] =
  [ {| Navigation.path := Some "a.html"; Navigation.text := Some "Renamed";
       Navigation.kind := Some 64%Z; Navigation.class := Some "tsd-kind-class";
       Navigation.children :=
         Some [ {| Navigation.path := Some "b.html"; Navigation.text := Some "Renamed";
                   Navigation.kind := Some 64%Z;
                   Navigation.class := Some "deprecated tsd-kind-class";
                   Navigation.children := None |} ] |} ].
Proof. reflexivity. Qed.

(** ** Patterns *)

Section RegExpFacts.

Import RegExp.

Lemma append_cons c (s t : string) : String c s +:+ t = String c (s +:+ t).
Proof. reflexivity. Qed.

Lemma append_nil_r (s : string) : s +:+ "" = s.
Proof. induction s as [|c s IH]; [reflexivity|]. by rewrite append_cons, IH. Qed.

Lemma append_assoc (a b c : string) : (a +:+ b) +:+ c = a +:+ (b +:+ c).
Proof. induction a as [|x a IH]; [reflexivity|]. by rewrite !append_cons, IH. Qed.

Lemma length_append (a b : string) :
  String.length (a +:+ b) = (String.length a + String.length b)%nat.
Proof. induction a as [|x a IH]; [reflexivity|]. rewrite append_cons. cbn. by rewrite IH. Qed.

Lemma substring_prefix (a b : string) : substring 0 (String.length a) (a +:+ b) = a.
Proof.
  induction a as [|x a IH].
  - destruct b; reflexivity.
  - rewrite append_cons. cbn. by rewrite IH.
Qed.

Lemma captured_prefix (a b : string) : captured (a +:+ b) b = a.
Proof.
  unfold captured. rewrite length_append.
  replace (String.length a + String.length b - String.length b)%nat
    with (String.length a) by lia.
  apply substring_prefix.
Qed.

Lemma list_ascii_append (a b : string) :
  list_ascii_of_string (a +:+ b) = list_ascii_of_string a ++ list_ascii_of_string b.
Proof. induction a as [|x a IH]; [reflexivity|]. rewrite append_cons. cbn. by rewrite IH. Qed.

Lemma literal_append (a b : string) : literal (a +:+ b) = literal a ++ literal b.
Proof. unfold literal. by rewrite list_ascii_append, map_app. Qed.

(** A character that is not a syntax character is read as itself. *)
Lemma scan_plain c rest :
  isSyntaxCharacter c = false ->
  scan (String c rest) = consToken (TAtom (Lit c)) (scan rest).
Proof.
  intros H.
  destruct c as [[] [] [] [] [] [] [] []];
    first [ discriminate H | reflexivity ].
Qed.

(** An escaped syntax character is read as that character. *)
Lemma scan_escaped c rest :
  isSyntaxCharacter c = true ->
  scan (String "\" (String c rest)) = consToken (TAtom (Lit c)) (scan rest).
Proof.
  intros H.
  change (scan (String "\" (String c rest)))
    with (if isSyntaxCharacter c || Ascii.eqb c "/"
          then consToken (TAtom (Lit c)) (scan rest) else None).
  by rewrite H.
Qed.

(** The escaped text is read back as the text itself, letter by letter,
    whatever syntax characters it holds. *)
Lemma scan_escapeRegExp (text tail : string) :
  scan (escapeRegExp text +:+ tail) =
  match scan tail with
  | Some ts => Some (map (fun c => TAtom (Lit c)) (list_ascii_of_string text) ++ ts)
  | None => None
  end.
Proof.
  induction text as [|c text IH]; cbn [escapeRegExp].
  - change ("" +:+ tail) with tail. destruct (scan tail); reflexivity.
  - destruct (isSyntaxCharacter c) eqn:E.
    + change (String "\" (String c (escapeRegExp text)) +:+ tail)
        with (String "\" (String c (escapeRegExp text +:+ tail))).
      rewrite (scan_escaped _ _ E), IH. by destruct (scan tail).
    + change (String c (escapeRegExp text) +:+ tail)
        with (String c (escapeRegExp text +:+ tail)).
      rewrite (scan_plain _ _ E), IH. by destruct (scan tail).
Qed.

Lemma build_atom a ts :
  unquantified ts = true ->
  build (TAtom a :: ts) = consItem (Match a One) (build ts).
Proof. intros H. destruct ts as [|[] ts]; try discriminate H; reflexivity. Qed.

Lemma build_literal (text : list ascii) (ts : list Token) :
  unquantified ts = true ->
  build (map (fun c => TAtom (Lit c)) text ++ ts) =
  match build ts with
  | Some p => Some {| items := map (fun c => Match (Lit c) One) text ++ items p;
                      anchoredEnd := anchoredEnd p |}
  | None => None
  end.
Proof.
  intros Hq. induction text as [|c text IH].
  - cbn [map app]. by destruct (build ts) as [[]|].
  - cbn [map app]. rewrite build_atom, IH.
    + unfold consItem. by destruct (build ts) as [[]|].
    + by destruct text.
Qed.

(** Matching a literal prefix consumes exactly that text. *)
Lemma matchItems_literal (text : string) rest e s o g :
  matchItems (literal text ++ rest) e (text +:+ s) o g = matchItems rest e s o g.
Proof.
  induction text as [|c text IH]; [reflexivity|].
  rewrite append_cons. cbn. rewrite Ascii.eqb_refl. apply IH.
Qed.

Lemma matchItems_literal_inv (text : string) rest e s o g r :
  matchItems (literal text ++ rest) e s o g = Some r ->
  exists s', s = text +:+ s' /\ matchItems rest e s' o g = Some r.
Proof.
  revert s. induction text as [|c text IH]; intros s H.
  - by exists s.
  - cbn in H. destruct s as [|c' s]; [discriminate H|].
    destruct (Ascii.eqb c c') eqn:E; [|discriminate H].
    apply Ascii.eqb_eq in E as <-.
    apply IH in H as (s' & -> & H). exists s'. by rewrite append_cons.
Qed.

(** [a*]: when every character of [taken] matches and the rest of the
    pattern succeeds right after it, that is the result. *)
Lemma star_all a next (taken s : string) r :
  Forall (fun c => atomMatches a c = true) (list_ascii_of_string taken) ->
  (forall c s', s = String c s' -> atomMatches a c = false) ->
  next s = Some r ->
  star a next (taken +:+ s) = Some r.
Proof.
  intros Hall Hstop Hnext. induction taken as [|c taken IH].
  - change ("" +:+ s) with s. destruct s as [|c s']; cbn; [exact Hnext|].
    by rewrite (Hstop c s' eq_refl).
  - rewrite append_cons. cbn. apply Forall_cons in Hall as [Hc Hall].
    rewrite Hc, (IH Hall). reflexivity.
Qed.

Lemma star_inv a next s r :
  star a next s = Some r ->
  exists taken s', s = taken +:+ s' /\
    Forall (fun c => atomMatches a c = true) (list_ascii_of_string taken) /\
    next s' = Some r.
Proof.
  induction s as [|c s IH]; cbn; intros H.
  - exists "", "". by repeat split.
  - destruct (atomMatches a c) eqn:E.
    + destruct (star a next s) as [r'|] eqn:Es.
      * injection H as ->. destruct (IH eq_refl) as (taken & s' & -> & Hall & Hn).
        exists (String c taken), s'. rewrite append_cons. repeat split; [|done].
        by constructor.
      * exists "", (String c s). by repeat split.
    + exists "", (String c s). by repeat split.
Qed.

End RegExpFacts.

(** ** Manifest lookup *)

Section DiscoveryFacts.

Import Discovery.

Context (statSync : Path -> option bool).
Context (readdirSync : Path -> option (list string)).
Context (readJson : Path -> option JSONValue).

Local Abbreviation packageCallback := (Discovery.packageCallback readJson).
Local Abbreviation climb := (Discovery.climb readdirSync).
Local Abbreviation getPackageFile :=
  (Discovery.getPackageFile statSync readdirSync readJson).
Local Abbreviation hasValidManifest :=
  (Discovery.hasValidManifest readdirSync readJson).
Local Abbreviation unlistable := (Discovery.unlistable readdirSync).
Local Abbreviation manifestLookup :=
  (Discovery.manifestLookup statSync readdirSync readJson).

(** The pattern accepts the name [package.json] and no other. *)
Lemma isPackageJson_eqb name : isPackageJson name = String.eqb "package.json" name.
Proof.
  destruct (String.eqb_spec "package.json" name) as [<-|Hne]; [reflexivity|].
  unfold isPackageJson.
  change packageJsonPattern
    with (Some {| RegExp.items := RegExp.literal "package.json" ++ [];
                  RegExp.anchoredEnd := true |}).
  unfold RegExp.test, RegExp.exec. cbn [RegExp.items RegExp.anchoredEnd].
  destruct (RegExp.matchItems _ _ _ _ _) as [r|] eqn:E; [|reflexivity].
  apply matchItems_literal_inv in E as (s' & -> & E).
  destruct s' as [|c s']; [|discriminate E]. by destruct Hne.
Qed.

Lemma find_isPackageJson names :
  List.find isPackageJson names =
  if existsb (String.eqb "package.json") names then Some "package.json" else None.
Proof.
  induction names as [|n names IH]; [reflexivity|].
  cbn [List.find existsb]. rewrite isPackageJson_eqb.
  destruct (String.eqb_spec "package.json" n) as [<-|Hne]; [reflexivity|].
  exact IH.
Qed.

(** The code's check passes exactly the manifests the specification calls
    valid. *)
Lemma rejects_validManifest v :
  rejects v = Normal false <-> validManifest v = true.
Proof.
  destruct v as [|b|n|s|l|members]; cbn; try (split; discriminate).
  destruct (member "name" members) as [[]|]; cbn; try (split; discriminate).
  destruct (member "version" members) as [[]|]; cbn; split; (discriminate || reflexivity).
Qed.

Lemma packageCallback_spec dir names :
  packageCallback dir names =
  if existsb (String.eqb "package.json") names &&
     match readJson (joinPath dir "package.json") with
     | Some v => validManifest v
     | None => false
     end
  then Some "package.json" else None.
Proof.
  unfold Discovery.packageCallback. rewrite find_isPackageJson.
  destruct (existsb _ names); [|reflexivity]. cbn [andb].
  destruct (readJson _) as [v|]; [|reflexivity].
  pose proof (rejects_validManifest v) as H.
  destruct (validManifest v).
  - by rewrite (proj2 H eq_refl).
  - destruct (rejects v) as [[]|]; try reflexivity.
    by discriminate (proj1 H eq_refl).
Qed.

(** The walk for the manifest: the first directory on the way up that
    cannot be listed or holds a valid manifest decides. *)
Lemma climb_find reversed :
  climb packageCallback reversed =
  match List.find (fun dir => unlistable dir || hasValidManifest dir) (upward reversed) with
  | Some dir =>
      if unlistable dir then Throw else Normal (Some (joinPath dir "package.json"))
  | None => Normal None
  end.
Proof.
  induction reversed as [|seg up IH]; cbn [Discovery.climb upward List.find];
    unfold Discovery.unlistable, Discovery.hasValidManifest;
    destruct (readdirSync _) as [names|] eqn:E; cbn [orb]; rewrite ?E; try reflexivity;
    rewrite packageCallback_spec; destruct (_ && _); rewrite ?E; try reflexivity.
  exact IH.
Qed.

(** C8. [getPackageFile] throws when the common root does not exist, and
    when the walk reaches a directory that cannot be listed before it has
    found a manifest. Otherwise it answers with the path, every backslash
    in it turned into a slash, of [package.json] in the first directory,
    from the common root upward, that lists a file of exactly that name
    whose content parses to an object with a string [name] and, if
    present, a string [version]; a directory whose [package.json] fails
    that is passed over and the walk goes on with its parent; the answer
    is [null] when no directory qualifies. *)
Theorem getPackageFile_first_valid (commonDir : Path) :
  getPackageFile commonDir =
  match manifestLookup commonDir with
  | Throw => Throw
  | Normal (Some file) => Normal (Some (slashes (pathString file)))
  | Normal None => Normal None
  end.
Proof.
  unfold Discovery.getPackageFile, Discovery.manifestLookup, escalade.
  destruct (statSync commonDir) as [isDirectory|]; [|reflexivity].
  rewrite climb_find. destruct (List.find _ _) as [dir|]; [|reflexivity].
  by destruct (Discovery.unlistable readdirSync dir).
Qed.

(** Without a backslash in any segment the answer is the path as it is. *)
Lemma slashes_without_backslash (s : string) :
  Forall (fun c => c <> "\"%char) (list_ascii_of_string s) -> slashes s = s.
Proof.
  induction s as [|c s IH]; [reflexivity|]. cbn. intros H.
  apply Forall_cons in H as [Hc Hs]. rewrite (IH Hs).
  apply Ascii.eqb_neq in Hc. by rewrite Hc.
Qed.

End DiscoveryFacts.

(** Scenario 4: from [/repo/pkg] the lookup passes over the manifest
    without a name and answers with the parent's; from a common root that
    does not exist it throws. *)
Example manifest_walk :
  Discovery.getPackageFile Examples.statSync Examples.readdirSync Examples.readJson
    ["repo"; "pkg"] = Discovery.Normal (Some "/repo/package.json") /\
  Discovery.getPackageFile Examples.statSync Examples.readdirSync Examples.readJson
    ["repo"; "pkg"; "index.ts"] = Discovery.Normal (Some "/repo/package.json") /\
  Discovery.getPackageFile Examples.statSync Examples.readdirSync (fun _ => None)
    ["repo"; "pkg"] = Discovery.Normal None /\
  Discovery.getPackageFile Examples.statSync Examples.readdirSync Examples.readJson
    ["repo"; "missing"] = Discovery.Throw.
Proof. repeat split; vm_compute; reflexivity. Qed.

(** C8: the claim as written fails. The answer is not always the path of
    the match: below a directory whose name holds a backslash the match
    is found, and the answer names another path. *)
Lemma answer_is_not_the_match_path :
  ~ (forall (statSync : Discovery.Path -> option bool)
            (readdirSync : Discovery.Path -> option (list string))
            (readJson : Discovery.Path -> option JSONValue)
            (commonDir file : Discovery.Path),
       Discovery.manifestLookup statSync readdirSync readJson commonDir
       = Discovery.Normal (Some file) ->
       Discovery.getPackageFile statSync readdirSync readJson commonDir
       = Discovery.Normal (Some (Discovery.pathString file))).
Proof.
  intros H.
  specialize (H Examples.backslashStat Examples.backslashReaddir Examples.backslashReadJson
                Examples.backslashDir (Examples.backslashDir ++ ["package.json"]) eq_refl).
  vm_compute in H. discriminate H.
Qed.

(** ** Codec *)

Section AssignmentFacts.

Import RegExp Codec.

Lemma compile_assignment (jsVariable : string) :
  compile (assignmentSource jsVariable) =
  Some {| items := literal (assignmentPrefix jsVariable) ++ assignmentGroup;
          anchoredEnd := true |}.
Proof.
  unfold assignmentSource, assignmentPrefix.
  change ("^" +:+ escapeRegExp jsVariable +:+ assignmentTail)
    with (String "^" (escapeRegExp jsVariable +:+ assignmentTail)).
  unfold compile. rewrite scan_escapeRegExp.
  match goal with |- context [scan ?t] =>
    let r := eval vm_compute in (scan t) in change (scan t) with r end.
  cbn iota. rewrite build_literal by reflexivity.
  match goal with |- context [build ?t] =>
    let r := eval vm_compute in (build t) in change (build t) with r end.
  cbn iota. cbn [items anchoredEnd]. rewrite literal_append. unfold literal.
  rewrite <- app_assoc. reflexivity.
Qed.

Lemma assignmentPrefix_append (jsVariable rest : string) :
  assignmentPrefix jsVariable +:+ rest = jsVariable +:+ " = " +:+ String quote rest.
Proof. unfold assignmentPrefix. by rewrite append_assoc. Qed.

Lemma notQuote_matches c : atomMatches (NotLit quote) c = true <-> c <> quote.
Proof.
  unfold atomMatches. rewrite negb_true_iff, Ascii.eqb_neq. split; congruence.
Qed.

Lemma tail_cases (s : string) :
  s = "" \/ s = ";" \/
  forall o g, matchItems [Match (Lit ";") Opt] true s o g = None.
Proof.
  destruct s as [|c [|c' s]].
  - by left.
  - destruct (Ascii.eqb_spec ";" c) as [<-|Hne]; [by right; left|].
    right; right. intros o g. apply Ascii.eqb_neq in Hne.
    cbn [matchItems atomMatches]. by rewrite Hne.
  - right; right. intros o g. cbn [matchItems atomMatches].
    by destruct (Ascii.eqb ";" c).
Qed.

Lemma matchItems_open rest e s o g :
  matchItems (GroupOpen :: rest) e s o g = matchItems rest e s s g.
Proof. reflexivity. Qed.

Lemma matchItems_close rest e s o g :
  matchItems (GroupClose :: rest) e s o g = matchItems rest e s o (captured o s).
Proof. reflexivity. Qed.

Lemma matchItems_star a rest e s o g :
  matchItems (Match a Star :: rest) e s o g =
  star a (fun s => matchItems rest e s o g) s.
Proof. reflexivity. Qed.

Lemma matchItems_one a rest e s o g :
  matchItems (Match a One :: rest) e s o g =
  match s with
  | String c s' => if atomMatches a c then matchItems rest e s' o g else None
  | EmptyString => None
  end.
Proof. reflexivity. Qed.

(** The end of the assignment pattern, an optional semicolon and then the
    end of the text, accepts the empty text and a lone semicolon. *)
Lemma tail_accepts (s o g : string) :
  s = "" \/ s = ";" -> matchItems [Match (Lit ";") Opt] true s o g = Some (g, "").
Proof. by intros [->| ->]. Qed.

(** The compiled assignment pattern matches exactly the texts of the
    assignment form, and captures the payload. *)
Lemma exec_assignment (jsVariable content group rest : string) :
  exec {| items := literal (assignmentPrefix jsVariable) ++ assignmentGroup;
          anchoredEnd := true |} content = Some (group, rest) <->
  isAssignment jsVariable content group /\ rest = "".
Proof.
  unfold exec. cbn [items anchoredEnd]. split.
  - intros E. apply matchItems_literal_inv in E as (s' & -> & E).
    unfold assignmentGroup in E. rewrite matchItems_open, matchItems_star in E.
    apply star_inv in E as (taken & s2 & -> & Hall & E).
    rewrite matchItems_close, matchItems_one in E.
    destruct s2 as [|c s3]; [discriminate E|].
    destruct (atomMatches (Lit quote) c) eqn:Hq; [|discriminate E].
    apply Ascii.eqb_eq in Hq as <-.
    rewrite captured_prefix in E.
    assert (Hfree : quoteFree taken).
    { eapply Forall_impl; [exact Hall|]. intros c. apply notQuote_matches. }
    destruct (tail_cases s3) as [->|[->|Hnone]].
    + rewrite tail_accepts in E by (by left). injection E as <- <-.
      split; [|reflexivity]. split; [exact Hfree|].
      left. apply assignmentPrefix_append.
    + rewrite tail_accepts in E by (by right). injection E as <- <-.
      split; [|reflexivity]. split; [exact Hfree|].
      right. apply assignmentPrefix_append.
    + by rewrite Hnone in E.
  - intros [[Hfree Hform] ->].
    assert (Hall : Forall (fun c => atomMatches (NotLit quote) c = true)
                     (list_ascii_of_string group)).
    { eapply Forall_impl; [exact Hfree|]. intros c. apply notQuote_matches. }
    assert (Hgo : forall tail, tail = "" \/ tail = ";" ->
              matchItems (literal (assignmentPrefix jsVariable) ++ assignmentGroup) true
                (assignmentPrefix jsVariable +:+ group +:+ String quote tail)
                (assignmentPrefix jsVariable +:+ group +:+ String quote tail) ""
              = Some (group, "")).
    { intros tail Htail. rewrite matchItems_literal. unfold assignmentGroup.
      rewrite matchItems_open, matchItems_star.
      apply star_all; [exact Hall| |].
      - intros c s' [= <- _]. reflexivity.
      - rewrite matchItems_close, matchItems_one, captured_prefix.
        unfold atomMatches. rewrite Ascii.eqb_refl. by apply tail_accepts. }
    destruct Hform as [->| ->].
    + pose proof (Hgo "" (or_introl eq_refl)) as H.
      rewrite assignmentPrefix_append in H. exact H.
    + pose proof (Hgo ";" (or_intror eq_refl)) as H.
      rewrite assignmentPrefix_append in H. exact H.
Qed.

End AssignmentFacts.

(** Why the variable is escaped: read as it stands, the dot of [a.b]
    would accept any character; escaped, it accepts the dot only. *)
Example escaping_matters :
  let content := "aXb = " +:+ String Codec.quote "p" +:+ String Codec.quote ";" in
  (match RegExp.compile ("^a.b" +:+ Codec.assignmentTail) with
   | Some p => Some (RegExp.replace p RegExp.Group1 content)
   | None => None
   end) = Some "p" /\
  Codec.stripAssignment "a.b" content = Codec.Ok content /\
  Codec.stripAssignment "a.b"
    ("a.b = " +:+ String Codec.quote "p" +:+ String Codec.quote ";") = Codec.Ok "p".
Proof. repeat split. Qed.

Section CodecFacts.

Import Codec.

Context {Value : Type}.
Context (JSON_stringify : Value -> string) (JSON_parse : string -> option Value).
Context (gzip : string -> string) (gunzip : string -> option string).
Context (toBase64 fromBase64 : string -> string).

Local Abbreviation decodePayload := (Codec.decodePayload JSON_parse gunzip fromBase64).
Local Abbreviation readGzipJson := (Codec.readGzipJson JSON_parse gunzip fromBase64).
Local Abbreviation encode := (Codec.encode JSON_stringify gzip toBase64).
Local Abbreviation writeGzipJson := (Codec.writeGzipJson JSON_stringify gzip toBase64).

(** A text of the assignment form is replaced by its payload. *)
Lemma stripAssignment_match (jsVariable content payload : string) :
  isAssignment jsVariable content payload ->
  stripAssignment jsVariable content = Ok payload.
Proof.
  intros H. unfold stripAssignment. rewrite compile_assignment.
  unfold RegExp.replace.
  rewrite (proj2 (exec_assignment jsVariable content payload "") (conj H eq_refl)).
  by rewrite append_nil_r.
Qed.

(** Any other text is left as it is: [replace] finds nothing to replace. *)
Lemma stripAssignment_other (jsVariable content : string) :
  (forall payload, ~ isAssignment jsVariable content payload) ->
  stripAssignment jsVariable content = Ok content.
Proof.
  intros H. unfold stripAssignment. rewrite compile_assignment.
  unfold RegExp.replace.
  destruct (RegExp.exec _ content) as [[group rest]|] eqn:E; [|reflexivity].
  apply exec_assignment in E as [E _]. by destruct (H group).
Qed.

Lemma compile_dataUri :
  RegExp.compile dataUriSource =
  Some {| RegExp.items := RegExp.literal dataUriPrefix ++ [];
          RegExp.anchoredEnd := false |}.
Proof. reflexivity. Qed.

Lemma stripDataUri_prefix (payload : string) :
  stripDataUri (dataUriPrefix +:+ payload) = Ok payload.
Proof.
  unfold stripDataUri. rewrite compile_dataUri.
  unfold RegExp.replace, RegExp.exec. cbn [RegExp.items RegExp.anchoredEnd].
  by rewrite matchItems_literal.
Qed.

Lemma quoteFree_append (a b : string) : quoteFree a -> quoteFree b -> quoteFree (a +:+ b).
Proof.
  unfold quoteFree. rewrite list_ascii_append. intros Ha Hb.
  apply Forall_app. by split.
Qed.

Lemma quoteFree_dataUriPrefix : quoteFree dataUriPrefix.
Proof. unfold quoteFree. cbn. repeat constructor; discriminate. Qed.

(** C2, as amended. When a variable name is given and the content is
    not of the assignment form, [readGzipJson] raises nothing for that:
    the content is left as it is and decoding goes on exactly as when no
    variable name is given. *)
Theorem readGzipJson_without_match (fs : Files) (file jsVariable content : string) :
  fs !! file = Some content ->
  (forall payload, ~ isAssignment jsVariable content payload) ->
  readGzipJson fs file (Some jsVariable) = readGzipJson fs file None.
Proof.
  intros Hfile Hno. unfold Codec.readGzipJson. rewrite Hfile.
  destruct (truthy jsVariable); [|reflexivity].
  by rewrite (stripAssignment_other _ _ Hno).
Qed.

Section Laws.

(** What the code relies on from the runtime: [gunzip] undoes [gzip],
    decoding base64 undoes encoding it, and base64 text holds no double
    quote. *)
Hypothesis gunzip_gzip : forall buffer, gunzip (gzip buffer) = Some buffer.
Hypothesis fromBase64_toBase64 : forall buffer, fromBase64 (toBase64 buffer) = buffer.
Hypothesis toBase64_quoteFree : forall buffer, quoteFree (toBase64 buffer).

Lemma decodePayload_encoded (v : Value) :
  JSON_parse (JSON_stringify v) = Some v ->
  decodePayload (toBase64 (gzip (JSON_stringify v))) = Ok v.
Proof.
  intros Hv. unfold Codec.decodePayload.
  by rewrite fromBase64_toBase64, gunzip_gzip, Hv.
Qed.

(** C1. A value that [JSON.parse] reads back from its [JSON.stringify]
    text is returned by [readGzipJson] from the file [writeGzipJson]
    wrote, with the same variable name, whatever the name, or with none. *)
Theorem codec_round_trip (fs : Files) (file : string) (v : Value)
  (jsVariable : option string) :
  JSON_parse (JSON_stringify v) = Some v ->
  readGzipJson (writeGzipJson fs file v jsVariable) file jsVariable = Ok v.
Proof.
  intros Hv. unfold Codec.readGzipJson, Codec.writeGzipJson.
  rewrite lookup_insert_eq. unfold Codec.encode.
  set (payload := toBase64 (gzip (JSON_stringify v))).
  assert (Hplain : match stripDataUri (dataUriPrefix +:+ payload) with
                   | Err e => Err e
                   | Ok content => decodePayload content
                   end = Ok v).
  { rewrite stripDataUri_prefix. by apply decodePayload_encoded. }
  destruct jsVariable as [name|]; [|exact Hplain].
  destruct (truthy name) eqn:Hname; [|exact Hplain].
  rewrite (stripAssignment_match name _ (dataUriPrefix +:+ payload)); [exact Hplain|].
  split.
  - apply quoteFree_append; [apply quoteFree_dataUriPrefix | apply toBase64_quoteFree].
  - by right.
Qed.

End Laws.

End CodecFacts.

(** ** The runtime stand-ins keep the laws *)

Section RuntimeFacts.

Import Runtime.

Lemma runtime_gunzip_gzip (buffer : string) : gunzip (gzip buffer) = Some buffer.
Proof. reflexivity. Qed.

Lemma legalSextets_encodeChar (x : Sextet) (rest : string) :
  legalSextets (String (encodeChar x) rest) = x :: legalSextets rest.
Proof. destruct x as [[[[[[] []] []] []] []] []]; reflexivity. Qed.

Lemma encodeChar_not_quote (x : Sextet) : encodeChar x <> Codec.quote.
Proof. destruct x as [[[[[[] []] []] []] []] []]; discriminate. Qed.

Lemma bytes_split3 (a b c : ascii) :
  let '(s0, s1, s2, s3) := split3 a b c in
  firstByte s0 s1 = a /\ secondByte s1 s2 = b /\ thirdByte s2 s3 = c.
Proof.
  destruct a as [a0 a1 a2 a3 a4 a5 a6 a7], b as [b0 b1 b2 b3 b4 b5 b6 b7],
    c as [c0 c1 c2 c3 c4 c5 c6 c7].
  by repeat split.
Qed.

(** Induction on a buffer three bytes at a time. *)
Lemma buffer_ind3 (P : string -> Prop) :
  P "" ->
  (forall a, P (String a "")) ->
  (forall a b, P (String a (String b ""))) ->
  (forall a b c rest, P rest -> P (String a (String b (String c rest)))) ->
  forall buffer, P buffer.
Proof.
  intros H0 H1 H2 H3. fix IH 1.
  intros [|a [|b [|c rest]]]; [exact H0 | apply H1 | apply H2 | apply H3, IH].
Qed.

Lemma runtime_fromBase64_toBase64 (buffer : string) : fromBase64 (toBase64 buffer) = buffer.
Proof.
  unfold fromBase64. induction buffer as [|a|a b|a b c rest IH] using buffer_ind3.
  - reflexivity.
  - cbn [toBase64]. pose proof (bytes_split3 a zero zero) as H.
    destruct (split3 a zero zero) as [[[s0 s1] s2] s3]. destruct H as (Ha & _ & _).
    rewrite !legalSextets_encodeChar. cbn. by rewrite Ha.
  - cbn [toBase64]. pose proof (bytes_split3 a b zero) as H.
    destruct (split3 a b zero) as [[[s0 s1] s2] s3]. destruct H as (Ha & Hb & _).
    rewrite !legalSextets_encodeChar. cbn. by rewrite Ha, Hb.
  - cbn [toBase64]. pose proof (bytes_split3 a b c) as H.
    destruct (split3 a b c) as [[[s0 s1] s2] s3]. destruct H as (Ha & Hb & Hc).
    rewrite !legalSextets_encodeChar. cbn [bytesOf]. by rewrite Ha, Hb, Hc, IH.
Qed.

Lemma runtime_toBase64_quoteFree (buffer : string) : Codec.quoteFree (toBase64 buffer).
Proof.
  unfold Codec.quoteFree.
  induction buffer as [|a|a b|a b c rest IH] using buffer_ind3; cbn [toBase64].
  - constructor.
  - destruct (split3 a zero zero) as [[[s0 s1] s2] s3]. cbn.
    repeat constructor; (apply encodeChar_not_quote || discriminate).
  - destruct (split3 a b zero) as [[[s0 s1] s2] s3]. cbn.
    repeat constructor; (apply encodeChar_not_quote || discriminate).
  - destruct (split3 a b c) as [[[s0 s1] s2] s3]. cbn [list_ascii_of_string].
    repeat (constructor; [apply encodeChar_not_quote|]). exact IH.
Qed.

End RuntimeFacts.

(** Scenario 1: the empty search data written under [window.searchData]
    and read back. *)
Lemma codec_round_trip_witness :
  Runtime.JSON_parse (Runtime.JSON_stringify Examples.emptySearch)
    = Some Examples.emptySearch /\
  Runtime.readGzipJson
    (Runtime.writeGzipJson ∅ "search.js" Examples.emptySearch (Some "window.searchData"))
    "search.js" (Some "window.searchData")
  = Codec.Ok Examples.emptySearch.
Proof.
  split; [reflexivity|].
  apply (codec_round_trip Runtime.JSON_stringify Runtime.JSON_parse
           Runtime.gzip Runtime.gunzip Runtime.toBase64 Runtime.fromBase64
           runtime_gunzip_gzip runtime_fromBase64_toBase64
           runtime_toBase64_quoteFree).
  reflexivity.
Defined.

(** A text that starts with another letter than the variable is not an
    assignment to it. *)
Lemma bare_payload_is_no_assignment (payload : string) :
  ~ Codec.isAssignment "window.searchData"
      (Runtime.encode Examples.emptySearch None) payload.
Proof. intros [_ [H|H]]; vm_compute in H; discriminate H. Qed.

(** C2: the claim as written fails. The artifact written without a
    variable name does not match the assignment pattern, and reading it
    with a variable name returns the value, with no error. *)
Lemma mismatch_is_not_an_error :
  ~ (forall (fs : Codec.Files) (file jsVariable content : string),
       fs !! file = Some content ->
       (forall payload, ~ Codec.isAssignment jsVariable content payload) ->
       exists e, Runtime.readGzipJson fs file (Some jsVariable) = Codec.Err e).
Proof.
  intros H.
  destruct (H (Runtime.writeGzipJson ∅ "search.js" Examples.emptySearch None)
              "search.js" "window.searchData"
              (Runtime.encode Examples.emptySearch None)
              (lookup_insert_eq _ _ _) bare_payload_is_no_assignment) as [e He].
  vm_compute in He. discriminate He.
Qed.

Lemma readGzipJson_without_match_witness :
  (Runtime.writeGzipJson ∅ "search.js" Examples.emptySearch None !! "search.js"
     = Some (Runtime.encode Examples.emptySearch None) /\
   forall payload, ~ Codec.isAssignment "window.searchData"
                       (Runtime.encode Examples.emptySearch None) payload) /\
  Runtime.readGzipJson (Runtime.writeGzipJson ∅ "search.js" Examples.emptySearch None)
    "search.js" (Some "window.searchData")
  = Runtime.readGzipJson (Runtime.writeGzipJson ∅ "search.js" Examples.emptySearch None)
      "search.js" None.
Proof.
  split; [split; [apply lookup_insert_eq | apply bare_payload_is_no_assignment]|].
  apply (readGzipJson_without_match Runtime.JSON_parse Runtime.gunzip Runtime.fromBase64
           _ "search.js" "window.searchData" (Runtime.encode Examples.emptySearch None)).
  - apply lookup_insert_eq.
  - apply bare_payload_is_no_assignment.
Defined.

(** ** Type guards *)

Section GuardFacts.

Import Guards.

Lemma JSONValue_tree_ind (P : JSONValue -> Prop) :
  P JNull -> (forall b, P (JBool b)) -> (forall n, P (JNumber n)) ->
  (forall s, P (JString s)) ->
  (forall elements, Forall P elements -> P (JArray elements)) ->
  (forall members, Forall (fun kv => P (snd kv)) members -> P (JObject members)) ->
  forall v, P v.
Proof.
  intros Hnull Hbool Hnum Hstr Harr Hobj. fix IH 1.
  intros [|b|n|s|elements|members];
    [exact Hnull | apply Hbool | apply Hnum | apply Hstr | apply Harr | apply Hobj].
  - induction elements as [|x l IHl]; constructor; [apply IH | exact IHl].
  - induction members as [|[k x] l IHl]; constructor; [apply IH | exact IHl].
Qed.

Lemma isJSONValue_part outer part :
  isJSONValue outer = true -> In part (parts outer) -> isJSONValue part = true.
Proof.
  destruct outer as [| | | | | | | |elements|members]; cbn [parts]; try (intros _ []).
  - cbn [isJSONValue]. intros H Hin. by apply (proj1 (forallb_forall _ _) H).
  - cbn [isJSONValue]. intros H Hin. apply in_map_iff in Hin as ([k v] & <- & Hin).
    by apply (proj1 (forallb_forall _ _) H (k, v)).
Qed.

(** X1. Whatever [isJSONValue] accepts is JSON all the way down: every
    value inside an accepted value, at any depth, is accepted too; so one
    [undefined], function, symbol or bigint anywhere inside makes the
    guard answer false. *)
Theorem isJSONValue_within (inner outer : JSValue) :
  Within inner outer ->
  isJSONValue outer = true ->
  isJSONValue inner = true /\
  inner <> VUndefined /\ inner <> VFunction /\ inner <> VSymbol /\
  (forall z, inner <> VBigInt z).
Proof.
  intros Hin Hout.
  assert (H : isJSONValue inner = true).
  { induction Hin as [|outer part Hpart _ IH]; [exact Hout|].
    apply IH. by apply (isJSONValue_part outer). }
  split; [exact H|]. unfold not. repeat split; intros; subst inner; discriminate H.
Qed.

(** X2. Every decoded JSON value passes [isJSONValue]; [isJSONObject]
    accepts it exactly when it is an object, [isJSONArray] exactly when it
    is an array, so [null] and arrays are no [JSONObject]. *)
Theorem guards_on_json (v : JSONValue) :
  isJSONValue (ofJSON v) = true /\
  isJSONObject (ofJSON v) = match v with JObject _ => true | _ => false end /\
  isJSONArray (ofJSON v) = match v with JArray _ => true | _ => false end.
Proof.
  assert (H : forall v, isJSONValue (ofJSON v) = true).
  { induction v0 as [|b|n|s|elements IH|members IH] using JSONValue_tree_ind;
      try reflexivity; cbn [ofJSON isJSONValue].
    - apply forallb_forall. intros x Hx. apply in_map_iff in Hx as (y & <- & Hy).
      by apply (proj1 (List.Forall_forall _ _) IH).
    - apply forallb_forall. intros [k x] Hx.
      apply in_map_iff in Hx as ([k' y] & [= <- <-] & Hy).
      by apply (proj1 (List.Forall_forall _ _) IH (k', y)). }
  split; [apply H|].
  destruct v as [|b|n|s|elements|members]; try (split; reflexivity).
  - split; [reflexivity|]. apply (H (JArray elements)).
  - split; [|reflexivity]. apply (H (JObject members)).
Qed.

End GuardFacts.

Lemma isJSONValue_within_witness :
  (Guards.Within Guards.VFunction Samples.nested /\
   Guards.isJSONValue Samples.plain = true /\
   Guards.Within (Guards.VString "deep") Samples.plain) /\
  Guards.isJSONValue Samples.nested = false /\
  Guards.isJSONValue (Guards.VString "deep") = true.
Proof.
  assert (Hin : Guards.Within (Guards.VString "deep") Samples.plain).
  { eapply Guards.within_part; [right; left; reflexivity|].
    eapply Guards.within_part; [left; reflexivity|]. constructor. }
  split; [split; [|split; [reflexivity | exact Hin]]|split; [reflexivity|]].
  - eapply Guards.within_part; [right; left; reflexivity|].
    eapply Guards.within_part; [left; reflexivity|]. constructor.
  - exact (proj1 (isJSONValue_within _ _ Hin eq_refl)).
Defined.

(** ** Callback registries *)

Section RegistryFacts.

Import Registry.

Lemma queued_push app a job job' (h : gmap Application (list Job)) :
  length (filter (fun j => j = job) (default [] (pushJob a job' h !! app))) =
  (length (filter (fun j => j = job) (default [] (h !! app))) +
   if decide (a = app) then if decide (job' = job) then 1 else 0 else 0)%nat.
Proof.
  unfold pushJob. destruct (decide (a = app)) as [->|Hne].
  - rewrite lookup_insert_eq. cbn [default from_option id]. rewrite filter_app, length_app.
    f_equal. rewrite filter_cons, filter_nil. by destruct (decide (job' = job)).
  - rewrite lookup_insert_ne by done. lia.
Qed.

Lemma getSearchTasks_tasks a h :
  fst (getSearchTasks a h) =
  default {| Search.alter := []; Search.format := [] |} (searchTasksStore h !! a).
Proof. unfold getSearchTasks. by destruct (searchTasksStore h !! a). Qed.

Lemma getSearchTasks_navigation a h :
  navigationTasksStore (snd (getSearchTasks a h)) = navigationTasksStore h.
Proof. unfold getSearchTasks. by destruct (searchTasksStore h !! a). Qed.

Lemma getSearchTasks_queued a h app job :
  queued job app (snd (getSearchTasks a h)) =
  (queued job app h +
   if decide (a = app)
   then match searchTasksStore h !! a with
        | None => if decide (SearchJob = job) then 1 else 0
        | Some _ => 0
        end
   else 0)%nat.
Proof.
  unfold getSearchTasks, queued. destruct (searchTasksStore h !! a); cbn.
  - destruct (decide (a = app)); lia.
  - apply queued_push.
Qed.

Lemma getNavigationTasks_tasks a h :
  fst (getNavigationTasks a h) =
  default {| Navigation.alter := []; Navigation.format := [] |}
    (navigationTasksStore h !! a).
Proof. unfold getNavigationTasks. by destruct (navigationTasksStore h !! a). Qed.

Lemma getNavigationTasks_search a h :
  searchTasksStore (snd (getNavigationTasks a h)) = searchTasksStore h.
Proof. unfold getNavigationTasks. by destruct (navigationTasksStore h !! a). Qed.

Lemma getNavigationTasks_queued a h app job :
  queued job app (snd (getNavigationTasks a h)) =
  (queued job app h +
   if decide (a = app)
   then match navigationTasksStore h !! a with
        | None => if decide (NavigationJob = job) then 1 else 0
        | Some _ => 0
        end
   else 0)%nat.
Proof.
  unfold getNavigationTasks, queued. destruct (navigationTasksStore h !! a); cbn.
  - destruct (decide (a = app)); lia.
  - apply queued_push.
Qed.

Lemma getSearchTasks_other a h app :
  a <> app ->
  searchTasksStore (snd (getSearchTasks a h)) !! app = searchTasksStore h !! app.
Proof.
  intros Hne. unfold getSearchTasks. destruct (searchTasksStore h !! a); [done|].
  cbn. by rewrite lookup_insert_ne.
Qed.

Lemma getNavigationTasks_other a h app :
  a <> app ->
  navigationTasksStore (snd (getNavigationTasks a h)) !! app
  = navigationTasksStore h !! app.
Proof.
  intros Hne. unfold getNavigationTasks. destruct (navigationTasksStore h !! a); [done|].
  cbn. by rewrite lookup_insert_ne.
Qed.

Lemma perform_search (h : Host) (c : Call) (app : Application) :
  searchTasksStore (perform h c) !! app =
  match c with
  | AlterSearch a cb =>
      if decide (a = app)
      then let t := default {| Search.alter := []; Search.format := [] |}
                      (searchTasksStore h !! app) in
           Some {| Search.alter := Search.alter t ++ [cb];
                   Search.format := Search.format t |}
      else searchTasksStore h !! app
  | FormatSearch a cb =>
      if decide (a = app)
      then let t := default {| Search.alter := []; Search.format := [] |}
                      (searchTasksStore h !! app) in
           Some {| Search.alter := Search.alter t;
                   Search.format := Search.format t ++ [cb] |}
      else searchTasksStore h !! app
  | _ => searchTasksStore h !! app
  end.
Proof.
  destruct c as [a cb|a cb|a cb|a cb]; cbn [perform].
  - unfold alterSearch. pose proof (getSearchTasks_tasks a h) as Ht.
    pose proof (getSearchTasks_other a h app) as Ho.
    destruct (getSearchTasks a h) as [t h']. cbn [fst snd] in *. subst t. cbn.
    destruct (decide (a = app)) as [->|Hne];
      [by rewrite lookup_insert_eq | rewrite lookup_insert_ne by done].
    by apply Ho.
  - unfold formatSearch. pose proof (getSearchTasks_tasks a h) as Ht.
    pose proof (getSearchTasks_other a h app) as Ho.
    destruct (getSearchTasks a h) as [t h']. cbn [fst snd] in *. subst t. cbn.
    destruct (decide (a = app)) as [->|Hne];
      [by rewrite lookup_insert_eq | rewrite lookup_insert_ne by done].
    by apply Ho.
  - unfold alterNavigation. pose proof (getNavigationTasks_search a h) as Hs.
    destruct (getNavigationTasks a h) as [t h']. cbn in *. by rewrite Hs.
  - unfold formatNavigation. pose proof (getNavigationTasks_search a h) as Hs.
    destruct (getNavigationTasks a h) as [t h']. cbn in *. by rewrite Hs.
Qed.

Lemma perform_navigation (h : Host) (c : Call) (app : Application) :
  navigationTasksStore (perform h c) !! app =
  match c with
  | AlterNavigation a cb =>
      if decide (a = app)
      then let t := default {| Navigation.alter := []; Navigation.format := [] |}
                      (navigationTasksStore h !! app) in
           Some {| Navigation.alter := Navigation.alter t ++ [cb];
                   Navigation.format := Navigation.format t |}
      else navigationTasksStore h !! app
  | FormatNavigation a cb =>
      if decide (a = app)
      then let t := default {| Navigation.alter := []; Navigation.format := [] |}
                      (navigationTasksStore h !! app) in
           Some {| Navigation.alter := Navigation.alter t;
                   Navigation.format := Navigation.format t ++ [cb] |}
      else navigationTasksStore h !! app
  | _ => navigationTasksStore h !! app
  end.
Proof.
  destruct c as [a cb|a cb|a cb|a cb]; cbn [perform].
  - unfold alterSearch. pose proof (getSearchTasks_navigation a h) as Hs.
    destruct (getSearchTasks a h) as [t h']. cbn in *. by rewrite Hs.
  - unfold formatSearch. pose proof (getSearchTasks_navigation a h) as Hs.
    destruct (getSearchTasks a h) as [t h']. cbn in *. by rewrite Hs.
  - unfold alterNavigation. pose proof (getNavigationTasks_tasks a h) as Ht.
    pose proof (getNavigationTasks_other a h app) as Ho.
    destruct (getNavigationTasks a h) as [t h']. cbn [fst snd] in *. subst t. cbn.
    destruct (decide (a = app)) as [->|Hne];
      [by rewrite lookup_insert_eq | rewrite lookup_insert_ne by done].
    by apply Ho.
  - unfold formatNavigation. pose proof (getNavigationTasks_tasks a h) as Ht.
    pose proof (getNavigationTasks_other a h app) as Ho.
    destruct (getNavigationTasks a h) as [t h']. cbn [fst snd] in *. subst t. cbn.
    destruct (decide (a = app)) as [->|Hne];
      [by rewrite lookup_insert_eq | rewrite lookup_insert_ne by done].
    by apply Ho.
Qed.

Lemma perform_queued (h : Host) (c : Call) (app : Application) (job : Job) :
  queued job app (perform h c) =
  (queued job app h +
   match c with
   | AlterSearch a _ | FormatSearch a _ =>
       if decide (a = app)
       then match searchTasksStore h !! app with
            | None => if decide (SearchJob = job) then 1 else 0
            | Some _ => 0
            end
       else 0
   | AlterNavigation a _ | FormatNavigation a _ =>
       if decide (a = app)
       then match navigationTasksStore h !! app with
            | None => if decide (NavigationJob = job) then 1 else 0
            | Some _ => 0
            end
       else 0
   end)%nat.
Proof.
  destruct c as [a cb|a cb|a cb|a cb]; cbn [perform].
  - unfold alterSearch. pose proof (getSearchTasks_queued a h app job) as Hq.
    destruct (getSearchTasks a h) as [t h']. cbn [snd] in Hq.
    change (queued job app (setSearchTasks a _ h')) with (queued job app h').
    rewrite Hq. by destruct (decide (a = app)) as [->|].
  - unfold formatSearch. pose proof (getSearchTasks_queued a h app job) as Hq.
    destruct (getSearchTasks a h) as [t h']. cbn [snd] in Hq.
    change (queued job app (setSearchTasks a _ h')) with (queued job app h').
    rewrite Hq. by destruct (decide (a = app)) as [->|].
  - unfold alterNavigation. pose proof (getNavigationTasks_queued a h app job) as Hq.
    destruct (getNavigationTasks a h) as [t h']. cbn [snd] in Hq.
    change (queued job app (setNavigationTasks a _ h')) with (queued job app h').
    rewrite Hq. by destruct (decide (a = app)) as [->|].
  - unfold formatNavigation. pose proof (getNavigationTasks_queued a h app job) as Hq.
    destruct (getNavigationTasks a h) as [t h']. cbn [snd] in Hq.
    change (queued job app (setNavigationTasks a _ h')) with (queued job app h').
    rewrite Hq. by destruct (decide (a = app)) as [->|].
Qed.

Lemma unregistered_search app calls :
  registersSearch app calls = false ->
  searchAlters app calls = [] /\ searchFormats app calls = [].
Proof.
  induction calls as [|c calls IH]; [done|].
  unfold registersSearch, searchAlters, searchFormats in *. cbn.
  destruct c as [a cb|a cb|a cb|a cb]; try exact IH;
    (destruct (decide (a = app)) as [->|Hne];
     [by rewrite bool_decide_eq_true_2 | rewrite bool_decide_eq_false_2 by done; exact IH]).
Qed.

Lemma unregistered_navigation app calls :
  registersNavigation app calls = false ->
  navigationAlters app calls = [] /\ navigationFormats app calls = [].
Proof.
  induction calls as [|c calls IH]; [done|].
  unfold registersNavigation, navigationAlters, navigationFormats in *. cbn.
  destruct c as [a cb|a cb|a cb|a cb]; try exact IH;
    (destruct (decide (a = app)) as [->|Hne];
     [by rewrite bool_decide_eq_true_2 | rewrite bool_decide_eq_false_2 by done; exact IH]).
Qed.

(** The state of [app] after the calls, from a process where nothing was
    registered: both stores and the three job counts. *)
Lemma performAll_state (jobs : gmap Application (list Job)) (app : Application)
  (calls : list Call) :
  let h := performAll calls (freshHost jobs) in
  searchTasksStore h !! app =
    (if registersSearch app calls
     then Some {| Search.alter := searchAlters app calls;
                  Search.format := searchFormats app calls |}
     else None) /\
  navigationTasksStore h !! app =
    (if registersNavigation app calls
     then Some {| Navigation.alter := navigationAlters app calls;
                  Navigation.format := navigationFormats app calls |}
     else None) /\
  queued SearchJob app h =
    (queued SearchJob app (freshHost jobs) +
     if registersSearch app calls then 1 else 0)%nat /\
  queued NavigationJob app h =
    (queued NavigationJob app (freshHost jobs) +
     if registersNavigation app calls then 1 else 0)%nat /\
  queued HostJob app h = queued HostJob app (freshHost jobs).
Proof.
  cbn zeta. induction calls as [|c calls IH] using rev_ind.
  - cbn. repeat split; try apply lookup_empty; lia.
  - unfold performAll in *. rewrite fold_left_app. cbn [fold_left].
    set (h := fold_left perform calls (freshHost jobs)) in *.
    destruct IH as (Hs & Hn & Hqs & Hqn & Hqh).
    rewrite perform_search, perform_navigation, !perform_queued, Hqs, Hqn, Hqh, Hs, Hn.
    pose proof (unregistered_search app calls) as Hus.
    pose proof (unregistered_navigation app calls) as Hun.
    unfold registersSearch, registersNavigation, searchAlters, searchFormats,
      navigationAlters, navigationFormats in *.
    rewrite !existsb_app, !omap_app. cbn [existsb omap list_omap orb].
    destruct c as [a cb|a cb|a cb|a cb];
      (destruct (decide (a = app)) as [->|Hne];
       [rewrite ?bool_decide_eq_true_2 by done
       |rewrite ?bool_decide_eq_false_2 by done]);
      rewrite ?orb_false_r, ?orb_true_r, ?app_nil_r;
      repeat match goal with
        | H : existsb ?f calls = false -> _ |- context [existsb ?f calls] =>
            destruct (existsb f calls);
            [clear H | destruct (H eq_refl) as [-> ->]]
        end;
      cbn; rewrite ?decide_True by done;
      repeat split; try done; try lia; try (case_decide; [lia|done]).
Qed.

End RegistryFacts.

(** ** More on the search rebuild *)

Section SearchMore.

Import Search.

Context (searchInComments searchInDocuments : bool).
Context (getReflectionClasses : Reflection -> string).
Context (projectReflections : list Reflection).
Context (searchFields : list (gmap string string)).
Context (searchFieldWeights : list (string * number)).

Local Abbreviation fill := (Search.fill searchInComments searchInDocuments getReflectionClasses).
Local Abbreviation fillLegacy := (Search.fillLegacy searchInComments searchInDocuments getReflectionClasses).
Local Abbreviation fillPhase :=
  (Search.fillPhase searchInComments searchInDocuments getReflectionClasses projectReflections).
Local Abbreviation fillPhaseLegacy :=
  (Search.fillPhaseLegacy searchInComments searchInDocuments getReflectionClasses projectReflections).
Local Abbreviation formatted :=
  (Search.formatted searchInComments searchInDocuments getReflectionClasses projectReflections).
Local Abbreviation legacyFormatted :=
  (Search.legacyFormatted searchInComments searchInDocuments getReflectionClasses projectReflections).
Local Abbreviation searchJobRow :=
  (Search.searchJobRow searchInComments searchInDocuments getReflectionClasses
     projectReflections searchFields).
Local Abbreviation rebuildSearchRow :=
  (Search.rebuildSearchRow searchInComments searchInDocuments getReflectionClasses
     projectReflections searchFields).
Local Abbreviation searchJob :=
  (Search.searchJob searchInComments searchInDocuments getReflectionClasses
     projectReflections searchFields searchFieldWeights).
Local Abbreviation rebuildSearch :=
  (Search.rebuildSearch searchInComments searchInDocuments getReflectionClasses
     projectReflections searchFields searchFieldWeights).
Local Abbreviation jobDocument :=
  (Search.jobDocument searchInComments searchInDocuments getReflectionClasses
     projectReflections searchFields).
Local Abbreviation legacyDocument :=
  (Search.legacyDocument searchInComments searchInDocuments getReflectionClasses
     projectReflections searchFields).
Local Abbreviation reflections := (Search.reflections projectReflections).

Section LoopMore.

Variable body : nat -> SearchItem -> Builder -> SearchItem * Builder.
Variable after : SearchItem -> SearchItem.
Variable doc : nat -> SearchItem -> option (gmap string FieldValue * option number).
Hypothesis body_spec : forall id row b,
  body id row b =
  (after row, match doc id row with
              | Some d => add (fst d) (snd d) b
              | None => b
              end).
Hypothesis doc_id : forall id row d, doc id row = Some d -> docId d = Some (FNumber id).

(** The loop only ever adds documents: the pipeline, the reference field
    and the declared fields stay as they were set up. *)
Lemma forEntries_configuration rs : forall id b,
  pipeline (snd (forEntries body id rs b)) = pipeline b /\
  ref (snd (forEntries body id rs b)) = ref b /\
  fields (snd (forEntries body id rs b)) = fields b.
Proof.
  induction rs as [|row rest IH]; intros id b; cbn; [done|].
  rewrite body_spec.
  specialize (IH (S id) (match doc id row with
                         | Some d => add (fst d) (snd d) b
                         | None => b
                         end)).
  destruct (forEntries body (S id) rest _) as [rest' b'']. cbn in *.
  destruct IH as (-> & -> & ->). by destruct (doc id row).
Qed.

(** The documents are added in the order of the rows, each under its
    position. *)
Lemma forEntries_ids rs : forall id b,
  exists ps,
    map docId (documents (snd (forEntries body id rs b))) =
      map docId (documents b) ++ map (fun p => Some (FNumber p)) ps /\
    StronglySorted lt ps /\
    Forall (fun p => id <= p < id + length rs)%nat ps.
Proof.
  induction rs as [|row rest IH]; intros id b; cbn [forEntries].
  - exists []. cbn. rewrite app_nil_r. repeat split; constructor.
  - rewrite body_spec.
    specialize (IH (S id) (match doc id row with
                           | Some d => add (fst d) (snd d) b
                           | None => b
                           end)).
    destruct (forEntries body (S id) rest _) as [rest' b'']. cbn [snd] in *.
    destruct IH as (ps & Hmap & Hsorted & Hrange).
    assert (Hrange' : Forall (fun p => id <= p < id + length (row :: rest))%nat ps).
    { eapply Forall_impl; [exact Hrange|]. cbn. intros p. lia. }
    destruct (doc id row) as [d|] eqn:E.
    + exists (id :: ps). rewrite Hmap. pose proof (doc_id _ _ _ E) as Hid.
      destruct d as [dm da]. cbn [add documents fst snd].
      rewrite map_app. cbn [map]. rewrite Hid, <- app_assoc.
      split; [reflexivity|]. split.
      * constructor; [exact Hsorted|].
        eapply Forall_impl; [exact Hrange|]. cbn. intros p. lia.
      * constructor; [cbn; lia | exact Hrange'].
    + exists ps. by repeat split.
Qed.

End LoopMore.

Lemma preparedBuilder_configuration :
  pipeline (preparedBuilder searchFieldWeights) = ["trimmer"] /\
  ref (preparedBuilder searchFieldWeights) = Some "id" /\
  fields (preparedBuilder searchFieldWeights) = searchFieldWeights.
Proof.
  unfold preparedBuilder.
  assert (H : forall ws b,
             let b' := fold_left (fun b kw => field (fst kw) (snd kw) b) ws b in
             pipeline b' = pipeline b /\ ref b' = ref b /\ fields b' = fields b ++ ws).
  { induction ws as [|[k w] ws IH]; intros b; cbn.
    - by rewrite app_nil_r.
    - destruct (IH (field k w b)) as (-> & -> & ->). cbn. by rewrite <- app_assoc. }
  destruct (H searchFieldWeights (set_ref "id" (pipeline_add "trimmer" newBuilder)))
    as (-> & -> & ->).
  done.
Qed.

(** X5. Whatever the rows and the callbacks, the index both paths build
    is set up the same way: the trimmer is the one pipeline function added,
    [id] is the reference field, and the indexed fields are the host's
    field weights, in their order, each with its weight. *)
Theorem index_configuration (tasks : SearchTasks) (options : RebuildOptions)
  (search : SearchData) :
  (pipeline (index (searchJob tasks search)) = ["trimmer"] /\
   ref (index (searchJob tasks search)) = Some "id" /\
   fields (index (searchJob tasks search)) = searchFieldWeights) /\
  (pipeline (index (rebuildSearch search options)) = ["trimmer"] /\
   ref (index (rebuildSearch search options)) = Some "id" /\
   fields (index (rebuildSearch search options)) = searchFieldWeights).
Proof.
  destruct preparedBuilder_configuration as (Hp & Hr & Hf). split.
  - unfold Search.searchJob.
    pose proof (forEntries_configuration _ _ _ (searchJobRow_spec searchInComments searchInDocuments getReflectionClasses
                   projectReflections searchFields tasks)
                  (alterPhase tasks (rows search)) 0
                  (preparedBuilder searchFieldWeights)) as H.
    destruct (forEntries _ _ _ _) as [rows' b]. cbn in *.
    destruct H as (-> & -> & ->). done.
  - unfold Search.rebuildSearch.
    pose proof (forEntries_configuration _ _ _
                  (rebuildSearchRow_spec searchInComments searchInDocuments getReflectionClasses
                   projectReflections searchFields options)
                  (rows search) 0 (preparedBuilder searchFieldWeights)) as H.
    destruct (forEntries _ _ _ _) as [rows' b]. cbn in *.
    destruct H as (-> & -> & ->). done.
Qed.

(** X6. On both paths the documents of the index come in row order and
    their ids are strictly increasing positions of the row list, so no two
    documents share an id. *)
Theorem index_ids_increasing (tasks : SearchTasks) (options : RebuildOptions)
  (search : SearchData) :
  (exists ps,
     map docId (documents (index (searchJob tasks search)))
       = map (fun p => Some (FNumber p)) ps /\
     StronglySorted lt ps /\
     Forall (fun p => p < length (alterPhase tasks (rows search)))%nat ps) /\
  (exists ps,
     map docId (documents (index (rebuildSearch search options)))
       = map (fun p => Some (FNumber p)) ps /\
     StronglySorted lt ps /\
     Forall (fun p => p < length (rows search))%nat ps).
Proof.
  split.
  - unfold Search.searchJob.
    destruct (forEntries_ids _ _ _ (searchJobRow_spec searchInComments searchInDocuments getReflectionClasses
                   projectReflections searchFields tasks)
                (jobDocument_id searchInComments searchInDocuments getReflectionClasses
                   projectReflections searchFields tasks)
                (alterPhase tasks (rows search)) 0
                (preparedBuilder searchFieldWeights)) as (ps & Hmap & Hs & Hr).
    destruct (forEntries _ _ _ _) as [rows' b]. cbn in *.
    rewrite preparedBuilder_documents in Hmap. exists ps. repeat split; try done.
    eapply Forall_impl; [exact Hr|]. cbn. intros p. lia.
  - unfold Search.rebuildSearch.
    destruct (forEntries_ids _ _ _ (rebuildSearchRow_spec searchInComments searchInDocuments getReflectionClasses
                   projectReflections searchFields options)
                (legacyDocument_id searchInComments searchInDocuments getReflectionClasses
                   projectReflections searchFields options)
                (rows search) 0
                (preparedBuilder searchFieldWeights)) as (ps & Hmap & Hs & Hr).
    destruct (forEntries _ _ _ _) as [rows' b]. cbn in *.
    rewrite preparedBuilder_documents in Hmap. exists ps. repeat split; try done.
    eapply Forall_impl; [exact Hr|]. cbn. intros p. lia.
Qed.

(** X8. The entity a row is filled from is one of the project's
    entities with exactly the row's url; it is a declaration or a
    document, has a name, is not external, and is the first such entity
    in project order. *)
Theorem matched_entity (i : SearchItem) (idx : nat) (r : Reflection) :
  findReflection reflections (Some (url i)) = Some (idx, r) ->
  r ∈ projectReflections /\
  r_url r = Some (url i) /\
  (isDeclaration r || isDocument r) = true /\
  truthy (r_name r) = true /\
  r_isExternal r = false /\
  reflections !! idx = Some r /\
  (forall j r', reflections !! j = Some r' -> (j < idx)%nat -> r_url r' <> Some (url i)).
Proof.
  unfold findReflection. intros H. apply list_find_Some in H as (Hl & Hu & Hfirst).
  assert (Hin : r ∈ reflections) by (apply list_elem_of_lookup; eauto).
  apply list_elem_of_filter in Hin as [Hs Hin]. unfold searchable in Hs.
  apply andb_true_iff in Hs as [Hs Hext]. apply andb_true_iff in Hs as [Hs Hname].
  apply andb_true_iff in Hs as [Hclass Hurl].
  repeat split;
    first [ done | by apply negb_true_iff
          | intros j r' Hj Hlt; exact (Hfirst j r' Hj Hlt) ].
Qed.

(** X9. A row whose url belongs to no declaration or document that has a
    name and is not external is left as it is by the fill phase of both
    paths: an external, unnamed or other entity never fills a row. *)
Theorem unmatched_row (i : SearchItem) :
  (forall r, r ∈ projectReflections -> r_url r = Some (url i) -> searchable r = false) ->
  fillPhase i = i /\ fillPhaseLegacy i = i.
Proof.
  intros H.
  assert (Hnone : findReflection reflections (Some (url i)) = None).
  { apply list_find_None, Forall_forall. intros r Hin Hu.
    apply list_elem_of_filter in Hin as [Hs Hin].
    rewrite (H r Hin Hu) in Hs. discriminate Hs. }
  unfold Search.fillPhase, Search.fillPhaseLegacy. by rewrite Hnone.
Qed.

(** X11. With no format callbacks and no format options, a row with a
    non-empty url whose boost after the fill phase of the job is a number
    above 0 is filled the same way by both paths, and both add the same
    document for it, with the same boost. *)
Theorem paths_agree (id : nat) (row : SearchItem) (b : number) :
  truthy (url row) = true ->
  boost (fillPhase row) = Some b ->
  num_gt0 b = true ->
  fillPhaseLegacy row = fillPhase row /\
  legacyDocument {| formatName := None; formatComment := None; formatDocument := None |}
    id row
  = jobDocument {| alter := []; format := [] |} id row.
Proof.
  intros Hurl Hb Hgt.
  assert (Hle : num_le0 b = false).
  { destruct b as [|q]; [done|]. cbn in *. by apply negb_true_iff. }
  assert (Hfill : fillPhaseLegacy row = fillPhase row).
  { unfold Search.fillPhase, Search.fillPhaseLegacy in *.
    destruct (findReflection _ _) as [[idx r]|]; [|done].
    rewrite (fillLegacy_fields searchInComments searchInDocuments getReflectionClasses).
    rewrite (fill_fields searchInComments searchInDocuments getReflectionClasses) in *.
    cbn in Hb. destruct (boost row) as [b0|]; [done|].
    injection Hb as Hb. unfold coerceBoost. by rewrite Hb, Hle. }
  split; [exact Hfill|].
  unfold Search.legacyDocument, Search.jobDocument, Search.legacyFormatted,
    Search.formatted, formatPhase, applyFormat, indexable.
  cbn [formatName formatComment formatDocument format fold_left].
  rewrite Hurl, Hfill.
  assert (Hsame : forall x : SearchItem,
             set_document (document (set_comment (comment (set_name (name x) x))
                                       (set_name (name x) x)))
               (set_comment (comment (set_name (name x) x)) (set_name (name x) x)) = x)
    by (by intros []).
  rewrite Hsame.
  assert (Hu : url (fillPhase row) = url row).
  { unfold Search.fillPhase. destruct (findReflection _ _) as [[idx r]|]; [|done].
    apply (fill_url searchInComments searchInDocuments getReflectionClasses). }
  rewrite Hu, Hurl, Hb, Hgt. reflexivity.
Qed.

End SearchMore.

(** ** The search job on shared row objects *)

Section SharedRowsFacts.

Import Search.

Context (searchInComments searchInDocuments : bool).
Context (getReflectionClasses : Reflection -> string).
Context (projectReflections : list Reflection).
Context (searchFields : list (gmap string string)).
Context (searchFieldWeights : list (string * number)).

Local Abbreviation formatted :=
  (Search.formatted searchInComments searchInDocuments getReflectionClasses
     projectReflections).
Local Abbreviation searchJobRow :=
  (Search.searchJobRow searchInComments searchInDocuments getReflectionClasses
     projectReflections searchFields).
Local Abbreviation pass :=
  (SharedRows.pass searchInComments searchInDocuments getReflectionClasses
     projectReflections).
Local Abbreviation sharedEntries :=
  (SharedRows.forEntries searchInComments searchInDocuments getReflectionClasses
     projectReflections searchFields).
Local Abbreviation sharedJob :=
  (SharedRows.searchJob searchInComments searchInDocuments getReflectionClasses
     projectReflections searchFields searchFieldWeights).

(** The loop leaves an object as one pass for each position that holds
    it made it. *)
Lemma sharedEntries_store tasks rs : forall id st b r,
  fst (sharedEntries tasks id rs st b) r
  = Nat.iter (SharedRows.positions rs r) (pass tasks) (st r).
Proof.
  induction rs as [|r0 rest IH]; intros id st b r; [reflexivity|].
  cbn [SharedRows.forEntries]. rewrite searchJobRow_spec, IH.
  unfold SharedRows.positions. cbn [count_occ].
  destruct (Nat.eq_dec r0 r) as [->|Hne].
  - rewrite fn_lookup_insert. by rewrite Nat.iter_succ_r.
  - by rewrite fn_lookup_insert_ne.
Qed.

Lemma sharedJob_rows tasks search :
  rows (sharedJob tasks search) =
  map (fun r => Nat.iter (SharedRows.positions
                            (SharedRows.refs (SharedRows.alterPhase tasks search)) r)
                  (pass tasks)
                  (SharedRows.store (SharedRows.alterPhase tasks search) r))
      (SharedRows.refs (SharedRows.alterPhase tasks search)).
Proof.
  unfold SharedRows.searchJob.
  pose proof (sharedEntries_store tasks
                (SharedRows.refs (SharedRows.alterPhase tasks search)) 0
                (SharedRows.store (SharedRows.alterPhase tasks search))
                (preparedBuilder searchFieldWeights)) as H.
  destruct (SharedRows.forEntries _ _ _ _ _ _ _ _ _ _) as [st b]. cbn [rows fst] in *.
  apply map_ext. exact H.
Qed.

(** When no object is listed twice, the loop over the objects does what
    the loop over their values does: the same rows, the same index. *)
Lemma sharedEntries_distinct tasks rs : forall id st b,
  NoDup rs ->
  Search.forEntries (searchJobRow (SharedRows.formatTasks tasks)) id (map st rs) b
  = (map (fst (sharedEntries tasks id rs st b)) rs, snd (sharedEntries tasks id rs st b)).
Proof.
  induction rs as [|r rest IH]; intros id st b Hnd; [reflexivity|].
  apply NoDup_cons in Hnd as [Hnotin Hnd].
  cbn [map Search.forEntries SharedRows.forEntries].
  destruct (searchJobRow _ id (st r) b) as [item b'] eqn:E.
  specialize (IH (S id) (<[r:=item]> st) b' Hnd).
  assert (Hmap : map (<[r:=item]> st) rest = map st rest).
  { apply map_ext_in. intros x Hx. apply fn_lookup_insert_ne. intros ->.
    apply Hnotin. by apply list_elem_of_In. }
  rewrite Hmap in IH. rewrite IH. f_equal. f_equal.
  rewrite sharedEntries_store. unfold SharedRows.positions.
  rewrite (proj1 (count_occ_not_In Nat.eq_dec rest r)).
  - cbn [Nat.iter nat_rect]. by rewrite fn_lookup_insert.
  - intros Hin. apply Hnotin. by apply list_elem_of_In.
Qed.

Lemma distinct_rows_as_values tasks search :
  NoDup (SharedRows.refs (SharedRows.alterPhase tasks search)) ->
  sharedJob tasks search =
  Search.searchJob searchInComments searchInDocuments getReflectionClasses
    projectReflections searchFields searchFieldWeights (SharedRows.formatTasks tasks)
    {| rows := map (SharedRows.store (SharedRows.alterPhase tasks search))
                 (SharedRows.refs (SharedRows.alterPhase tasks search));
       index := newBuilder |}.
Proof.
  intros Hnd. unfold SharedRows.searchJob, Search.searchJob.
  unfold Search.alterPhase. cbn [SharedRows.formatTasks Search.alter fold_left rows].
  rewrite (sharedEntries_distinct tasks _ 0 _ _ Hnd).
  by destruct (SharedRows.forEntries _ _ _ _ _ _ _ _ _ _) as [st b].
Qed.

(** X7. The job works on row objects in place. A row object that the row
    list holds at several positions goes through the fill, the format
    callbacks, the name default and the three deletes once for each of
    these positions, and each of them persists the object as the last
    pass left it. However often it is listed, the persisted row has a
    [name] and no [comment], [document] or [boost]. Listed once, it is
    the row as it stood after the format callbacks, with the same [url],
    [kind], [classes] and [parent], and the empty string for a [name]
    that was not set. *)
Theorem persisted_row (tasks : SharedRows.SearchTasks) (search : SharedRows.Rows)
  (pos : nat) (r : SharedRows.Ref) :
  SharedRows.refs (SharedRows.alterPhase tasks search) !! pos = Some r ->
  let item := SharedRows.store (SharedRows.alterPhase tasks search) r in
  let times :=
    SharedRows.positions (SharedRows.refs (SharedRows.alterPhase tasks search)) r in
  exists row,
    rows (sharedJob tasks search) !! pos = Some row /\
    row = Nat.iter times (pass tasks) item /\
    (1 <= times)%nat /\
    name row <> None /\
    stripped row /\
    (times = 1%nat ->
     url row = url (formatted (SharedRows.formatTasks tasks) item) /\
     kind row = kind (formatted (SharedRows.formatTasks tasks) item) /\
     classes row = classes (formatted (SharedRows.formatTasks tasks) item) /\
     parent row = parent (formatted (SharedRows.formatTasks tasks) item) /\
     name row = Some (nullish (name (formatted (SharedRows.formatTasks tasks) item)) "")).
Proof.
  intros Hpos item times.
  assert (Htimes : (1 <= times)%nat).
  { subst times. unfold SharedRows.positions.
    apply (proj1 (count_occ_In Nat.eq_dec _ r)).
    apply list_elem_of_In. apply list_elem_of_lookup. by exists pos. }
  exists (Nat.iter times (pass tasks) item). split.
  { rewrite sharedJob_rows, list_lookup_fmap, Hpos. reflexivity. }
  split; [reflexivity|]. split; [exact Htimes|].
  destruct times as [|k]; [lia|]. cbn [Nat.iter nat_rect].
  split; [discriminate|]. split; [by repeat split|].
  intros Hk. injection Hk as ->. by repeat split.
Qed.

End SharedRowsFacts.

(** X10. With the setting [searchInComments] off the fill leaves the
    comment of a row as it was, and with [searchInDocuments] off its
    document, on both paths; and an entity that is not a document never
    provides one. *)
Theorem settings_gate_fill (sc sd : bool) (theme : Reflection -> string)
  (r : Reflection) (i : Search.SearchItem) :
  Search.comment (Search.fill false sd theme r i) = Search.comment i /\
  Search.comment (Search.fillLegacy false sd theme r i) = Search.comment i /\
  Search.document (Search.fill sc false theme r i) = Search.document i /\
  Search.document (Search.fillLegacy sc false theme r i) = Search.document i /\
  (isDocument r = false ->
   Search.document (Search.fill sc sd theme r i) = Search.document i /\
   Search.document (Search.fillLegacy sc sd theme r i) = Search.document i).
Proof.
  rewrite !fill_fields, !fillLegacy_fields, !fillCommon_fields.
  destruct i as [u k n c p cm d b]. cbn.
  repeat split; try (by destruct cm); try (by destruct d).
  - destruct d; [done|]. destruct sd; [|done].
    unfold documentText. unfold isDocument in H. by destruct (r_class r).
  - destruct d; [done|]. destruct sd; [|done].
    unfold documentText. unfold isDocument in H. by destruct (r_class r).
Qed.

(** X12. In the document handed to [builder.add], [id] is always the
    position, whatever the host's extra fields say; [name], [comment] and
    [document] are the row's unless an extra field of that name replaces
    them; every other member is an extra field. *)
Theorem indexDocument_members (item : Search.SearchItem)
  (extra : gmap string string) (id : nat) (key : string) :
  let d := Search.indexDocument item extra id in
  let orElse (k : string) (own : option string) :=
    Some (match extra !! k with
          | Some s => Search.FString s
          | None => Search.optField own
          end) in
  d !! "id" = Some (Search.FNumber id) /\
  d !! "name" = orElse "name" (Search.name item) /\
  d !! "comment" = orElse "comment" (Search.comment item) /\
  d !! "document" = orElse "document" (Search.document item) /\
  (key <> "id" -> key <> "name" -> key <> "comment" -> key <> "document" ->
   d !! key = Search.FString <$> extra !! key).
Proof.
  cbn zeta. unfold Search.indexDocument. split; [apply lookup_insert_eq|].
  assert (Hextra : forall k base,
            ((Search.FString <$> extra) ∪ base) !! k =
            match extra !! k with
            | Some s => Some (Search.FString s)
            | None => base !! k
            end).
  { intros k base. destruct (extra !! k) as [s|] eqn:E.
    - apply lookup_union_Some_l. by rewrite lookup_fmap, E.
    - apply lookup_union_r. by rewrite lookup_fmap, E. }
  repeat split.
  - rewrite lookup_insert_ne, Hextra by done.
    destruct (extra !! "name"); [done|].
    rewrite !lookup_insert_ne by done. by rewrite lookup_insert_eq.
  - rewrite lookup_insert_ne, Hextra by done.
    destruct (extra !! "comment"); [done|].
    rewrite lookup_insert_ne by done. by rewrite lookup_insert_eq.
  - rewrite lookup_insert_ne, Hextra by done.
    destruct (extra !! "document"); [done|]. by rewrite lookup_insert_eq.
  - intros H1 H2 H3 H4.
    rewrite lookup_insert_ne, Hextra by done.
    destruct (extra !! key); [done|].
    rewrite !lookup_insert_ne by done. by rewrite lookup_empty.
Qed.

(** ** More on the navigation merge *)

Section NavigationMore.

Import Navigation NavigationTrees.

Context (getReflectionClasses : Reflection -> string).
Context (projectReflections : list Reflection).
Context (tasks : NavigationTasks).

Local Abbreviation fillPhase := (Navigation.fillPhase getReflectionClasses projectReflections).
Local Abbreviation formatNode :=
  (Navigation.formatNode getReflectionClasses projectReflections tasks).
Local Abbreviation formatNavigationItem :=
  (Navigation.formatNavigationItem getReflectionClasses projectReflections tasks).
Local Abbreviation formatNavigationItems :=
  (Navigation.formatNavigationItems getReflectionClasses projectReflections tasks).

Lemma formatNode_without_callbacks item :
  format tasks = [] -> formatNode item = fillPhase item.
Proof.
  intros H. unfold Navigation.formatNode, Navigation.formatPhase. rewrite H. cbn.
  by destruct (fillPhase item).
Qed.

Lemma formatNavigationItem_unfold p t k c ch :
  formatNavigationItem (mkNavigationItem p t k c ch) =
  let node := formatNode (mkNavigationItem p t k c ch) in
  mkNavigationItem (path node) (text node) (kind node) (class node)
    match ch with
    | Some (child :: rest) => Some (map formatNavigationItem (child :: rest))
    | other => other
    end.
Proof. reflexivity. Qed.

Lemma fillPhase_twice p t k c ch ch' :
  let node := fillPhase (mkNavigationItem p t k c ch) in
  fillPhase (mkNavigationItem p (text node) (kind node) (class node) ch') =
  mkNavigationItem p (text node) (kind node) (class node) ch'.
Proof.
  cbn zeta. unfold Navigation.fillPhase. cbn [path].
  destruct (findReflection _ p) as [[idx r]|]; [|reflexivity].
  by destruct t, k, c.
Qed.

Lemma fillPhase_path item : path (fillPhase item) = path item.
Proof.
  unfold Navigation.fillPhase. by destruct (findReflection _ _) as [[idx r]|].
Qed.

(** X13. With no format callback registered, walking a navigation tree a
    second time changes nothing: the first walk fills what was unset, and
    nothing that is set is filled again. *)
Theorem navigation_walk_idempotent (items : list NavigationItem) :
  format tasks = [] ->
  formatNavigationItems (formatNavigationItems items) = formatNavigationItems items.
Proof.
  intros Hnone.
  assert (H : forall item,
             formatNavigationItem (formatNavigationItem item) = formatNavigationItem item).
  { induction item as [p t k c ch IH] using NavigationItem_tree_ind.
    rewrite (formatNavigationItem_unfold p t k c ch). cbn zeta.
    rewrite formatNavigationItem_unfold. cbn zeta.
    rewrite !formatNode_without_callbacks by done.
    rewrite !fillPhase_path. cbn [path].
    rewrite fillPhase_twice. cbn [path text kind class]. f_equal.
    destruct ch as [[|child rest]|]; [reflexivity| |reflexivity].
    cbn [map]. f_equal. apply Forall_cons in IH as [Hchild Hrest].
    f_equal; [exact Hchild|]. rewrite map_map.
    induction Hrest as [|x l Hx Hl IHl]; [reflexivity|]. cbn [map]. by rewrite Hx, IHl. }
  unfold Navigation.formatNavigationItems. rewrite map_map. apply map_ext. exact H.
Qed.

(** X14. With no format callback registered, a tree in which every node
    already has its text, kind and class comes out of the walk unchanged,
    whatever entities its paths match. *)
Theorem complete_tree_unchanged (items : list NavigationItem) :
  format tasks = [] ->
  forallb complete items = true ->
  formatNavigationItems items = items.
Proof.
  intros Hnone.
  assert (Hlist : forall l,
             Forall (fun x => complete x = true -> formatNavigationItem x = x) l ->
             forallb complete l = true -> map formatNavigationItem l = l).
  { induction l as [|x l IHl]; [reflexivity|]. intros Hall Hc.
    apply Forall_cons in Hall as [Hx Hl]. cbn [forallb] in Hc.
    apply andb_true_iff in Hc as [Hcx Hcl]. cbn [map].
    by rewrite (Hx Hcx), (IHl Hl Hcl). }
  assert (H : forall item, complete item = true -> formatNavigationItem item = item).
  { induction item as [p t k c ch IH] using NavigationItem_tree_ind.
    cbn [complete]. intros Hc.
    apply andb_true_iff in Hc as [Hc Hch]. apply andb_true_iff in Hc as [Hc Hclass].
    apply andb_true_iff in Hc as [Htext Hkind].
    rewrite formatNavigationItem_unfold. cbn zeta.
    rewrite formatNode_without_callbacks by done.
    assert (Hfill : fillPhase (mkNavigationItem p t k c ch) = mkNavigationItem p t k c ch).
    { unfold Navigation.fillPhase. cbn [path].
      destruct (findReflection _ p) as [[idx r]|]; [|reflexivity].
      apply bool_decide_eq_true in Htext as [? ->].
      apply bool_decide_eq_true in Hkind as [? ->].
      by apply bool_decide_eq_true in Hclass as [? ->]. }
    rewrite Hfill. cbn [path text kind class]. f_equal.
    destruct ch as [[|child rest]|]; [reflexivity| |reflexivity].
    f_equal. by apply Hlist. }
  intros Hall. unfold Navigation.formatNavigationItems.
  apply Hlist; [|exact Hall]. apply Forall_forall. intros x _. apply H.
Qed.

End NavigationMore.

(** ** README lookup and manifest content *)

Section ReadmeFacts.

Import Discovery Readme.

Context (statSync : Path -> option bool).
Context (readdirSync : Path -> option (list string)).
Context (resolve : string -> string).

(** The pattern with its [i] flag accepts exactly the names that are
    [readme.md] up to case. *)
Lemma isReadme_sameIgnoringCase name : isReadme name = sameIgnoringCase "readme.md" name.
Proof.
  unfold isReadme, sameIgnoringCase, testIgnoreCase.
  change readmePattern
    with (Some {| RegExp.items := RegExp.literal "readme.md" ++ [];
                  RegExp.anchoredEnd := true |}).
  cbn [RegExp.items RegExp.anchoredEnd].
  change (map canonicalizeItem (RegExp.literal "readme.md" ++ []))
    with (RegExp.literal "README.MD" ++ []).
  change (canonicalizeString "readme.md") with "README.MD".
  destruct (String.eqb_spec "README.MD" (canonicalizeString name)) as [<-|Hne];
    [reflexivity|].
  unfold RegExp.test, RegExp.exec. cbn [RegExp.items RegExp.anchoredEnd].
  destruct (RegExp.matchItems _ _ _ _ _) as [r|] eqn:E; [|reflexivity].
  apply matchItems_literal_inv in E as (s' & Hs & E).
  destruct s' as [|c s']; [|discriminate E]. by destruct Hne.
Qed.

Lemma find_isReadme names :
  List.find isReadme names = List.find (sameIgnoringCase "readme.md") names.
Proof.
  induction names as [|n names IH]; [reflexivity|].
  cbn [List.find]. by rewrite isReadme_sameIgnoringCase, IH.
Qed.

Lemma find_readme_truthy names :
  truthy_opt (List.find (sameIgnoringCase "readme.md") names)
  = existsb (sameIgnoringCase "readme.md") names.
Proof.
  induction names as [|n names IH]; [reflexivity|].
  cbn [List.find existsb]. destruct (sameIgnoringCase "readme.md" n) eqn:E; [|exact IH].
  by destruct n.
Qed.

Lemma find_same {A} (f g : A -> bool) (l : list A) :
  (forall a, f a = g a) -> List.find f l = List.find g l.
Proof.
  intros H. induction l as [|x l IH]; [reflexivity|].
  cbn [List.find]. by rewrite H, IH.
Qed.

(** The walk of [escalade], for any callback: the first directory on the
    way up that cannot be listed, or where the callback answers a
    non-empty name, decides. *)
Lemma climb_first (callback : Path -> list string -> option string) reversed :
  climb readdirSync callback reversed =
  match List.find (fun dir => match readdirSync dir with
                              | Some names => truthy_opt (callback dir names)
                              | None => true
                              end)
          (upward reversed) with
  | Some dir =>
      match readdirSync dir with
      | None => Throw
      | Some names =>
          match callback dir names with
          | Some name => Normal (Some (joinPath dir name))
          | None => Normal None
          end
      end
  | None => Normal None
  end.
Proof.
  induction reversed as [|seg up IH]; cbn [climb upward List.find];
    destruct (readdirSync _) as [names|] eqn:E; rewrite ?E; try reflexivity;
    destruct (callback _ _) as [[|c tmp]|] eqn:Ec; cbn [truthy_opt truthy];
    rewrite ?E, ?Ec; first [exact IH | reflexivity].
Qed.

(** X15. [getReadmeFile] answers [null] when the [readme] option is
    [none], and the resolved option, with forward slashes, when it is
    set, whatever the directories hold, even when the common root does
    not exist. Otherwise it walks: it throws when the common root does
    not exist, and when it reaches a directory that cannot be listed;
    else it answers with the first directory, from the common root
    upward, that lists a name equal to [readme.md] up to the case of its
    letters, and with the first such name in it; the answer is [null]
    when no directory has one. *)
Theorem getReadmeFile_lookup (readme : string) (commonDir : Path) :
  getReadmeFile statSync readdirSync resolve readme commonDir =
  if String.eqb readme "none" then Normal None
  else if truthy readme then Normal (Some (slashes (resolve readme)))
  else match readmeLookup statSync readdirSync commonDir with
       | Throw => Throw
       | Normal (Some file) => Normal (Some (slashes (pathString file)))
       | Normal None => Normal None
       end.
Proof.
  unfold getReadmeFile, readmeLookup, escalade.
  destruct (String.eqb readme "none"); [reflexivity|].
  destruct (truthy readme); [reflexivity|].
  destruct (statSync commonDir) as [isDirectory|]; [|reflexivity].
  rewrite climb_first. unfold readmeCallback.
  rewrite (find_same _ (fun dir => unlistable readdirSync dir || listsReadme readdirSync dir)).
  2:{ intros d. unfold unlistable, listsReadme.
      destruct (readdirSync d); [|reflexivity].
      by rewrite find_isReadme, find_readme_truthy. }
  destruct (List.find _ (upward _)) as [dir|]; [|reflexivity].
  destruct (readdirSync dir) as [names|]; [|reflexivity].
  rewrite find_isReadme. by destruct (List.find _ names).
Qed.

End ReadmeFacts.

Section ManifestFacts.

Import Discovery Manifest.

Context (statSync : Path -> option bool).
Context (readdirSync : Path -> option (list string)).
Context (readJsonFile : string -> option JSONValue).

Lemma upward_segments reversed dir :
  In dir (upward reversed) -> forall seg, In seg dir -> In seg reversed.
Proof.
  induction reversed as [|s up IH]; cbn [upward].
  - intros [<-|[]] seg Hseg. exact Hseg.
  - intros [<-|Hin] seg Hseg.
    + by apply in_rev.
    + right. by apply (IH Hin).
Qed.

Lemma pathString_cons seg rest :
  pathString (seg :: rest) = "/" +:+ seg +:+ fold_right (fun s acc => "/" +:+ s +:+ acc) "" rest.
Proof. reflexivity. Qed.

Lemma pathString_backslashFree (p : Path) :
  Forall backslashFree p -> backslashFree (pathString p).
Proof.
  unfold backslashFree. intros H. destruct p as [|seg rest].
  - cbn. repeat constructor. discriminate.
  - unfold pathString.
    induction (seg :: rest) as [|s l IH]; [constructor|].
    apply Forall_cons in H as [Hs Hl]. cbn [fold_right].
    rewrite !list_ascii_append. apply Forall_app. split.
    + cbn. repeat constructor. discriminate.
    + apply Forall_app. split; [exact Hs | by apply IH].
Qed.

(** The text of a path is never empty, before and after the slashes. *)
Lemma pathString_truthy (p : Path) : truthy (slashes (pathString p)) = true.
Proof. destruct p as [|seg rest]; reflexivity. Qed.

(** X16. [getPackageJson] throws whenever [getPackageFile] does, so in
    particular when the common root does not exist, and answers [null]
    when [getPackageFile] does. When no segment of the common root holds
    a backslash and [getPackageFile] answers with a path, it does not
    throw: it answers with the content of that file, which is an object
    with a string [name] and, if present, a string [version]. *)
Theorem getPackageJson_valid (commonDir : Path) :
  Forall backslashFree commonDir ->
  (statSync commonDir = None ->
   getPackageJson statSync readdirSync readJsonFile commonDir = Throw) /\
  match getPackageFile statSync readdirSync readJsonFile commonDir with
  | Throw => getPackageJson statSync readdirSync readJsonFile commonDir = Throw
  | Normal None => getPackageJson statSync readdirSync readJsonFile commonDir = Normal None
  | Normal (Some file) =>
      exists v,
        getPackageJson statSync readdirSync readJsonFile commonDir = Normal (Some v) /\
        readJsonFile file = Some v /\
        validManifest v = true
  end.
Proof.
  intros Hfree. split.
  { intros Hstat. unfold getPackageJson, Manifest.getPackageFile, Discovery.getPackageFile,
      escalade. by rewrite Hstat. }
  unfold getPackageJson, Manifest.getPackageFile, Discovery.getPackageFile, escalade.
  destruct (statSync commonDir) as [isDirectory|]; [|reflexivity].
  rewrite climb_find.
  set (start := if isDirectory then commonDir else dirname commonDir).
  assert (Hstart : Forall backslashFree start).
  { subst start. destruct isDirectory; [exact Hfree|].
    unfold dirname. apply Forall_forall. intros seg Hseg.
    apply (proj1 (Forall_forall _ _) Hfree).
    apply list_elem_of_In. apply list_elem_of_In in Hseg.
    destruct commonDir as [|s l] using rev_ind; [done|].
    rewrite removelast_last in Hseg. apply in_or_app. by left. }
  destruct (List.find _ (upward (rev start))) as [dir|] eqn:E; [|reflexivity].
  apply find_some in E as [Hin Hvalid].
  destruct (unlistable readdirSync dir) eqn:Hlist; [reflexivity|].
  cbn [orb] in Hvalid. unfold hasValidManifest in Hvalid.
  destruct (readdirSync dir) as [names|]; [|discriminate Hvalid].
  apply andb_true_iff in Hvalid as [_ Hvalid].
  unfold readJson in Hvalid.
  destruct (readJsonFile (pathString (joinPath dir "package.json"))) as [v|] eqn:Ev;
    [|discriminate Hvalid].
  assert (Hpath : slashes (pathString (joinPath dir "package.json"))
                  = pathString (joinPath dir "package.json")).
  { apply slashes_without_backslash. apply pathString_backslashFree.
    unfold joinPath. apply Forall_app. split.
    - apply Forall_forall. intros seg Hseg. apply (proj1 (Forall_forall _ _) Hstart).
      apply list_elem_of_In. apply list_elem_of_In in Hseg.
      apply in_rev. by apply (upward_segments _ _ Hin).
    - repeat constructor; discriminate. }
  rewrite pathString_truthy. cbn [negb]. rewrite Hpath, Ev.
  exists v. by repeat split.
Qed.

End ManifestFacts.

(** ** More on the codec *)

(** X17. Escaping makes a text match itself and nothing else: the
    pattern built from the start anchor, the escaped text and the end
    anchor always compiles, and it accepts a string exactly when the
    string is the text, whatever syntax characters the text holds. *)
Theorem escapeRegExp_exact (text s : string) :
  exists p,
    RegExp.compile ("^" +:+ RegExp.escapeRegExp text +:+ "$") = Some p /\
    RegExp.test p s = String.eqb text s.
Proof.
  exists {| RegExp.items := RegExp.literal text ++ []; RegExp.anchoredEnd := true |}.
  split.
  - change ("^" +:+ RegExp.escapeRegExp text +:+ "$")
      with (String "^" (RegExp.escapeRegExp text +:+ "$")).
    unfold RegExp.compile. rewrite scan_escapeRegExp.
    change (RegExp.scan "$") with (Some [RegExp.TDollar]). cbn iota.
    rewrite build_literal by reflexivity. reflexivity.
  - unfold RegExp.test, RegExp.exec. cbn [RegExp.items RegExp.anchoredEnd].
    destruct (String.eqb_spec text s) as [<-|Hne].
    + rewrite <- (append_nil_r text) at 2 3. by rewrite matchItems_literal.
    + destruct (RegExp.matchItems _ _ _ _ _) as [r|] eqn:E; [|reflexivity].
      apply matchItems_literal_inv in E as (s' & -> & E).
      destruct s' as [|c s']; [|discriminate E]. destruct Hne. by rewrite append_nil_r.
Qed.

Section CodecMore.

Import Codec Artifacts.

Context {Value : Type}.
Context (JSON_stringify : Value -> string) (JSON_parse : string -> option Value).
Context (gzip : string -> string) (gunzip : string -> option string).
Context (toBase64 fromBase64 : string -> string).

Local Abbreviation decodePayload := (Codec.decodePayload JSON_parse gunzip fromBase64).
Local Abbreviation readGzipJson := (Codec.readGzipJson JSON_parse gunzip fromBase64).

(** A text that does not start with the marker keeps all of itself. *)
Lemma stripDataUri_other (content : string) :
  (forall rest, content <> dataUriPrefix +:+ rest) ->
  stripDataUri content = Ok content.
Proof.
  intros H. unfold stripDataUri. rewrite compile_dataUri.
  unfold RegExp.replace, RegExp.exec. cbn [RegExp.items RegExp.anchoredEnd].
  destruct (RegExp.matchItems _ _ _ _ _) as [[g r]|] eqn:E; [|reflexivity].
  apply matchItems_literal_inv in E as (s' & Hs & _). by destruct (H s').
Qed.

Section Laws.

Hypothesis gunzip_gzip : forall buffer, gunzip (gzip buffer) = Some buffer.
Hypothesis fromBase64_toBase64 : forall buffer, fromBase64 (toBase64 buffer) = buffer.
Hypothesis toBase64_quoteFree : forall buffer, quoteFree (toBase64 buffer).
Hypothesis toBase64_unmarked :
  forall buffer rest, toBase64 buffer <> dataUriPrefix +:+ rest.

(** Reading a file that holds the encoded value in any of the forms. *)
Lemma read_framed (fs : Files) (file : string) (v : Value)
  (jsVariable : option string) (withMarker withSemicolon : bool) :
  JSON_parse (JSON_stringify v) = Some v ->
  fs !! file = Some (framed jsVariable withMarker withSemicolon
                       (toBase64 (gzip (JSON_stringify v)))) ->
  readGzipJson fs file jsVariable = Ok v.
Proof.
  intros Hv Hfile. unfold Codec.readGzipJson. rewrite Hfile. unfold framed.
  set (text := toBase64 (gzip (JSON_stringify v))).
  set (payload := (if withMarker then dataUriPrefix else "") +:+ text).
  assert (Hplain : match stripDataUri payload with
                   | Err e => Err e
                   | Ok content => decodePayload content
                   end = Ok v).
  { subst payload. destruct withMarker.
    - rewrite stripDataUri_prefix. by apply decodePayload_encoded.
    - change ("" +:+ text) with text. rewrite stripDataUri_other by apply toBase64_unmarked.
      by apply decodePayload_encoded. }
  destruct jsVariable as [name|]; [|exact Hplain].
  destruct (truthy name) eqn:Hname; [|exact Hplain].
  rewrite (stripAssignment_match name _ payload); [exact Hplain|].
  split.
  - subst payload. apply quoteFree_append; [|apply toBase64_quoteFree].
    destruct withMarker; [apply quoteFree_dataUriPrefix | constructor].
  - destruct withSemicolon; [by right | by left].
Qed.

(** X18. The decoder takes more than the encoder writes: the value is
    read back from its base64 text with or without the data-URI marker
    and, under a variable name, with or without the closing semicolon. *)
Theorem readGzipJson_framings (fs : Files) (file : string) (v : Value)
  (jsVariable : option string) (withMarker withSemicolon : bool) :
  JSON_parse (JSON_stringify v) = Some v ->
  readGzipJson
    (<[file := framed jsVariable withMarker withSemicolon
                 (toBase64 (gzip (JSON_stringify v)))]> fs)
    file jsVariable = Ok v.
Proof.
  intros Hv. eapply read_framed; [exact Hv|]. apply lookup_insert_eq.
Qed.

Context (resolve : string -> string -> string -> string).

Local Abbreviation readSearch :=
  (Artifacts.readSearch JSON_parse gunzip fromBase64 resolve).
Local Abbreviation writeSearch :=
  (Artifacts.writeSearch JSON_stringify gzip toBase64 resolve).
Local Abbreviation readNavigation :=
  (Artifacts.readNavigation JSON_parse gunzip fromBase64 resolve).
Local Abbreviation writeNavigation :=
  (Artifacts.writeNavigation JSON_stringify gzip toBase64 resolve).

Lemma encode_framed (v : Value) (jsVariable : option string) :
  Codec.encode JSON_stringify gzip toBase64 v jsVariable
  = framed jsVariable true true (toBase64 (gzip (JSON_stringify v))).
Proof. reflexivity. Qed.

(** X19. The two artifacts of one output directory do not disturb each
    other: once both are written, in either order, [readSearch] returns
    the search data and [readNavigation] the navigation tree; and writing
    one leaves what is read of the other as it was. *)
Theorem artifacts_independent (fs : Files) (out : string) (search navigation : Value) :
  resolve out "assets" "search.js" <> resolve out "assets" "navigation.js" ->
  JSON_parse (JSON_stringify search) = Some search ->
  JSON_parse (JSON_stringify navigation) = Some navigation ->
  readSearch (writeNavigation (writeSearch fs out search) out navigation) out = Ok search /\
  readNavigation (writeNavigation (writeSearch fs out search) out navigation) out
    = Ok navigation /\
  readSearch (writeSearch (writeNavigation fs out navigation) out search) out = Ok search /\
  readNavigation (writeSearch (writeNavigation fs out navigation) out search) out
    = Ok navigation /\
  readSearch (writeNavigation fs out navigation) out = readSearch fs out /\
  readNavigation (writeSearch fs out search) out = readNavigation fs out.
Proof.
  intros Hne Hs Hn.
  unfold Artifacts.readSearch, Artifacts.writeSearch, Artifacts.readNavigation,
    Artifacts.writeNavigation, Codec.writeGzipJson.
  repeat split.
  - eapply (read_framed _ _ _ _ true true); [exact Hs|].
    rewrite lookup_insert_ne by done. by rewrite lookup_insert_eq, encode_framed.
  - eapply (read_framed _ _ _ _ true true); [exact Hn|].
    by rewrite lookup_insert_eq, encode_framed.
  - eapply (read_framed _ _ _ _ true true); [exact Hs|].
    by rewrite lookup_insert_eq, encode_framed.
  - eapply (read_framed _ _ _ _ true true); [exact Hn|].
    rewrite lookup_insert_ne by done. by rewrite lookup_insert_eq, encode_framed.
  - unfold Codec.readGzipJson. by rewrite lookup_insert_ne.
  - unfold Codec.readGzipJson. by rewrite lookup_insert_ne.
Qed.

End Laws.

End CodecMore.

(** ** Registrations *)

(** X3. From a process where nothing is registered, after any calls of
    the four registration functions on any applications, the search
    callbacks stored for an application are exactly those handed over for
    it, alter and format apart, in call order; there is no entry when
    there was no such call; and the search job was queued on the
    application once if there was one, not at all otherwise, however many
    callbacks were registered. *)
Theorem search_registry (jobs : gmap Registry.Application (list Registry.Job))
  (app : Registry.Application) (calls : list Registry.Call) :
  let h := Registry.performAll calls (Registry.freshHost jobs) in
  Registry.searchTasksStore h !! app =
    (if Registry.registersSearch app calls
     then Some {| Search.alter := Registry.searchAlters app calls;
                  Search.format := Registry.searchFormats app calls |}
     else None) /\
  Registry.queued Registry.SearchJob app h =
    (Registry.queued Registry.SearchJob app (Registry.freshHost jobs) +
     if Registry.registersSearch app calls then 1 else 0)%nat /\
  Registry.queued Registry.HostJob app h
    = Registry.queued Registry.HostJob app (Registry.freshHost jobs).
Proof.
  destruct (performAll_state jobs app calls) as (H1 & _ & H3 & _ & H5).
  by repeat split.
Qed.

(** X4. The same for the navigation registry: the stored navigation
    callbacks of an application are those handed over for it, in call
    order, and its navigation job is queued once if there are any, not at
    all otherwise. *)
Theorem navigation_registry (jobs : gmap Registry.Application (list Registry.Job))
  (app : Registry.Application) (calls : list Registry.Call) :
  let h := Registry.performAll calls (Registry.freshHost jobs) in
  Registry.navigationTasksStore h !! app =
    (if Registry.registersNavigation app calls
     then Some {| Navigation.alter := Registry.navigationAlters app calls;
                  Navigation.format := Registry.navigationFormats app calls |}
     else None) /\
  Registry.queued Registry.NavigationJob app h =
    (Registry.queued Registry.NavigationJob app (Registry.freshHost jobs) +
     if Registry.registersNavigation app calls then 1 else 0)%nat.
Proof.
  destruct (performAll_state jobs app calls) as (_ & H2 & _ & H4 & _).
  by repeat split.
Qed.

(** Three search registrations and one navigation registration. *)
Example registrations :
  let h := Registry.performAll Samples.calls (Registry.freshHost ∅) in
  Registry.postRenderAsyncJobs h !! 1%positive = Some [Registry.SearchJob] /\
  Registry.postRenderAsyncJobs h !! 2%positive = Some [Registry.NavigationJob] /\
  Registry.searchTasksStore h !! 2%positive = None /\
  (Search.alter <$> Registry.searchTasksStore h !! 1%positive)
    = Some [Samples.prepend; (fun rs => rev rs)].
Proof. repeat split. Qed.

(** ** Sample runs of the further properties *)

Lemma persisted_row_witness :
  SharedRows.refs (SharedRows.alterPhase Samples.sharedTasks Samples.oneRow) !! 1%nat
    = Some 0%nat /\
  exists row,
    Search.rows (SharedRows.searchJob false false Examples.theme Examples.project [] []
                   Samples.sharedTasks Samples.oneRow) !! 1%nat = Some row /\
    SharedRows.positions
      (SharedRows.refs (SharedRows.alterPhase Samples.sharedTasks Samples.oneRow)) 0%nat
      = 2%nat /\
    Search.name row = Some "Foo!!" /\
    Search.stripped row.
Proof.
  split; [reflexivity|].
  destruct (persisted_row false false Examples.theme Examples.project [] []
              Samples.sharedTasks Samples.oneRow 1 0 eq_refl)
    as (row & Hrow & Heq & _ & _ & Hstripped & _).
  exists row. split; [exact Hrow|]. split; [reflexivity|]. split; [|exact Hstripped].
  rewrite Heq. vm_compute. reflexivity.
Defined.

Lemma matched_entity_witness :
  findReflection (Search.reflections Examples.project) (Some "b.html")
    = Some (1%nat, Examples.bar) /\
  Examples.bar ∈ Examples.project /\
  r_isExternal Examples.bar = false.
Proof.
  split; [reflexivity|].
  destruct (matched_entity Examples.project (Examples.bare "b.html") 1 Examples.bar eq_refl)
    as (Hin & _ & _ & _ & Hext & _).
  split; assumption.
Defined.

Lemma external_is_not_searchable (r : Reflection) :
  r ∈ Samples.projectWithExternal -> r_url r = Some "x.html" ->
  Search.searchable r = false.
Proof.
  unfold Samples.projectWithExternal, Examples.project. intros Hin Hu.
  repeat (apply elem_of_cons in Hin as [->|Hin]); try discriminate Hu; try reflexivity.
  by apply elem_of_nil in Hin.
Qed.

Lemma unmatched_row_witness :
  (forall r, r ∈ Samples.projectWithExternal -> r_url r = Some "x.html" ->
             Search.searchable r = false) /\
  Search.fillPhase false false Examples.theme Samples.projectWithExternal
    (Examples.bare "x.html") = Examples.bare "x.html".
Proof.
  split; [exact external_is_not_searchable|].
  exact (proj1 (unmatched_row false false Examples.theme Samples.projectWithExternal
                  (Examples.bare "x.html") external_is_not_searchable)).
Defined.

Lemma paths_agree_witness :
  (truthy "a.html" = true /\
   Search.boost (Search.fillPhase false false Examples.theme Examples.project
                   (Examples.bare "a.html")) = Some (Num 1) /\
   num_gt0 (Num 1) = true) /\
  Search.legacyDocument false false Examples.theme Examples.project []
    Examples.noOptions 0 (Examples.bare "a.html")
  = Search.jobDocument false false Examples.theme Examples.project []
      {| Search.alter := []; Search.format := [] |} 0 (Examples.bare "a.html").
Proof.
  split; [repeat split|].
  exact (proj2 (paths_agree false false Examples.theme Examples.project [] 0
                  (Examples.bare "a.html") (Num 1) eq_refl eq_refl eq_refl)).
Defined.

Lemma navigation_walk_idempotent_witness :
  Navigation.format Examples.noNavigationTasks = [] /\
  Navigation.formatNavigationItems Examples.theme Examples.project Examples.noNavigationTasks
    (Navigation.formatNavigationItems Examples.theme Examples.project
       Examples.noNavigationTasks [Examples.tree])
  = Navigation.formatNavigationItems Examples.theme Examples.project
      Examples.noNavigationTasks [Examples.tree].
Proof.
  split; [reflexivity|].
  apply (navigation_walk_idempotent Examples.theme Examples.project
           Examples.noNavigationTasks [Examples.tree] eq_refl).
Defined.

Lemma complete_tree_unchanged_witness :
  (Navigation.format Examples.noNavigationTasks = [] /\
   forallb NavigationTrees.complete [Samples.labelled] = true) /\
  Navigation.formatNavigationItems Examples.theme Examples.project Examples.noNavigationTasks
    [Samples.labelled] = [Samples.labelled].
Proof.
  split; [split; reflexivity|].
  apply (complete_tree_unchanged Examples.theme Examples.project
           Examples.noNavigationTasks [Samples.labelled] eq_refl eq_refl).
Defined.

Lemma repo_pkg_backslashFree : Forall Manifest.backslashFree ["repo"; "pkg"].
Proof. repeat constructor; discriminate. Qed.

Lemma repo_missing_backslashFree : Forall Manifest.backslashFree ["repo"; "missing"].
Proof. repeat constructor; discriminate. Qed.

Lemma getPackageJson_valid_witness :
  (Forall Manifest.backslashFree ["repo"; "pkg"] /\
   Manifest.getPackageJson Examples.statSync Examples.readdirSync Samples.readJsonFile
     ["repo"; "pkg"]
   = Discovery.Normal
       (Some (JObject [("name", JString "root"); ("version", JString "1.0.0")]))) /\
  (Forall Manifest.backslashFree ["repo"; "missing"] /\
   Examples.statSync ["repo"; "missing"] = None /\
   Manifest.getPackageJson Examples.statSync Examples.readdirSync Samples.readJsonFile
     ["repo"; "missing"]
   = Discovery.Throw).
Proof.
  split.
  - split; [exact repo_pkg_backslashFree|].
    destruct (getPackageJson_valid Examples.statSync Examples.readdirSync
                Samples.readJsonFile ["repo"; "pkg"] repo_pkg_backslashFree)
      as [_ H].
    change (Manifest.getPackageFile Examples.statSync Examples.readdirSync
              Samples.readJsonFile ["repo"; "pkg"])
      with (Discovery.Normal (Some "/repo/package.json")) in H.
    destruct H as (v & Hjson & Hread & _).
    vm_compute in Hread. injection Hread as <-. exact Hjson.
  - split; [exact repo_missing_backslashFree|]. split; [reflexivity|].
    apply (proj1 (getPackageJson_valid Examples.statSync Examples.readdirSync
                    Samples.readJsonFile ["repo"; "missing"] repo_missing_backslashFree)).
    reflexivity.
Defined.

Lemma encodeChar_not_colon (x : Runtime.Sextet) : Runtime.encodeChar x <> ":"%char.
Proof. destruct x as [[[[[[] []] []] []] []] []]; discriminate. Qed.

Lemma runtime_toBase64_unmarked (buffer rest : string) :
  Runtime.toBase64 buffer <> Codec.dataUriPrefix +:+ rest.
Proof.
  intros H. destruct buffer as [|a [|b [|c more]]]; cbn [Runtime.toBase64] in H.
  - discriminate H.
  - destruct (Runtime.split3 a _ _) as [[[s0 s1] s2] s3]. discriminate H.
  - destruct (Runtime.split3 a b _) as [[[s0 s1] s2] s3]. discriminate H.
  - destruct (Runtime.split3 a b c) as [[[s0 s1] s2] s3].
    injection H as _ _ _ _ H.
    destruct more as [|a' [|b' [|c' more']]]; cbn [Runtime.toBase64] in H.
    + discriminate H.
    + destruct (Runtime.split3 a' _ _) as [[[t0 t1] t2] t3].
      injection H as H _. by apply encodeChar_not_colon in H.
    + destruct (Runtime.split3 a' b' _) as [[[t0 t1] t2] t3].
      injection H as H _. by apply encodeChar_not_colon in H.
    + destruct (Runtime.split3 a' b' c') as [[[t0 t1] t2] t3].
      injection H as H _. by apply encodeChar_not_colon in H.
Qed.

Lemma readGzipJson_framings_witness :
  Runtime.JSON_parse (Runtime.JSON_stringify Examples.emptySearch)
    = Some Examples.emptySearch /\
  Runtime.readGzipJson
    (<["search.js" :=
         Artifacts.framed (Some "window.searchData") false false
           (Runtime.toBase64 (Runtime.gzip (Runtime.JSON_stringify Examples.emptySearch)))]> ∅)
    "search.js" (Some "window.searchData")
  = Codec.Ok Examples.emptySearch.
Proof.
  split; [reflexivity|].
  apply (readGzipJson_framings Runtime.JSON_stringify Runtime.JSON_parse
           Runtime.gzip Runtime.gunzip Runtime.toBase64 Runtime.fromBase64
           runtime_gunzip_gzip runtime_fromBase64_toBase64
           runtime_toBase64_quoteFree runtime_toBase64_unmarked).
  reflexivity.
Defined.

Lemma artifacts_independent_witness :
  (Samples.resolve "/docs" "assets" "search.js"
     <> Samples.resolve "/docs" "assets" "navigation.js" /\
   Runtime.JSON_parse (Runtime.JSON_stringify Examples.emptySearch)
     = Some Examples.emptySearch /\
   Runtime.JSON_parse (Runtime.JSON_stringify (JArray [])) = Some (JArray [])) /\
  Artifacts.readSearch Runtime.JSON_parse Runtime.gunzip Runtime.fromBase64 Samples.resolve
    (Artifacts.writeNavigation Runtime.JSON_stringify Runtime.gzip Runtime.toBase64
       Samples.resolve
       (Artifacts.writeSearch Runtime.JSON_stringify Runtime.gzip Runtime.toBase64
          Samples.resolve ∅ "/docs" Examples.emptySearch)
       "/docs" (JArray []))
    "/docs"
  = Codec.Ok Examples.emptySearch.
Proof.
  assert (Hne : Samples.resolve "/docs" "assets" "search.js"
                <> Samples.resolve "/docs" "assets" "navigation.js") by discriminate.
  split; [repeat split; [exact Hne | reflexivity..]|].
  exact (proj1 (artifacts_independent Runtime.JSON_stringify Runtime.JSON_parse
                  Runtime.gzip Runtime.gunzip Runtime.toBase64 Runtime.fromBase64
                  runtime_gunzip_gzip runtime_fromBase64_toBase64
                  runtime_toBase64_quoteFree runtime_toBase64_unmarked
                  Samples.resolve ∅ "/docs" Examples.emptySearch (JArray [])
                  Hne eq_refl eq_refl)).
Defined.

(** The README of the scenario's tree, the two overrides, and a common
    root that does not exist: the overrides do not look at it, the walk
    throws. *)
Example readme_walk :
  Readme.getReadmeFile Examples.statSync Examples.readdirSync (fun p => "/cwd/" +:+ p)
    "" ["repo"; "pkg"] = Discovery.Normal (Some "/repo/README.md") /\
  Readme.getReadmeFile Examples.statSync Examples.readdirSync (fun p => "/cwd/" +:+ p)
    "none" ["repo"; "missing"] = Discovery.Normal None /\
  Readme.getReadmeFile Examples.statSync Examples.readdirSync (fun p => "/cwd/" +:+ p)
    "docs\intro.md" ["repo"; "missing"] = Discovery.Normal (Some "/cwd/docs/intro.md") /\
  Readme.getReadmeFile Examples.statSync Examples.readdirSync (fun p => "/cwd/" +:+ p)
    "" ["repo"; "missing"] = Discovery.Throw.
Proof. repeat split; vm_compute; reflexivity. Qed.
